(** * The product recommendation pipeline (src/models/recommendation_pipeline.py)

    A shallow embedding of [ProductRecommendation]: every DataFrame is a list
    of typed rows in its physical order, every DataFrame operation a list
    function, and the methods of the class are functions that pass the
    attributes of [self] along explicitly.  The Spark and pandas calls the
    source makes are embedded with the parameters the source gives them and
    the library defaults for the ones it leaves out; each such default is
    named in the comment of the definition that depends on it.  The
    repository pins no version of Spark; where versions differ in what the
    source's calls do, the difference is a parameter.  The random forest and
    the pseudo-random generator behind [randomSplit] are opaque: they are the
    variables of [Section Pipeline]. *)

From Stdlib Require Import String Ascii Bool Arith ZArith QArith Qabs List Lia.
From Stdlib Require Import Permutation Sorted Lqa.
Import ListNotations.

Open Scope Z_scope.
Open Scope list_scope.

(** ** Exceptions *)

(** The exceptions a run can end with.  [ClassifierException] stands for
    whatever [RandomForestClassifier.fit] raises. *)
Inductive exn : Type :=
| AttributeError (obj attr : string)
| IllegalArgumentException (msg : string)
| ValueError
| ClassifierException.

Inductive result (A : Type) : Type :=
| Ok (a : A)
| Raise (e : exn).

Arguments Ok {A} a.
Arguments Raise {A} e.

Definition bind {A B : Type} (m : result A) (k : A -> result B) : result B :=
  match m with
  | Ok a => k a
  | Raise e => Raise e
  end.

Notation "x <- m ;; k" := (bind m (fun x => k))
  (at level 61, m at next level, right associativity).

(** ** Generic table operations *)

Section Tables.

Context {A K : Type}.
Variable eq_dec : forall x y : K, {x = y} + {x <> y}.

(** The distinct values of a column, in the order of first appearance. *)
Fixpoint distinct (l : list K) : list K :=
  match l with
  | [] => []
  | x :: t => x :: remove eq_dec x (distinct t)
  end.

(** [groupBy(col).count()]: one row per distinct value with the number of
    rows that carry it. *)
Definition groupBy_count (l : list K) : list (K * nat) :=
  map (fun k => (k, count_occ eq_dec l k)) (distinct l).

(** [orderBy(desc(key))] as a stable sort: rows with equal keys keep the
    order they arrive in (Spark leaves that order open). *)
Fixpoint insert_desc (key : A -> Z) (x : A) (l : list A) : list A :=
  match l with
  | [] => [x]
  | y :: t => if key x <? key y then y :: insert_desc key x t else x :: y :: t
  end.

Fixpoint orderBy_desc (key : A -> Z) (l : list A) : list A :=
  match l with
  | [] => []
  | x :: t => insert_desc key x (orderBy_desc key t)
  end.

(** The order of a table sorted by [orderBy_desc]. *)
Definition desc (key : A -> Z) (a b : A) : Prop := key b <= key a.

(** A stable sort into the ascending order of a test [leb]. *)
Fixpoint insert_by (leb : A -> A -> bool) (x : A) (l : list A) : list A :=
  match l with
  | [] => [x]
  | y :: t => if leb x y then x :: y :: t else y :: insert_by leb x t
  end.

Fixpoint sort_by (leb : A -> A -> bool) (l : list A) : list A :=
  match l with
  | [] => []
  | x :: t => insert_by leb x (sort_by leb t)
  end.

(** [Window.partitionBy(col)]: one partition per distinct key. *)
Definition partitionBy (col : A -> K) (l : list A) : list (list A) :=
  map (fun k => filter (fun r => if eq_dec (col r) k then true else false) l)
      (distinct (map col l)).

(** [row_number()] over an ordered partition: 1, 2, 3, ... *)
Definition row_number (part : list A) : list (nat * A) :=
  combine (seq 1 (length part)) part.

(** Position of a value in a list of labels. *)
Fixpoint index_of (x : K) (labels : list K) : nat :=
  match labels with
  | [] => 0
  | y :: t => if eq_dec x y then 0%nat else S (index_of x t)
  end.

Definition mem (x : K) (l : list K) : bool :=
  if in_dec eq_dec x l then true else false.

End Tables.

(** ** Text *)

(** Keyword text is a sequence of Unicode code points. *)
Definition text : Type := list Z.

Definition text_eq_dec : forall a b : text, {a = b} + {a <> b} :=
  list_eq_dec Z.eq_dec.

Definition text_of_string (s : string) : text :=
  map (fun a => Z.of_nat (nat_of_ascii a)) (list_ascii_of_string s).

Definition is_ascii_upper (c : Z) : bool := (65 <=? c) && (c <=? 90).
Definition is_ascii_lower (c : Z) : bool := (97 <=? c) && (c <=? 122).

(** The range 가-힣 of the regular expression: U+AC00 to U+D7A3. *)
Definition is_hangul_syllable (c : Z) : bool := (44032 <=? c) && (c <=? 55203).

(** [lower]: A-Z go to a-z.  Outside ASCII only the two code points whose
    lower case contains an ASCII letter are spelled out (KELVIN SIGN and
    LATIN CAPITAL LETTER I WITH DOT ABOVE); every other code point neither is
    nor becomes a character the regular expression below keeps, so it is left
    as it is. *)
Definition lower_codepoint (c : Z) : list Z :=
  if is_ascii_upper c then [c + 32]
  else if c =? 8490 then [107]
  else if c =? 304 then [105; 775]
  else [c].

Definition lower (s : text) : text := flat_map lower_codepoint s.

(** The characters the class [^가-힣a-zA-Z] does not match. *)
Definition kept_by_regexp (c : Z) : bool :=
  is_hangul_syllable c || is_ascii_lower c || is_ascii_upper c.

(** [regexp_replace(s, "[^가-힣a-zA-Z]", "")] *)
Definition regexp_replace_non_letters (s : text) : text := filter kept_by_regexp s.

(** [regexp_replace(lower(col("keyword")), "[^가-힣a-zA-Z]", "")] *)
Definition normalize (s : text) : text := regexp_replace_non_letters (lower s).

Fixpoint is_prefix (p s : text) : bool :=
  match p, s with
  | [], _ => true
  | _ :: _, [] => false
  | a :: p', b :: s' => (a =? b) && is_prefix p' s'
  end.

(** [F.split(col, sep)] for a literal separator, with Spark's default limit
    of -1: every occurrence found from left to right ends a piece, and empty
    pieces are kept, also at the end.  [skip] counts the characters of a
    separator still to be passed over; [cur] is the current piece reversed. *)
Fixpoint split_go (sep : text) (skip : nat) (cur : text) (s : text) : list text :=
  match s with
  | [] => [rev cur]
  | c :: t =>
      match skip with
      | S k => split_go sep k cur t
      | O =>
          if is_prefix sep s
          then rev cur :: split_go sep (length sep - 1) [] t
          else split_go sep 0 (c :: cur) t
      end
  end.

Definition split (s sep : text) : list text := split_go sep 0 [] s.

(** ** Rows *)

(** product_rankings.csv: productId, date, ranking. *)
Record RankingRecord : Type := {
  rk_productId : Z;
  rk_date : Z;
  rk_ranking : Z
}.

(** A ranking row after [withColumn("recommend", ...)]. *)
Record RankedLabel : Type := {
  rl_row : RankingRecord;
  rl_recommend : Z
}.

(** A ranking row after [drop("ranking")]. *)
Record LabeledRecord : Type := {
  lb_productId : Z;
  lb_date : Z;
  lb_recommend : Z
}.

(** product_keywords.csv.  The four columns [fillna] names may be null; the
    other columns hold values, as the data model types them. *)
Record KeywordRecord : Type := {
  kw_productId : Z;
  kw_brandName : string;
  kw_colors : option string;
  kw_keywords : option text;
  kw_rating : option Q;
  kw_ratingCount : option Z;
  kw_price : Q;
  kw_discountRate : Q;
  kw_conversionRate : Q;
  kw_trending : Q;
  kw_totalSales : Q;
  kw_views : Q;
  kw_likes : Q;
  kw_category : string
}.

(** A row of [joined_data] after [fillna]. *)
Record JoinedRecord : Type := {
  productId : Z;
  date : Z;
  recommend : Z;
  brandName : string;
  colors : string;
  keywords_str : text;
  rating : Q;
  ratingCount : Z;
  price : Q;
  discountRate : Q;
  conversionRate : Q;
  trending : Q;
  totalSales : Q;
  views : Q;
  likes : Q;
  category : string
}.

(** A row of [joined_data] at the end of [preprocess_data]: the encoder
    columns are added and [keywords] is overwritten by its array. *)
Record EncodedRecord : Type := {
  enc_row : JoinedRecord;
  brand_index : nat;
  colors_index : nat;
  brand_ohe : list Z;
  colors_ohe : list Z;
  keywords : list text
}.

(** A row of [vectorized_data]. *)
Record VectorizedRecord : Type := {
  vec_row : EncodedRecord;
  filtered_keywords : list text;
  keyword_features : list Z
}.

(** A row of a [*_predictions_result] table: the four selected columns. *)
Record PredictionRecord : Type := {
  pr_productId : Z;
  pr_category : string;
  pr_recommend : Z;
  predicted_recommend : Z
}.

(** ** preprocess_data *)

(** Lines 26-33: the latest row of every productId. *)
Definition window_spec (l : list RankingRecord) : list (list RankingRecord) :=
  map (orderBy_desc rk_date) (partitionBy Z.eq_dec rk_productId l).

Definition latest_per_product (l : list RankingRecord) : list RankingRecord :=
  flat_map
    (fun part => map snd (filter (fun p => Nat.eqb (fst p) 1) (row_number part)))
    (window_spec l).

(** Lines 36-39: [when(col("ranking") <= 150, 1).otherwise(0)]. *)
Definition label_of_ranking (ranking : Z) : Z :=
  if ranking <=? 150 then 1 else 0.

Definition with_recommend (r : RankingRecord) : RankedLabel :=
  {| rl_row := r; rl_recommend := label_of_ranking (rk_ranking r) |}.

(** Line 42: [drop("ranking")]. *)
Definition drop_ranking (r : RankedLabel) : LabeledRecord :=
  {| lb_productId := rk_productId (rl_row r);
     lb_date := rk_date (rl_row r);
     lb_recommend := rl_recommend r |}.

Definition label_rankings (l : list RankingRecord) : list LabeledRecord :=
  map drop_ranking (map with_recommend (latest_per_product l)).

(** Lines 20-21: the tables are read with [inferSchema].  A column takes the
    type of its values, and a column that has no value in any row of the file
    is read as a column of strings; of the numeric columns of
    product_keywords.csv that can happen to rating and ratingCount. *)
Inductive DataType : Type :=
| NumericType
| StringType
| VectorType.

Definition has_value {A : Type} (v : option A) : bool :=
  match v with
  | Some _ => true
  | None => false
  end.

Definition inferSchema_column {A : Type} (col : list (option A)) : DataType :=
  if existsb has_value col then NumericType else StringType.

Record KeywordTypes : Type := {
  rating_type : DataType;
  ratingCount_type : DataType
}.

Definition inferSchema (kws : list KeywordRecord) : KeywordTypes :=
  {| rating_type := inferSchema_column (map kw_rating kws);
     ratingCount_type := inferSchema_column (map kw_ratingCount kws) |}.

(** Line 45: the inner join on productId.  Line 48: [fillna] puts the value
    in the place of a null and leaves the type of the column as it is: in a
    column read as strings the nulls become the text of the value, and the
    number the row holds here is not read by anything. *)
Definition fillna {A : Type} (default : A) (v : option A) : A :=
  match v with
  | Some a => a
  | None => default
  end.

Definition join_row (l : LabeledRecord) (k : KeywordRecord) : JoinedRecord :=
  {| productId := lb_productId l;
     date := lb_date l;
     recommend := lb_recommend l;
     brandName := kw_brandName k;
     colors := fillna "unknown"%string (kw_colors k);
     keywords_str := fillna [] (kw_keywords k);
     rating := fillna (0 # 1)%Q (kw_rating k);
     ratingCount := fillna 0 (kw_ratingCount k);
     price := kw_price k;
     discountRate := kw_discountRate k;
     conversionRate := kw_conversionRate k;
     trending := kw_trending k;
     totalSales := kw_totalSales k;
     views := kw_views k;
     likes := kw_likes k;
     category := kw_category k |}.

Definition inner_join (ls : list LabeledRecord) (ks : list KeywordRecord)
  : list JoinedRecord :=
  flat_map
    (fun l => map (join_row l)
                  (filter (fun k => kw_productId k =? lb_productId l) ks))
    ls.

(** Lines 51-52: [StringIndexer.fit] with the default order, frequencyDesc:
    the labels of a column by descending number of rows, and labels with
    equally many rows in alphabetical order.  A label is compared as the
    sequence of its bytes in UTF-8, which is the order of its code points. *)
Definition StringIndexer_fit (col : list string) : list string :=
  map fst
    (orderBy_desc (fun p => Z.of_nat (snd p))
       (sort_by (fun p q => String.leb (fst p) (fst q))
          (groupBy_count string_dec col))).

(** Lines 53-54: [OneHotEncoder(inputCol, outputCol)] leaves [dropLast] at
    its default. *)
Definition OneHotEncoder_dropLast : bool := true.

(** Fitting the encoder on an indexed column: with [dropLast] the column
    must have at least two labels. *)
Definition OneHotEncoder_fit (inputCol : string) (numLabels : nat) : result nat :=
  if OneHotEncoder_dropLast && (numLabels <=? 1)%nat
  then Raise (IllegalArgumentException
                (String.append "requirement failed: The input column "
                   (String.append inputCol
                      " should have at least two distinct values.")))
  else Ok numLabels.

Definition OneHotEncoder_size (numLabels : nat) : nat :=
  if OneHotEncoder_dropLast then (numLabels - 1)%nat else numLabels.

(** The encoded vector has a 1 at [i] when [i] is below its size and is all
    zero otherwise, which with [dropLast] is the case of the last label. *)
Definition OneHotEncoder_transform (numLabels i : nat) : list Z :=
  map (fun j => if Nat.eqb j i then 1 else 0) (seq 0 (OneHotEncoder_size numLabels)).

(** Line 61: [F.split(F.col("keywords"), ", ")].  44 is the comma, 32 the
    space. *)
Definition keywords_separator : text := [44; 32].

Definition encode_row (brands colours : list string) (j : JoinedRecord)
  : EncodedRecord :=
  let bi := index_of string_dec (brandName j) brands in
  let ci := index_of string_dec (colors j) colours in
  {| enc_row := j;
     brand_index := bi;
     colors_index := ci;
     brand_ohe := OneHotEncoder_transform (length brands) bi;
     colors_ohe := OneHotEncoder_transform (length colours) ci;
     keywords := split (keywords_str j) keywords_separator |}.

Definition joined_data_filled (rankings : list RankingRecord)
  (kws : list KeywordRecord) : list JoinedRecord :=
  inner_join (label_rankings rankings) kws.

(** Lines 57-61: the stages are fitted in their order on the joined table,
    the two indexers and then the two encoders, and the fitted pipeline is
    applied to the same table. *)
Definition encode_table (joined : list JoinedRecord) : result (list EncodedRecord) :=
  let brands := StringIndexer_fit (map brandName joined) in
  let colours := StringIndexer_fit (map colors joined) in
  brand_size <- OneHotEncoder_fit "brand_index" (length brands) ;;
  colors_size <- OneHotEncoder_fit "colors_index" (length colours) ;;
  Ok (map (encode_row brands colours) joined).

Definition preprocess_data (rankings : list RankingRecord)
  (kws : list KeywordRecord) : result (list EncodedRecord) :=
  encode_table (joined_data_filled rankings kws).

(** ** vectorize_keywords *)

(** Line 65: [explode(col("keywords"))], one row per element of the array. *)
Definition keywords_exploded (joined : list EncodedRecord) : list text :=
  flat_map keywords joined.

(** Lines 68-71. *)
Definition keywords_cleaned (joined : list EncodedRecord) : list text :=
  map normalize (keywords_exploded joined).

(** Lines 74-79: [groupBy("keyword").count().orderBy(col("count").desc()).limit(100)]. *)
Definition top_keywords_df (joined : list EncodedRecord) : list (text * nat) :=
  firstn 100
    (orderBy_desc (fun p => Z.of_nat (snd p))
       (groupBy_count text_eq_dec (keywords_cleaned joined))).

(** Line 81. *)
Definition top_keywords_list (joined : list EncodedRecord) : list text :=
  map fst (top_keywords_df joined).

Definition array_contains (arr : list text) (x : text) : bool :=
  mem text_eq_dec x arr.

(** Lines 84-89: [filter(keywords, x -> array_contains(array(...), x))] over
    the column [keywords] of [joined_data], the array line 61 made.  The
    literals of the array are the entries of [top_keywords_list] between
    double quotes; an entry holds letters only, so each literal denotes the
    entry. *)
Definition filter_keywords (top : list text) (r : EncodedRecord) : list text :=
  filter (array_contains top) (keywords r).

(** Lines 92-93: [CountVectorizer(inputCol, outputCol)] with its defaults:
    vocabSize 2^18, minDF 1, minTF 1, binary false.  The vocabulary is fitted
    on the column it is given: the distinct terms by descending number of
    occurrences.  Whether [fit] requires the vocabulary not to be empty
    depends on the version of Spark: 3.0 has the requirement, 3.5 fits the
    empty vocabulary.  [vocabulary_required] says which. *)
Definition CountVectorizer_vocabSize : nat := Nat.pow 2 18.

Definition CountVectorizer_fit (vocabulary_required : bool) (docs : list (list text))
  : result (list text) :=
  let wordCounts := groupBy_count text_eq_dec (concat docs) in
  let vocab :=
    firstn CountVectorizer_vocabSize
      (map fst (orderBy_desc (fun p => Z.of_nat (snd p)) wordCounts)) in
  match vocab with
  | [] =>
      if vocabulary_required
      then Raise (IllegalArgumentException
                    "requirement failed: The vocabulary size should be > 0. Lower minDF as necessary.")
      else Ok []
  | _ :: _ => Ok vocab
  end.

(** Line 94: the count of every vocabulary term in the document. *)
Definition CountVectorizer_transform (vocab : list text) (doc : list text) : list Z :=
  map (fun t => Z.of_nat (count_occ text_eq_dec doc t)) vocab.

Definition vectorize_keywords (vocabulary_required : bool)
  (joined : list EncodedRecord) : result (list VectorizedRecord) :=
  let top := top_keywords_list joined in
  let filtered := map (fun r => (r, filter_keywords top r)) joined in
  vocab <- CountVectorizer_fit vocabulary_required (map snd filtered) ;;
  Ok (map (fun p => {| vec_row := fst p;
                       filtered_keywords := snd p;
                       keyword_features := CountVectorizer_transform vocab (snd p) |})
          filtered).

(** ** Column names *)

(** The column names of every table, computed with the operations the source
    applies to them. *)
Module Schema.

Definition withColumn (c : string) (cols : list string) : list string :=
  if mem string_dec c cols then cols else cols ++ [c].

Definition drop (c : string) (cols : list string) : list string :=
  remove string_dec c cols.

Definition join_on (key : string) (left right : list string) : list string :=
  key :: drop key left ++ drop key right.

Definition product_rankings_csv : list string :=
  ["productId"; "date"; "ranking"]%string.

Definition product_keywords_csv : list string :=
  ["productId"; "brandName"; "colors"; "keywords"; "rating"; "ratingCount";
   "price"; "discountRate"; "conversionRate"; "trending"; "totalSales";
   "views"; "likes"; "category"]%string.

(** Lines 29-33. *)
Definition deduplicated : list string :=
  drop "row_number" (withColumn "row_number" product_rankings_csv).

(** Lines 36-39. *)
Definition labeled : list string := withColumn "recommend" deduplicated.

(** Line 42. *)
Definition product_rankings : list string := drop "ranking" labeled.

(** Lines 45-61. *)
Definition joined_data : list string :=
  withColumn "keywords"
    (withColumn "colors_ohe"
       (withColumn "brand_ohe"
          (withColumn "colors_index"
             (withColumn "brand_index"
                (join_on "productId" product_rankings product_keywords_csv))))).

(** Lines 86-94. *)
Definition vectorized_data : list string :=
  withColumn "keyword_features" (withColumn "filtered_keywords" joined_data).

End Schema.

(** ** train_models: the feature vector *)

(** Lines 98-102. *)
Definition inputCols : list string :=
  ["brand_ohe"; "colors_ohe"; "keyword_features"; "price"; "discountRate";
   "conversionRate"; "trending"; "totalSales"; "views"; "likes"; "rating";
   "ratingCount"]%string.

Definition of_ints (v : list Z) : list Q := map inject_Z v.

(** What [VectorAssembler] reads from a column of [vectorized_data]: the
    vector columns as they are, the numeric columns as one real number each.
    A name that is not a column, and a column that is neither, has no value. *)
Definition column_vector (c : string) (r : VectorizedRecord) : option (list Q) :=
  let e := vec_row r in
  let j := enc_row e in
  if negb (mem string_dec c Schema.vectorized_data) then None
  else if String.eqb c "productId" then Some [inject_Z (productId j)]
  else if String.eqb c "recommend" then Some [inject_Z (recommend j)]
  else if String.eqb c "rating" then Some [rating j]
  else if String.eqb c "ratingCount" then Some [inject_Z (ratingCount j)]
  else if String.eqb c "price" then Some [price j]
  else if String.eqb c "discountRate" then Some [discountRate j]
  else if String.eqb c "conversionRate" then Some [conversionRate j]
  else if String.eqb c "trending" then Some [trending j]
  else if String.eqb c "totalSales" then Some [totalSales j]
  else if String.eqb c "views" then Some [views j]
  else if String.eqb c "likes" then Some [likes j]
  else if String.eqb c "brand_index" then Some [inject_Z (Z.of_nat (brand_index e))]
  else if String.eqb c "colors_index" then Some [inject_Z (Z.of_nat (colors_index e))]
  else if String.eqb c "brand_ohe" then Some (of_ints (brand_ohe e))
  else if String.eqb c "colors_ohe" then Some (of_ints (colors_ohe e))
  else if String.eqb c "keyword_features" then Some (of_ints (keyword_features r))
  else None.

Fixpoint assemble_columns (cols : list string) (r : VectorizedRecord)
  : option (list Q) :=
  match cols with
  | [] => Some []
  | c :: t =>
      match column_vector c r, assemble_columns t r with
      | Some v, Some w => Some (v ++ w)
      | _, _ => None
      end
  end.

(** The [features] column: the input columns concatenated in their order. *)
Definition VectorAssembler_transform (r : VectorizedRecord) : option (list Q) :=
  assemble_columns inputCols r.

(** The type of an input column of the assembler in [vectorized_data]. *)
Definition inputCol_type (types : KeywordTypes) (c : string) : DataType :=
  if String.eqb c "rating" then rating_type types
  else if String.eqb c "ratingCount" then ratingCount_type types
  else if mem string_dec c ["brand_ohe"; "colors_ohe"; "keyword_features"]%string
       then VectorType
  else NumericType.

Definition VectorAssembler_supports (t : DataType) : bool :=
  match t with
  | NumericType | VectorType => true
  | StringType => false
  end.

Definition newline : string := String (ascii_of_nat 10) EmptyString.

(** The assembler checks the types of its input columns before any row is
    read, and names every column it cannot take; here these are columns of
    strings. *)
Definition unsupported_columns (types : KeywordTypes) : list string :=
  filter (fun c => negb (VectorAssembler_supports (inputCol_type types c))) inputCols.

Definition VectorAssembler_transformSchema (types : KeywordTypes) : result unit :=
  match unsupported_columns types with
  | [] => Ok tt
  | incorrect =>
      Raise (IllegalArgumentException
               (String.concat newline
                  (map (fun c =>
                          String.append "Data type string of column "
                            (String.append c " is not supported."))
                       incorrect)))
  end.

(** ** The four categories *)

Record PerCategory (A : Type) : Type := {
  clothes_top : A;
  pants : A;
  shoes : A;
  outers : A
}.

Arguments clothes_top {A} _.
Arguments pants {A} _.
Arguments shoes {A} _.
Arguments outers {A} _.

Definition categories : list string :=
  ["clothes_top"; "pants"; "shoes"; "outers"]%string.

Definition per_category {A : Type} (f : string -> A) : PerCategory A :=
  {| clothes_top := f "clothes_top"%string;
     pants := f "pants"%string;
     shoes := f "shoes"%string;
     outers := f "outers"%string |}.

(** Lines 108-111: [filter(col("category") == c)]. *)
Definition filter_category (c : string) (l : list VectorizedRecord)
  : list VectorizedRecord :=
  filter (fun r => String.eqb (category (enc_row (vec_row r))) c) l.

(** ** Python numbers *)

(** The nearest integer, ties to the even one. *)
Definition round_half_even (q : Q) : Z :=
  let n := Qnum q in
  let d := Zpos (Qden q) in
  let f := n / d in
  let r := n mod d in
  if 2 * r <? d then f
  else if d <? 2 * r then f + 1
  else if Z.even f then f else f + 1.

(** [a / b] on two counts with [0 <= a] and [0 < b]: the binary64 number
    nearest to the quotient, given by its exact value.  The significand has 53
    bits; the exponent range is not modelled (counts stay far inside it). *)
Definition truediv (a b : Z) : Q :=
  if a <=? 0 then (0 # 1)%Q
  else
    let e0 := 52 + Z.log2 b - Z.log2 a in
    let e := if a * 2 ^ Z.max e0 0 <? b * 2 ^ (52 + Z.max (- e0) 0) then e0 + 1 else e0 in
    let m := round_half_even (Qmake (a * 2 ^ Z.max e 0) (Z.to_pos (b * 2 ^ Z.max (- e) 0))) in
    Qmake (m * 2 ^ Z.max (- e) 0) (Z.to_pos (2 ^ Z.max e 0)).

(** [round(x, 2)] on a float: the exact value of [x] is rounded to two
    decimals, ties to even; the result stands for the float nearest to it. *)
Definition round2 (x : Q) : Q :=
  Qmake (round_half_even (x * (100 # 1))%Q) 100.

(** ** The report and the output file *)

(** An accuracy of [MulticlassClassificationEvaluator]: the float
    [correct / total], which is NaN on an empty table. *)
Record Accuracy : Type := {
  correct : nat;
  total : nat
}.

(** One block of lines 208-216 and 227-235. *)
Record ConfusionCounts : Type := {
  cc_name : string;
  tp : nat;
  fn : nat;
  fp : nat;
  tn : nat;
  recall : Q;
  precision : Q
}.

(** What [predict_and_evaluate] prints, in the order it prints it. *)
Record Report : Type := {
  train_accuracy : PerCategory Accuracy;
  test_accuracy : PerCategory Accuracy;
  category_counts : list ConfusionCounts;
  overall_counts : ConfusionCounts
}.

(** A pandas [to_csv] call: where, how and what. *)
Record CsvFile : Type := {
  csv_path : string;
  csv_encoding : string;
  csv_index : bool;
  csv_columns : list string;
  csv_rows : list PredictionRecord
}.

(** The bytes the codec utf-8-sig puts before the text. *)
Definition byte_order_mark (encoding : string) : list Z :=
  if String.eqb encoding "utf-8-sig" then [239; 187; 191] else [].

Definition ends_with_slash (s : string) : bool :=
  match rev (list_ascii_of_string s) with
  | c :: _ => Ascii.eqb c "/"%char
  | [] => false
  end.

Definition starts_with_slash (s : string) : bool :=
  match s with
  | String c _ => Ascii.eqb c "/"%char
  | EmptyString => false
  end.

(** [os.path.join] of two POSIX components. *)
Definition os_path_join (a b : string) : string :=
  if starts_with_slash b then b
  else if String.eqb a "" || ends_with_slash a then (a ++ b)%string
  else (a ++ "/" ++ b)%string.

(** Lines 200-206 and 219-225 on a table of predictions. *)
Definition count_where (pred truth : Z) (l : list PredictionRecord) : nat :=
  length (filter (fun r => (predicted_recommend r =? pred) && (pr_recommend r =? truth)) l).

Definition ratio_or_zero (num den : nat) : Q :=
  if (0 <? den)%nat then round2 (truediv (Z.of_nat num) (Z.of_nat den)) else (0 # 1)%Q.

Definition confusion (name : string) (l : list PredictionRecord) : ConfusionCounts :=
  let tp := count_where 1 1 l in
  let fn := count_where 0 1 l in
  let fp := count_where 1 0 l in
  let tn := count_where 0 0 l in
  {| cc_name := name;
     tp := tp; fn := fn; fp := fp; tn := tn;
     recall := ratio_or_zero tp (tp + fn);
     precision := ratio_or_zero tp (tp + fp) |}.

(** ** The pipeline over an opaque classifier *)

Section Pipeline.

(** [RandomForestClassifier(featuresCol="features", labelCol="recommend")]:
    what fitting returns on a table of (features, label) rows, if it returns,
    and the class a fitted model predicts for a feature vector. *)
Variable Model : Type.
Variable RandomForestClassifier_fit : list (list Q * Z) -> option Model.
Variable RandomForestClassifier_predict : Model -> list Q -> Z.

(** The generator behind [randomSplit]: the draw in [0, 1) made for the row
    at a position of a table, for a seed.  A table is one partition in its
    physical order. *)
Variable nextDouble : Z -> nat -> Q.

(** A row after [model.transform]. *)
Record Predicted : Type := {
  pd_row : VectorizedRecord;
  features : list Q;
  prediction : Z
}.

(** [randomSplit(weights, seed)]: the weights are normalised and summed up to
    the bounds of consecutive cells; every split samples the same table with
    the same seed and keeps the rows whose draw falls in its cell. *)
Fixpoint cumulative (acc : Q) (ws : list Q) : list Q :=
  match ws with
  | [] => []
  | w :: t => (acc + w)%Q :: cumulative (acc + w)%Q t
  end.

Definition cells (weights : list Q) : list (Q * Q) :=
  let sum := fold_right Qplus (0 # 1)%Q weights in
  let bounds := (0 # 1)%Q :: cumulative (0 # 1)%Q (map (fun w => (w / sum)%Q) weights) in
  combine bounds (tl bounds).

Definition in_cell (cell : Q * Q) (x : Q) : bool :=
  Qle_bool (fst cell) x && negb (Qle_bool (snd cell) x).

Definition randomSplit {A : Type} (weights : list Q) (seed : Z) (l : list A)
  : list (list A) :=
  let draws := combine (map (nextDouble seed) (seq 0 (length l))) l in
  map (fun cell => map snd (filter (fun p => in_cell cell (fst p)) draws))
      (cells weights).

(** [train, test = ...]: unpacking a list of two. *)
Definition unpack2 {A : Type} (l : list A) : result (A * A) :=
  match l with
  | [a; b] => Ok (a, b)
  | _ => Raise ValueError
  end.

Fixpoint mapM {A B : Type} (f : A -> result B) (l : list A) : result (list B) :=
  match l with
  | [] => Ok []
  | x :: t => y <- f x ;; ys <- mapM f t ;; Ok (y :: ys)
  end.

(** The assembler on a table: the types of the columns are checked, then
    every row gets its [features].  Nulls in a numeric column, on which the
    assembler raises as well, are not among the rows of this embedding. *)
Definition assemble (types : KeywordTypes) (l : list VectorizedRecord)
  : result (list (VectorizedRecord * list Q)) :=
  _ <- VectorAssembler_transformSchema types ;;
  mapM (fun r =>
          match VectorAssembler_transform r with
          | Some v => Ok (r, v)
          | None => Raise (IllegalArgumentException "VectorAssembler: input column")
          end) l.

(** Lines 97-106: the assembler and the forest fitted as one pipeline.  The
    forest raises on a table without rows; on any other table the opaque
    classifier decides. *)
Definition train_model (types : KeywordTypes) (l : list VectorizedRecord)
  : result Model :=
  rows <- assemble types l ;;
  match map (fun p => (snd p, recommend (enc_row (vec_row (fst p))))) rows with
  | [] => Raise ClassifierException
  | points =>
      match RandomForestClassifier_fit points with
      | Some m => Ok m
      | None => Raise ClassifierException
      end
  end.

(** [model.transform]: assemble, then predict. *)
Definition transform (types : KeywordTypes) (m : Model) (l : list VectorizedRecord)
  : result (list Predicted) :=
  rows <- assemble types l ;;
  Ok (map (fun p => {| pd_row := fst p; features := snd p;
                       prediction := RandomForestClassifier_predict m (snd p) |})
          rows).

(** The attributes [train_models] sets. *)
Record Trained : Type := {
  cat_data : PerCategory (list VectorizedRecord);
  cat_data_train : PerCategory (list VectorizedRecord);
  cat_data_test : PerCategory (list VectorizedRecord);
  cat_model : PerCategory Model
}.

Definition split_weights : list Q := [(7 # 10)%Q; (3 # 10)%Q].

Definition train_models (types : KeywordTypes)
  (vectorized_data : list VectorizedRecord) : result Trained :=
  let d := per_category (fun c => filter_category c vectorized_data) in
  s1 <- unpack2 (randomSplit split_weights 42 (clothes_top d)) ;;
  s2 <- unpack2 (randomSplit split_weights 42 (pants d)) ;;
  s3 <- unpack2 (randomSplit split_weights 42 (shoes d)) ;;
  s4 <- unpack2 (randomSplit split_weights 42 (outers d)) ;;
  m1 <- train_model types (fst s1) ;;
  m2 <- train_model types (fst s2) ;;
  m3 <- train_model types (fst s3) ;;
  m4 <- train_model types (fst s4) ;;
  Ok {| cat_data := d;
        cat_data_train :=
          {| clothes_top := fst s1; pants := fst s2; shoes := fst s3; outers := fst s4 |};
        cat_data_test :=
          {| clothes_top := snd s1; pants := snd s2; shoes := snd s3; outers := snd s4 |};
        cat_model :=
          {| clothes_top := m1; pants := m2; shoes := m3; outers := m4 |} |}.

(** Lines 125-137.  The weighted precision and recall the evaluator also
    computes go to attributes that nothing reads afterwards; the accuracy is
    the one that is printed. *)
Definition evaluate_model (types : KeywordTypes) (m : Model)
  (l : list VectorizedRecord) : result Accuracy :=
  predictions <- transform types m l ;;
  Ok {| correct :=
          length (filter (fun p => prediction p =? recommend (enc_row (vec_row (pd_row p))))
                         predictions);
        total := length predictions |}.

Definition evaluate_models (types : KeywordTypes) (t : Trained)
  : result (PerCategory Accuracy * PerCategory Accuracy) :=
  a1 <- evaluate_model types (clothes_top (cat_model t)) (clothes_top (cat_data_train t)) ;;
  a2 <- evaluate_model types (pants (cat_model t)) (pants (cat_data_train t)) ;;
  a3 <- evaluate_model types (shoes (cat_model t)) (shoes (cat_data_train t)) ;;
  a4 <- evaluate_model types (outers (cat_model t)) (outers (cat_data_train t)) ;;
  b1 <- evaluate_model types (clothes_top (cat_model t)) (clothes_top (cat_data_test t)) ;;
  b2 <- evaluate_model types (pants (cat_model t)) (pants (cat_data_test t)) ;;
  b3 <- evaluate_model types (shoes (cat_model t)) (shoes (cat_data_test t)) ;;
  b4 <- evaluate_model types (outers (cat_model t)) (outers (cat_data_test t)) ;;
  Ok ({| clothes_top := a1; pants := a2; shoes := a3; outers := a4 |},
      {| clothes_top := b1; pants := b2; shoes := b3; outers := b4 |}).

(** Lines 162-165 and 173-176. *)
Definition select_prediction (p : Predicted) : PredictionRecord :=
  let j := enc_row (vec_row (pd_row p)) in
  {| pr_productId := productId j;
     pr_category := category j;
     pr_recommend := recommend j;
     predicted_recommend := prediction p |}.

Definition predict_recommendation (types : KeywordTypes)
  (test_data : list VectorizedRecord) (m : Model) : result (list PredictionRecord) :=
  predictions <- transform types m test_data ;;
  Ok (map select_prediction predictions).

(** Lines 190-193 and 240-241. *)
Definition union_all (p : PerCategory (list PredictionRecord)) : list PredictionRecord :=
  ((clothes_top p ++ pants p) ++ shoes p) ++ outers p.

Definition predict_and_evaluate (types : KeywordTypes) (t : Trained)
  (acc : PerCategory Accuracy * PerCategory Accuracy)
  : result (PerCategory (list PredictionRecord) * Report) :=
  p1 <- predict_recommendation types (clothes_top (cat_data_test t))
          (clothes_top (cat_model t)) ;;
  p2 <- predict_recommendation types (pants (cat_data_test t)) (pants (cat_model t)) ;;
  p3 <- predict_recommendation types (shoes (cat_data_test t)) (shoes (cat_model t)) ;;
  p4 <- predict_recommendation types (outers (cat_data_test t)) (outers (cat_model t)) ;;
  let results := {| clothes_top := p1; pants := p2; shoes := p3; outers := p4 |} in
  let all_predictions_result := union_all results in
  Ok (results,
      {| train_accuracy := fst acc;
         test_accuracy := snd acc;
         category_counts :=
           map (fun c => confusion c
                           (filter (fun r => String.eqb (pr_category r) c)
                                   all_predictions_result))
               categories;
         overall_counts := confusion "overall" all_predictions_result |}).

(** Lines 239-248: the function [save_results] of the module. *)
Definition save_results (output_dir : string)
  (results : PerCategory (list PredictionRecord)) : CsvFile :=
  {| csv_path := os_path_join output_dir "predict_output.csv";
     csv_encoding := "utf-8-sig";
     csv_index := false;
     csv_columns := ["productId"; "category"; "recommend"; "predicted_recommend"]%string;
     csv_rows := union_all results |}.

(** The methods of class [ProductRecommendation]: the functions defined in
    the body of the class, lines 18-235. *)
Definition ProductRecommendation_methods : list string :=
  ["__init__"; "preprocess_data"; "vectorize_keywords"; "train_models";
   "evaluate_models"; "predict_and_evaluate"]%string.

(** The functions of the module, defined at its top level after the class. *)
Definition module_functions : list string := ["save_results"; "main"]%string.

(** The attributes the methods assign on [self]. *)
Definition instance_attributes : list string :=
  app ["spark"; "product_rankings"; "product_keywords"; "output_dir";
       "joined_data"; "vectorized_data"]%string
      (flat_map
         (fun c => map (String.append c)
                       ["_data"; "_data_train"; "_data_test"; "_model";
                        "_accuracy_train"; "_precision_train"; "_recall_train";
                        "_accuracy_test"; "_precision_test"; "_recall_test";
                        "_predictions_result"]%string)
         categories).

(** [recommendation.name]: an attribute of the instance or of its class. *)
Definition getattr (name : string) : result unit :=
  if mem string_dec name instance_attributes
     || mem string_dec name ProductRecommendation_methods
  then Ok tt
  else Raise (AttributeError "ProductRecommendation" name).

(** How a run ends: what was printed, the files written, the exception. *)
Record Outcome : Type := {
  printed : option Report;
  written : list CsvFile;
  raised : option exn
}.

(** Lines 256-262: the constructor reads the two tables, which fixes the
    types of their columns, and the five method calls follow up to the
    report. *)
Definition run_to_report (vocabulary_required : bool)
  (rankings : list RankingRecord) (kws : list KeywordRecord)
  : result (PerCategory (list PredictionRecord) * Report) :=
  let types := inferSchema kws in
  _ <- getattr "preprocess_data" ;;
  joined_data <- preprocess_data rankings kws ;;
  _ <- getattr "vectorize_keywords" ;;
  vectorized_data <- vectorize_keywords vocabulary_required joined_data ;;
  _ <- getattr "train_models" ;;
  t <- train_models types vectorized_data ;;
  _ <- getattr "evaluate_models" ;;
  acc <- evaluate_models types t ;;
  _ <- getattr "predict_and_evaluate" ;;
  predict_and_evaluate types t acc.

Definition output_dir : string := "./data/output/".

(** Lines 250-263; the two tables are what the CSV files at the two paths
    hold. *)
Definition main (vocabulary_required : bool)
  (rankings : list RankingRecord) (kws : list KeywordRecord) : Outcome :=
  match run_to_report vocabulary_required rankings kws with
  | Raise e => {| printed := None; written := []; raised := Some e |}
  | Ok (results, report) =>
      match getattr "save_results" with
      | Raise e => {| printed := Some report; written := []; raised := Some e |}
      | Ok _ =>
          {| printed := Some report;
             written := [save_results output_dir results];
             raised := None |}
      end
  end.

End Pipeline.

Arguments randomSplit nextDouble {A} weights seed l.
Arguments cat_data {Model} t.
Arguments cat_data_train {Model} t.
Arguments cat_data_test {Model} t.
Arguments cat_model {Model} t.
Arguments train_model {Model} RandomForestClassifier_fit types l.
Arguments transform {Model} RandomForestClassifier_predict types m l.
Arguments train_models {Model} RandomForestClassifier_fit nextDouble types
  vectorized_data.
Arguments evaluate_model {Model} RandomForestClassifier_predict types m l.
Arguments evaluate_models {Model} RandomForestClassifier_predict types t.
Arguments predict_recommendation {Model} RandomForestClassifier_predict types
  test_data m.
Arguments predict_and_evaluate {Model} RandomForestClassifier_predict types t acc.
Arguments run_to_report {Model} RandomForestClassifier_fit
  RandomForestClassifier_predict nextDouble vocabulary_required rankings kws.
Arguments main {Model} RandomForestClassifier_fit
  RandomForestClassifier_predict nextDouble vocabulary_required rankings kws.

(** The attribute of a category, by the category's name. *)
Definition field {A : Type} (c : string) (p : PerCategory A) : A :=
  if String.eqb c "clothes_top" then clothes_top p
  else if String.eqb c "pants" then pants p
  else if String.eqb c "shoes" then shoes p
  else outers p.

(** * Notions used in the statements *)

(** The partition of a productId, and the row [row_number() == 1] keeps of
    it. *)
Definition rows_of_product (k : Z) (l : list RankingRecord) : list RankingRecord :=
  filter (fun r => if Z.eq_dec (rk_productId r) k then true else false) l.

Definition pick_latest (l : list RankingRecord) (k : Z) : list RankingRecord :=
  firstn 1 (orderBy_desc rk_date (rows_of_product k l)).


(** A lowercase ASCII letter or a Hangul syllable. *)
Definition letter_or_hangul (c : Z) : bool :=
  is_ascii_lower c || is_hangul_syllable c.

(** The counted keywords in the order of line 77, before the limit. *)
Definition keyword_counts (joined : list EncodedRecord) : list (text * nat) :=
  orderBy_desc (fun p => Z.of_nat (snd p))
    (groupBy_count text_eq_dec (keywords_cleaned joined)).

(** The column [filtered_keywords] and the vocabulary [CountVectorizer]
    fits on it. *)
Definition filtered_corpus (joined : list EncodedRecord) : list (list text) :=
  map (filter_keywords (top_keywords_list joined)) joined.

(** Every token some row keeps, with repetitions. *)
Definition kept_tokens (joined : list EncodedRecord) : list text :=
  concat (filtered_corpus joined).

(** The vocabulary of line 93. *)
Definition fitted_vocabulary (joined : list EncodedRecord) : list text :=
  firstn CountVectorizer_vocabSize
    (map fst (orderBy_desc (fun p => Z.of_nat (snd p))
                (groupBy_count text_eq_dec (kept_tokens joined)))).

(** The row of [vectorized_data] made from a row of [joined_data]. *)
Definition vectorized_row (joined : list EncodedRecord) (r : EncodedRecord)
  : VectorizedRecord :=
  {| vec_row := r;
     filtered_keywords := filter_keywords (top_keywords_list joined) r;
     keyword_features :=
       CountVectorizer_transform (fitted_vocabulary joined)
         (filter_keywords (top_keywords_list joined) r) |}.

(** What a row of [vectorized_data] holds, given the joined table. *)
Definition vectorized_as (joined : list EncodedRecord) (r : VectorizedRecord) : Prop :=
  In (vec_row r) joined /\
  filtered_keywords r
  = filter (array_contains (top_keywords_list joined)) (keywords (vec_row r)) /\
  length (keyword_features r) = length (fitted_vocabulary joined) /\
  (forall i t, nth_error (fitted_vocabulary joined) i = Some t ->
     nth_error (keyword_features r) i
     = Some (Z.of_nat (count_occ text_eq_dec (filtered_keywords r) t))) /\
  (filtered_keywords r = [] -> Forall (fun x => x = 0) (keyword_features r)).

(** The rows the fitted encoders make of the joined table. *)
Definition encoded_rows (joined : list JoinedRecord) : list EncodedRecord :=
  map (encode_row (StringIndexer_fit (map brandName joined))
                  (StringIndexer_fit (map colors joined)))
      joined.

(** The number of distinct brands and of distinct colours of a table. *)
Definition brand_count (joined : list JoinedRecord) : nat :=
  length (distinct string_dec (map brandName joined)).

Definition colors_count (joined : list JoinedRecord) : nat :=
  length (distinct string_dec (map colors joined)).

(** The feature vector of every row of [vectorized_data], by productId, or
    the exception that keeps the vectors from being made. *)
Definition features_of (vocabulary_required : bool) (types : KeywordTypes)
  (joined : list EncodedRecord) : result (list (Z * list Q)) :=
  vd <- vectorize_keywords vocabulary_required joined ;;
  rows <- assemble types vd ;;
  Ok (map (fun p => (productId (enc_row (vec_row (fst p))), snd p)) rows).

(** The same, from the two input tables. *)
Definition feature_table (vocabulary_required : bool)
  (rankings : list RankingRecord) (kws : list KeywordRecord)
  : result (list (Z * list Q)) :=
  joined <- preprocess_data rankings kws ;;
  features_of vocabulary_required (inferSchema kws) joined.

(** Two ranking tables with the same rows up to the values of [ranking]. *)
Definition same_products_and_dates (l1 l2 : list RankingRecord) : Prop :=
  map (fun r => (rk_productId r, rk_date r)) l1
  = map (fun r => (rk_productId r, rk_date r)) l2.

(** A row with its ranking, its label or its [recommend] replaced, and the
    same replacement inside the rows built on it. *)
Definition set_ranking (z : Z) (r : RankingRecord) : RankingRecord :=
  {| rk_productId := rk_productId r; rk_date := rk_date r; rk_ranking := z |}.

Definition set_label (z : Z) (l : LabeledRecord) : LabeledRecord :=
  {| lb_productId := lb_productId l; lb_date := lb_date l; lb_recommend := z |}.

Definition set_recommend (z : Z) (j : JoinedRecord) : JoinedRecord :=
  {| productId := productId j; date := date j; recommend := z;
     brandName := brandName j; colors := colors j; keywords_str := keywords_str j;
     rating := rating j; ratingCount := ratingCount j; price := price j;
     discountRate := discountRate j; conversionRate := conversionRate j;
     trending := trending j; totalSales := totalSales j; views := views j;
     likes := likes j; category := category j |}.

Definition on_enc_row (f : JoinedRecord -> JoinedRecord) (e : EncodedRecord)
  : EncodedRecord :=
  {| enc_row := f (enc_row e);
     brand_index := brand_index e; colors_index := colors_index e;
     brand_ohe := brand_ohe e; colors_ohe := colors_ohe e;
     keywords := keywords e |}.

Definition on_vec_row (f : EncodedRecord -> EncodedRecord) (v : VectorizedRecord)
  : VectorizedRecord :=
  {| vec_row := f (vec_row v);
     filtered_keywords := filtered_keywords v;
     keyword_features := keyword_features v |}.

(** A rate of the report, in the words of the specification: the quotient
    of the two counts as a float, rounded to two decimals, and 0.0 when the
    denominator is 0. *)
Definition rounded_ratio (num den : nat) (x : Q) : Prop :=
  if (0 <? den)%nat
  then (exists k : Z, x = Qmake k 100) /\
       (Qabs (x - truediv (Z.of_nat num) (Z.of_nat den)) <= 1 # 200)%Q /\
       (Qabs (truediv (Z.of_nat num) (Z.of_nat den)
              - Qmake (Z.of_nat num) (Z.to_pos (Z.of_nat den)))
        <= 1 # 9007199254740992)%Q
  else x = (0 # 1)%Q.

(** The [features] column of a row. *)
Definition assembled (r : VectorizedRecord) : list Q :=
  match VectorAssembler_transform r with
  | Some v => v
  | None => []
  end.

(** The productId and the category of a row of [vectorized_data]. *)
Definition vpid (r : VectorizedRecord) : Z := productId (enc_row (vec_row r)).
Definition vcategory (r : VectorizedRecord) : string := category (enc_row (vec_row r)).

(** A prediction row whose label and whose prediction are 0 or 1. *)
Definition binary_row (p : PredictionRecord) : Prop :=
  (pr_recommend p = 0 \/ pr_recommend p = 1) /\
  (predicted_recommend p = 0 \/ predicted_recommend p = 1).

(** A row of the report whose four counts add up to [n] and whose two rates
    are the rounded ratios of the specification. *)
Definition counts_row (cc : ConfusionCounts) (n : nat) : Prop :=
  (tp cc + fn cc + fp cc + tn cc = n)%nat /\
  rounded_ratio (tp cc) (tp cc + fn cc) (recall cc) /\
  rounded_ratio (tp cc) (tp cc + fp cc) (precision cc).

(** The (features, label) rows the classifier is fitted on. *)
Definition labeled_points (l : list VectorizedRecord) : list (list Q * Z) :=
  map (fun r => (assembled r, recommend (enc_row (vec_row r)))) l.

(** The four tables of lines 108-111. *)
Definition data_of (vd : list VectorizedRecord) : PerCategory (list VectorizedRecord) :=
  per_category (fun c => filter_category c vd).

(** The cells of the weights 0.7 and 0.3: [0, 0.7) and [0.7, 1). *)
Definition train_cell : Q * Q := nth 0 (cells split_weights) ((0 # 1)%Q, (0 # 1)%Q).
Definition test_cell : Q * Q := nth 1 (cells split_weights) ((0 # 1)%Q, (0 # 1)%Q).

(** The report of lines 179-235 for four prediction tables. *)
Definition report_of (results : PerCategory (list PredictionRecord))
  (acc : PerCategory Accuracy * PerCategory Accuracy) : Report :=
  {| train_accuracy := fst acc;
     test_accuracy := snd acc;
     category_counts :=
       map (fun c => confusion c
                       (filter (fun r => String.eqb (pr_category r) c) (union_all results)))
           categories;
     overall_counts := confusion "overall" (union_all results) |}.

(** ** Statements in the words of the specification *)




(** The vectorizer as the specification has it: the row keeps the normalized
    tokens of its keywords that are in the vocabulary, in any order, and its
    vector counts them over the vocabulary in an order of descending global
    count. *)
Definition vectorized_as_specified (joined : list EncodedRecord) (r : VectorizedRecord)
  : Prop :=
  Permutation (filtered_keywords r)
    (filter (array_contains (top_keywords_list joined))
            (map normalize (keywords (vec_row r)))) /\
  exists order,
    Permutation order (top_keywords_list joined) /\
    StronglySorted
      (fun a b => (count_occ text_eq_dec (keywords_cleaned joined) b
                   <= count_occ text_eq_dec (keywords_cleaned joined) a)%nat)
      order /\
    length (keyword_features r) = length order /\
    forall i t, nth_error order i = Some t ->
                nth_error (keyword_features r) i
                = Some (Z.of_nat (count_occ text_eq_dec (filtered_keywords r) t)).

(** ** Tables of a run, over the classifier and the generator *)

Section Derived.

Variable Model : Type.
Variable predict : Model -> list Q -> Z.
Variable nextDouble : Z -> nat -> Q.

(** The row [model.transform] makes of a row, and its four selected
    columns. *)
Definition predicted (m : Model) (r : VectorizedRecord) : Predicted :=
  {| pd_row := r; features := assembled r; prediction := predict m (assembled r) |}.

Definition prediction_record (m : Model) (r : VectorizedRecord) : PredictionRecord :=
  select_prediction (predicted m r).

(** The two tables [randomSplit] returns for the weights 0.7 and 0.3. *)
Definition split_part {A : Type} (i : nat) (l : list A) : list A :=
  nth i (randomSplit nextDouble split_weights 42 l) [].

(** The train and the test table of every category, lines 113-116. *)
Definition train_of (vd : list VectorizedRecord) : PerCategory (list VectorizedRecord) :=
  per_category (fun c => split_part 0 (filter_category c vd)).

Definition test_of (vd : list VectorizedRecord) : PerCategory (list VectorizedRecord) :=
  per_category (fun c => split_part 1 (filter_category c vd)).

(** The four [*_predictions_result] tables, lines 168-176. *)
Definition results_of (t : Trained Model) : PerCategory (list PredictionRecord) :=
  {| clothes_top := map (prediction_record (clothes_top (cat_model t)))
                        (clothes_top (cat_data_test t));
     pants := map (prediction_record (pants (cat_model t))) (pants (cat_data_test t));
     shoes := map (prediction_record (shoes (cat_model t))) (shoes (cat_data_test t));
     outers := map (prediction_record (outers (cat_model t))) (outers (cat_data_test t)) |}.

(** The draws for the rows of a table, and the rows whose draw passes a
    test. *)
Definition draws {A : Type} (l : list A) : list Q :=
  map (nextDouble 42) (seq 0 (length l)).

Definition sample {A : Type} (P : Q -> bool) (l : list A) : list A :=
  map snd (filter (fun p => P (fst p)) (combine (draws l) l)).

End Derived.

(** The empty category as the specification has it: the run reaches the
    report, which has no block and no prediction row for the category and a
    block for every other category. *)
Definition empty_category_as_specified
  (outcome : result (PerCategory (list PredictionRecord) * Report)) (c : string)
  : Prop :=
  exists results report,
    outcome = Ok (results, report) /\
    field c results = [] /\
    ~ In c (map cc_name (category_counts report)) /\
    forall d, In d categories -> d <> c -> In d (map cc_name (category_counts report)).

Arguments predicted {Model} predict m r.
Arguments prediction_record {Model} predict m r.
Arguments results_of {Model} predict t.

(** * A small run *)

(** Nine products with ranking history and the keyword rows of products 1
    to 6, 8 and 9, two of every category; product 7 has no keyword row.
    러닝 is U+B7EC U+B2DD. *)
Definition ex_rankings : list RankingRecord :=
  [ {| rk_productId := 1; rk_date := 20240101; rk_ranking := 200 |};
    {| rk_productId := 1; rk_date := 20240102; rk_ranking := 100 |};
    {| rk_productId := 2; rk_date := 20240101; rk_ranking := 150 |};
    {| rk_productId := 3; rk_date := 20240101; rk_ranking := 151 |};
    {| rk_productId := 4; rk_date := 20240101; rk_ranking := 10 |};
    {| rk_productId := 5; rk_date := 20240103; rk_ranking := 140 |};
    {| rk_productId := 6; rk_date := 20240101; rk_ranking := 50 |};
    {| rk_productId := 7; rk_date := 20240101; rk_ranking := 50 |};
    {| rk_productId := 8; rk_date := 20240101; rk_ranking := 120 |};
    {| rk_productId := 9; rk_date := 20240102; rk_ranking := 30 |} ].

(** The same history with other rankings. *)
Definition ex_rankings_reranked : list RankingRecord :=
  map (fun r => set_ranking (351 - rk_ranking r) r) ex_rankings.

(** Keyword rows that differ in productId, brand, colour, keywords, price
    and category; product 2 has no rating and product 3 no ratingCount. *)
Definition ex_keyword (pid : Z) (brand : string) (colour : option string)
  (kw : option text) (cat : string) : KeywordRecord :=
  {| kw_productId := pid; kw_brandName := brand; kw_colors := colour;
     kw_keywords := kw;
     kw_rating := if pid =? 2 then None else Some (9 # 2)%Q;
     kw_ratingCount := if pid =? 3 then None else Some (10 * pid);
     kw_price := (inject_Z (1000 * pid))%Q; kw_discountRate := (1 # 10)%Q;
     kw_conversionRate := (1 # 100)%Q; kw_trending := (0 # 1)%Q;
     kw_totalSales := (inject_Z 12)%Q; kw_views := (inject_Z 340)%Q;
     kw_likes := (inject_Z 7)%Q; kw_category := cat |}.

Definition ex_keywords : list KeywordRecord :=
  [ ex_keyword 1 "Nike" (Some "black"%string)
      (Some (text_of_string "Nike, shoes, " ++ [47084; 45789])) "shoes";
    ex_keyword 2 "Nike" None (Some (text_of_string "shoes, running")) "shoes";
    ex_keyword 3 "Adidas" (Some "white"%string)
      (Some (text_of_string "pants, 123")) "pants";
    ex_keyword 4 "Nike" (Some "black"%string) None "clothes_top";
    ex_keyword 5 "Zara" (Some "black"%string)
      (Some (text_of_string "pants, shoes")) "pants";
    ex_keyword 6 "Adidas" (Some "white"%string)
      (Some (text_of_string "Shoes!, top")) "clothes_top";
    ex_keyword 8 "Adidas" (Some "white"%string)
      (Some (text_of_string "coat")) "outers";
    ex_keyword 9 "Nike" (Some "black"%string)
      (Some (text_of_string "coat, Padding")) "outers" ].

(** The value a call returns, for naming the tables of the small run. *)
Definition force {A : Type} (default : A) (r : result A) : A :=
  match r with
  | Ok a => a
  | Raise _ => default
  end.

Definition ex_joined : list JoinedRecord := joined_data_filled ex_rankings ex_keywords.

Definition ex_encoded : list EncodedRecord :=
  force [] (preprocess_data ex_rankings ex_keywords).

Definition ex_types : KeywordTypes := inferSchema ex_keywords.

(** A classifier that fits on any table with rows and predicts 1 for the
    most frequent brand, and draws that send the rows of a table to test and
    train in turn; every train table of the small run has a row labelled 1. *)
Definition ex_fit (points : list (list Q * Z)) : option unit := Some tt.

Definition ex_predict (m : unit) (v : list Q) : Z :=
  if Qle_bool (1 # 1) (nth 0 v (0 # 1)%Q) then 1 else 0.

Definition ex_nextDouble (seed : Z) (i : nat) : Q :=
  if Nat.even i then (9 # 10)%Q else (1 # 10)%Q.

Definition no_tables {A : Type} : PerCategory (list A) :=
  {| clothes_top := []; pants := []; shoes := []; outers := [] |}.

Definition ex_vd : list VectorizedRecord := force [] (vectorize_keywords true ex_encoded).

Definition ex_trained : Trained unit :=
  force {| cat_data := no_tables; cat_data_train := no_tables;
           cat_data_test := no_tables;
           cat_model := {| clothes_top := tt; pants := tt; shoes := tt; outers := tt |} |}
        (train_models ex_fit ex_nextDouble ex_types ex_vd).

Definition no_accuracy : PerCategory Accuracy :=
  per_category (fun _ => {| correct := 0; total := 0 |}).

Definition ex_acc : PerCategory Accuracy * PerCategory Accuracy :=
  force (no_accuracy, no_accuracy) (evaluate_models ex_predict ex_types ex_trained).

Definition ex_results : PerCategory (list PredictionRecord) :=
  results_of ex_predict ex_trained.

Definition ex_report : Report := report_of ex_results ex_acc.

(** The row of product 1 that survives the deduplication. *)
Definition ex_latest : RankingRecord :=
  {| rk_productId := 1; rk_date := 20240102; rk_ranking := 100 |}.

Definition ex_default_row : EncodedRecord :=
  encode_row [] [] (join_row {| lb_productId := 0; lb_date := 0; lb_recommend := 0 |}
                             (ex_keyword 0 "" None None "")).

(** The row of product 5, the only Zara of the joined table. *)
Definition ex_zara : EncodedRecord := nth 4 ex_encoded ex_default_row.

(** The row of product 1 in the vectorized table. *)
Definition ex_nike_row : VectorizedRecord :=
  nth 0 ex_vd (vectorized_row [] ex_default_row).

(** The keyword table without the products of category outers, a keyword
    table of one brand, and one whose keywords are all written with a
    capital letter. *)
Definition ex_keywords_no_outers : list KeywordRecord :=
  filter (fun k => negb (String.eqb (kw_category k) "outers")) ex_keywords.

Definition ex_encoded_no_outers : list EncodedRecord :=
  force [] (preprocess_data ex_rankings ex_keywords_no_outers).

Definition ex_vd_no_outers : list VectorizedRecord :=
  force [] (vectorize_keywords true ex_encoded_no_outers).


Definition ex_keywords_capitals : list KeywordRecord :=
  [ ex_keyword 1 "Nike" (Some "black"%string)
      (Some (text_of_string "Nike, Shoes")) "shoes";
    ex_keyword 4 "Adidas" (Some "white"%string)
      (Some (text_of_string "Top")) "clothes_top" ].

Definition ex_encoded_capitals : list EncodedRecord :=
  force [] (preprocess_data ex_rankings ex_keywords_capitals).

(** A keyword table in which no row has a ratingCount. *)
Definition ex_keywords_no_ratingCount : list KeywordRecord :=
  map (fun k =>
         {| kw_productId := kw_productId k; kw_brandName := kw_brandName k;
            kw_colors := kw_colors k; kw_keywords := kw_keywords k;
            kw_rating := kw_rating k; kw_ratingCount := None;
            kw_price := kw_price k; kw_discountRate := kw_discountRate k;
            kw_conversionRate := kw_conversionRate k; kw_trending := kw_trending k;
            kw_totalSales := kw_totalSales k; kw_views := kw_views k;
            kw_likes := kw_likes k; kw_category := kw_category k |})
      ex_keywords.

(** * Further notions *)


(** The sum of the entries of a count vector. *)
Definition sum_Z (v : list Z) : Z := fold_right Z.add 0 v.

(** The number of rows of a table that a model predicts as [p] and whose
    label is [y]. *)
Definition predicted_as {Model : Type} (predict : Model -> list Q -> Z) (m : Model)
  (p y : Z) (l : list VectorizedRecord) : nat :=
  length (filter (fun r => (predict m (assembled r) =? p)
                           && (recommend (enc_row (vec_row r)) =? y)) l).

(** The four counts of a block in the words of the specification, with
    positive label 1: the test rows predicted 1 and labelled 1, predicted 0
    and labelled 1, predicted 1 and labelled 0, predicted 0 and labelled 0. *)
Definition counts_of {Model : Type} (predict : Model -> list Q -> Z) (m : Model)
  (test : list VectorizedRecord) (cc : ConfusionCounts) : Prop :=
  tp cc = predicted_as predict m 1 1 test /\
  fn cc = predicted_as predict m 0 1 test /\
  fp cc = predicted_as predict m 1 0 test /\
  tn cc = predicted_as predict m 0 0 test.

(** The same over the four test tables together, every table with the model
    of its category. *)
Definition overall_counts_of {Model : Type} (predict : Model -> list Q -> Z)
  (models : PerCategory Model) (tests : PerCategory (list VectorizedRecord))
  (cc : ConfusionCounts) : Prop :=
  let over p y :=
    list_sum (map (fun c => predicted_as predict (field c models) p y (field c tests))
                  categories) in
  tp cc = over 1 1 /\ fn cc = over 0 1 /\ fp cc = over 1 0 /\ tn cc = over 0 0.

(** The accuracy lines 125-137 compute for a model on a table: the rows whose
    prediction is their label, out of all rows. *)
Definition accuracy_of {Model : Type} (predict : Model -> list Q -> Z) (m : Model)
  (l : list VectorizedRecord) : Accuracy :=
  {| correct :=
       length (filter (fun r => predict m (assembled r)
                                =? recommend (enc_row (vec_row r))) l);
     total := length l |}.

(** The keyword rows of the products that have a ranking row. *)
Definition ranked_keywords (rankings : list RankingRecord) (kws : list KeywordRecord)
  : list KeywordRecord :=
  filter (fun k => mem Z.eq_dec (kw_productId k) (map rk_productId rankings)) kws.

(** * Facts about the table operations *)

Section TablesFacts.

Context {A K : Type}.
Variable eq_dec : forall x y : K, {x = y} + {x <> y}.

Lemma NoDup_remove_all (x : K) (l : list K) :
  NoDup l -> NoDup (remove eq_dec x l).
Proof.
  induction 1 as [|y l Hy Hl IH]; simpl; [constructor|].
  destruct (eq_dec x y); [assumption|].
  constructor; [|assumption].
  intros H. apply in_remove in H. tauto.
Qed.

Lemma in_distinct (x : K) (l : list K) : In x (distinct eq_dec l) <-> In x l.
Proof.
  induction l as [|y l IH]; simpl; [tauto|].
  split.
  - intros [H|H]; [auto|].
    apply in_remove in H. right. apply IH, H.
  - intros [H|H]; [auto|].
    destruct (eq_dec y x) as [e|n]; [auto|].
    right. apply in_in_remove; [congruence | apply IH, H].
Qed.

Lemma NoDup_distinct (l : list K) : NoDup (distinct eq_dec l).
Proof.
  induction l as [|y l IH]; simpl; constructor.
  - apply remove_In.
  - apply NoDup_remove_all, IH.
Qed.

Lemma mem_true_iff (x : K) (l : list K) : mem eq_dec x l = true <-> In x l.
Proof.
  unfold mem. destruct (in_dec eq_dec x l); split; intros; try congruence; tauto.
Qed.

Lemma mem_false_iff (x : K) (l : list K) : mem eq_dec x l = false <-> ~ In x l.
Proof.
  unfold mem. destruct (in_dec eq_dec x l); split; intros; try congruence; tauto.
Qed.

(** [groupBy_count] *)

Lemma groupBy_count_keys (l : list K) :
  map fst (groupBy_count eq_dec l) = distinct eq_dec l.
Proof.
  unfold groupBy_count. rewrite map_map. simpl. apply map_id.
Qed.

Lemma in_groupBy_count (l : list K) (k : K) (n : nat) :
  In (k, n) (groupBy_count eq_dec l) <-> In k l /\ n = count_occ eq_dec l k.
Proof.
  unfold groupBy_count. rewrite in_map_iff. split.
  - intros [k' [E H]]. inversion E; subst. split; [|reflexivity].
    apply (proj1 (in_distinct _ _)), H.
  - intros [H ->]. exists k. split; [reflexivity|]. apply in_distinct, H.
Qed.

(** [orderBy_desc] *)

Variable key : A -> Z.

Lemma insert_desc_perm (x : A) (l : list A) :
  Permutation (insert_desc key x l) (x :: l).
Proof.
  induction l as [|y l IH]; simpl; [reflexivity|].
  destruct (key x <? key y); [|reflexivity].
  rewrite IH. apply perm_swap.
Qed.

Lemma orderBy_desc_perm (l : list A) : Permutation (orderBy_desc key l) l.
Proof.
  induction l as [|x l IH]; simpl; [reflexivity|].
  rewrite insert_desc_perm. constructor. exact IH.
Qed.

Lemma in_orderBy_desc (x : A) (l : list A) : In x (orderBy_desc key l) <-> In x l.
Proof.
  split; apply Permutation_in;
    [apply orderBy_desc_perm | symmetry; apply orderBy_desc_perm].
Qed.

Lemma length_orderBy_desc (l : list A) : length (orderBy_desc key l) = length l.
Proof. apply Permutation_length, orderBy_desc_perm. Qed.

Lemma insert_desc_sorted (x : A) (l : list A) :
  StronglySorted (desc key) l -> StronglySorted (desc key) (insert_desc key x l).
Proof.
  induction 1 as [|y l Hl IH Hy]; simpl.
  - constructor; constructor.
  - destruct (key x <? key y) eqn:E.
    + apply Z.ltb_lt in E. constructor; [exact IH|].
      rewrite Forall_forall in *. intros z Hz.
      apply (Permutation_in _ (insert_desc_perm x l)) in Hz.
      destruct Hz as [<-|Hz]; [unfold desc; lia | apply Hy, Hz].
    + apply Z.ltb_ge in E. constructor; [constructor; assumption|].
      constructor; [exact E|].
      rewrite Forall_forall in *. intros z Hz.
      specialize (Hy z Hz). unfold desc in *. lia.
Qed.

Lemma orderBy_desc_sorted (l : list A) : StronglySorted (desc key) (orderBy_desc key l).
Proof.
  induction l as [|x l IH]; simpl; [constructor|].
  apply insert_desc_sorted, IH.
Qed.

(** The first row of a sorted partition carries a largest key. *)
Lemma orderBy_desc_head (l : list A) :
  l <> [] ->
  exists h t, orderBy_desc key l = h :: t /\ In h l /\
              forall x, In x l -> key x <= key h.
Proof.
  intros Hne.
  destruct (orderBy_desc key l) as [|h t] eqn:E.
  - apply (f_equal (@length A)) in E. rewrite length_orderBy_desc in E.
    destruct l; [congruence | discriminate].
  - exists h, t. split; [reflexivity|].
    pose proof (orderBy_desc_sorted l) as S. rewrite E in S.
    apply StronglySorted_inv in S. destruct S as [_ S].
    rewrite Forall_forall in S.
    split.
    + apply in_orderBy_desc. rewrite E. left. reflexivity.
    + intros x Hx. apply in_orderBy_desc in Hx. rewrite E in Hx.
      destruct Hx as [<-|Hx]; [lia | apply S, Hx].
Qed.

Lemma insert_by_perm (leb : A -> A -> bool) (x : A) (l : list A) :
  Permutation (insert_by leb x l) (x :: l).
Proof using Type.
  induction l as [|y l IH]; simpl; [reflexivity|].
  destruct (leb x y); [reflexivity|].
  rewrite IH. apply perm_swap.
Qed.

Lemma sort_by_perm (leb : A -> A -> bool) (l : list A) :
  Permutation (sort_by leb l) l.
Proof using Type.
  induction l as [|x l IH]; simpl; [reflexivity|].
  rewrite insert_by_perm. constructor. exact IH.
Qed.


Lemma in_firstn (n : nat) (l : list A) (x : A) : In x (firstn n l) -> In x l.
Proof using Type.
  revert l. induction n as [|n IH]; intros [|y l]; simpl; try (intros []; fail).
  intros [H|H]; auto.
Qed.


(** [row_number() == 1] keeps the first row of a partition. *)
Lemma row_number_first (part : list A) :
  map snd (filter (fun p => Nat.eqb (fst p) 1) (row_number part)) = firstn 1 part.
Proof.
  unfold row_number. destruct part as [|x t]; [reflexivity|].
  simpl. f_equal.
  assert (H : forall n (l : list A), (2 <= n)%nat ->
            filter (fun p : nat * A => Nat.eqb (fst p) 1) (combine (seq n (length l)) l) = []).
  { intros n l. revert n. induction l as [|y l IH]; intros n Hn; [reflexivity|].
    simpl. destruct (Nat.eqb_spec n 1); [lia|]. apply IH. lia. }
  rewrite H; [reflexivity | lia].
Qed.

End TablesFacts.

(** * preprocess_data: the latest row and its label *)

Lemma in_rows_of_product (k : Z) (l : list RankingRecord) (r : RankingRecord) :
  In r (rows_of_product k l) <-> In r l /\ rk_productId r = k.
Proof.
  unfold rows_of_product. rewrite filter_In.
  destruct (Z.eq_dec (rk_productId r) k); intuition congruence.
Qed.

Lemma latest_per_product_unfold (l : list RankingRecord) :
  latest_per_product l = flat_map (pick_latest l) (distinct Z.eq_dec (map rk_productId l)).
Proof.
  unfold latest_per_product, window_spec, partitionBy.
  rewrite map_map.
  induction (distinct Z.eq_dec (map rk_productId l)) as [|k ks IH]; [reflexivity|].
  simpl. rewrite IH. f_equal. apply row_number_first.
Qed.

(** The row picked for a productId that occurs: it is a row of that product
    and no row of that product is dated later. *)
Lemma pick_latest_spec (l : list RankingRecord) (k : Z) :
  In k (map rk_productId l) ->
  exists h, pick_latest l k = [h] /\ In h l /\ rk_productId h = k /\
            forall r, In r l -> rk_productId r = k -> rk_date r <= rk_date h.
Proof.
  intros Hk. apply in_map_iff in Hk. destruct Hk as [r0 [E0 H0]].
  assert (Hne : rows_of_product k l <> []).
  { intros E. assert (H : In r0 (rows_of_product k l))
      by (apply in_rows_of_product; auto).
    rewrite E in H. destruct H. }
  destruct (orderBy_desc_head rk_date _ Hne) as [h [t [E [Hin Hmax]]]].
  exists h. unfold pick_latest. rewrite E. simpl.
  apply in_rows_of_product in Hin. destruct Hin as [Hin Hp].
  repeat split; auto.
  intros r Hr Hrk. apply Hmax. apply in_rows_of_product. auto.
Qed.

Lemma latest_per_product_keys (l : list RankingRecord) :
  map rk_productId (latest_per_product l) = distinct Z.eq_dec (map rk_productId l).
Proof.
  rewrite latest_per_product_unfold.
  assert (H : forall k, In k (distinct Z.eq_dec (map rk_productId l)) ->
                        In k (map rk_productId l))
    by (intros k; apply in_distinct).
  induction (distinct Z.eq_dec (map rk_productId l)) as [|k ks IH]; [reflexivity|].
  simpl. rewrite map_app, IH by (intros; apply H; right; assumption).
  destruct (pick_latest_spec l k) as [h [E [_ [Hp _]]]]; [apply H; left; reflexivity|].
  rewrite E. simpl. congruence.
Qed.

Lemma in_latest_per_product (l : list RankingRecord) (s : RankingRecord) :
  In s (latest_per_product l) ->
  In s l /\ forall r, In r l -> rk_productId r = rk_productId s -> rk_date r <= rk_date s.
Proof.
  rewrite latest_per_product_unfold. rewrite in_flat_map.
  intros [k [Hk Hs]]. apply in_distinct in Hk.
  destruct (pick_latest_spec l k Hk) as [h [E [Hin [Hp Hmax]]]].
  rewrite E in Hs. destruct Hs as [<-|[]].
  split; [exact Hin|]. intros r Hr Hrk. apply Hmax; congruence.
Qed.

(** C2. After the deduplication of lines 26-33 every productId of the input
    is the productId of exactly one surviving row (the productId column of
    the result has no repetition and holds the same values as the input's),
    and every surviving row is a row of the input whose date is the largest
    among the input rows of its productId. *)
Theorem latest_per_product_one_per_productId (l : list RankingRecord) :
  NoDup (map rk_productId (latest_per_product l)) /\
  (forall k, In k (map rk_productId (latest_per_product l)) <-> In k (map rk_productId l)) /\
  (forall k, In k (map rk_productId l) ->
     length (filter (fun s => rk_productId s =? k) (latest_per_product l)) = 1%nat) /\
  Forall (fun s => In s l /\
                   forall r, In r l -> rk_productId r = rk_productId s ->
                             rk_date r <= rk_date s)
         (latest_per_product l).
Proof.
  split; [|split; [|split]].
  - rewrite latest_per_product_keys. apply NoDup_distinct.
  - intros k. rewrite latest_per_product_keys. apply in_distinct.
  - intros k Hk.
    assert (Hd : NoDup (map rk_productId (latest_per_product l)))
      by (rewrite latest_per_product_keys; apply NoDup_distinct).
    assert (Hi : In k (map rk_productId (latest_per_product l)))
      by (rewrite latest_per_product_keys; apply in_distinct; exact Hk).
    induction (latest_per_product l) as [|s t IH]; [destruct Hi|].
    simpl in *. apply NoDup_cons_iff in Hd. destruct Hd as [Hn Hd].
    destruct (Z.eqb_spec (rk_productId s) k) as [e|n].
    + simpl. f_equal. subst k.
      clear IH Hi. induction t as [|u t IHt]; [reflexivity|].
      simpl in *. destruct (Z.eqb_spec (rk_productId u) (rk_productId s)) as [e|n].
      * exfalso. apply Hn. left. exact e.
      * apply IHt; [tauto|]. apply NoDup_cons_iff in Hd. tauto.
    + apply IH; [exact Hd|]. destruct Hi as [Hi|Hi]; [contradiction | exact Hi].
  - apply Forall_forall. intros s Hs. apply in_latest_per_product, Hs.
Qed.

(** C1. A deduplicated row is labelled 1 exactly when its ranking is at most
    150 and 0 exactly when it is above; 150 gives 1 and 151 gives 0; and the
    label of every row of the joined table is the one this rule gives to the
    deduplicated row of its productId. *)
Theorem recommend_iff_ranking_le_150 (l : list RankingRecord) (r : RankingRecord) :
  In r (latest_per_product l) ->
  (rl_recommend (with_recommend r) = 1 <-> rk_ranking r <= 150) /\
  (rl_recommend (with_recommend r) = 0 <-> 150 < rk_ranking r) /\
  In (drop_ranking (with_recommend r)) (label_rankings l) /\
  label_of_ranking 150 = 1 /\
  label_of_ranking 151 = 0 /\
  forall (kws : list KeywordRecord) (j : JoinedRecord),
    In j (joined_data_filled l kws) ->
    exists s, In s (latest_per_product l) /\ rk_productId s = productId j /\
              recommend j = label_of_ranking (rk_ranking s) /\
              (recommend j = 1 <-> rk_ranking s <= 150).
Proof.
  intros Hr.
  assert (L : forall z, (label_of_ranking z = 1 <-> z <= 150) /\
                        (label_of_ranking z = 0 <-> 150 < z)).
  { intros z. unfold label_of_ranking.
    destruct (Z.leb_spec z 150); split; split; intros; try lia; congruence. }
  split; [apply L|]. split; [apply L|].
  split; [unfold label_rankings; do 2 apply in_map; exact Hr|].
  split; [reflexivity|]. split; [reflexivity|].
  intros kws j Hj. unfold joined_data_filled, inner_join in Hj.
  apply in_flat_map in Hj. destruct Hj as [lb [Hlb Hj]].
  apply in_map_iff in Hj. destruct Hj as [k [<- _]].
  unfold label_rankings in Hlb. rewrite map_map in Hlb.
  apply in_map_iff in Hlb. destruct Hlb as [s [<- Hs]].
  exists s. simpl. repeat split; auto; apply L.
Qed.

(** * vectorize_keywords: the top keywords *)

Lemma lower_codepoint_not_upper (c x : Z) :
  In x (lower_codepoint c) -> is_ascii_upper x = false.
Proof.
  unfold lower_codepoint. intros Hx.
  assert (small : forall z, z < 65 -> is_ascii_upper z = false).
  { intros z Hz. unfold is_ascii_upper. apply andb_false_iff. left. apply Z.leb_gt, Hz. }
  assert (large : forall z, 90 < z -> is_ascii_upper z = false).
  { intros z Hz. unfold is_ascii_upper. apply andb_false_iff. right. apply Z.leb_gt, Hz. }
  destruct (is_ascii_upper c) eqn:U.
  - destruct Hx as [<-|[]].
    unfold is_ascii_upper in U. apply andb_true_iff in U.
    rewrite !Z.leb_le in U. apply large. lia.
  - destruct (c =? 8490).
    + destruct Hx as [<-|[]]. apply large. lia.
    + destruct (c =? 304).
      * destruct Hx as [<-|[<-|[]]]; apply large; lia.
      * destruct Hx as [<-|[]]. exact U.
Qed.

Lemma normalize_letters (s : text) :
  Forall (fun c => letter_or_hangul c = true) (normalize s).
Proof.
  apply Forall_forall. intros c Hc.
  unfold normalize, regexp_replace_non_letters in Hc.
  apply filter_In in Hc. destruct Hc as [Hc Hk].
  unfold lower in Hc. apply in_flat_map in Hc. destruct Hc as [c0 [_ Hc]].
  apply lower_codepoint_not_upper in Hc.
  unfold kept_by_regexp in Hk. unfold letter_or_hangul.
  rewrite Hc, orb_false_r in Hk. rewrite orb_comm. exact Hk.
Qed.

Lemma in_keyword_counts (joined : list EncodedRecord) (t : text) (n : nat) :
  In (t, n) (keyword_counts joined) <->
  In t (keywords_cleaned joined) /\ n = count_occ text_eq_dec (keywords_cleaned joined) t.
Proof.
  unfold keyword_counts. rewrite in_orderBy_desc. apply in_groupBy_count.
Qed.


Lemma top_keywords_list_unfold (joined : list EncodedRecord) :
  top_keywords_list joined = map fst (firstn 100 (keyword_counts joined)).
Proof. reflexivity. Qed.

Lemma in_top_keywords_list (joined : list EncodedRecord) (t : text) :
  In t (top_keywords_list joined) ->
  In (t, count_occ text_eq_dec (keywords_cleaned joined) t)
     (firstn 100 (keyword_counts joined)).
Proof.
  rewrite top_keywords_list_unfold, in_map_iff.
  intros [[t' n] [E H]]. simpl in E. subst t'.
  pose proof (in_firstn 100 _ _ H) as H'.
  apply in_keyword_counts in H'. destruct H' as [_ ->]. exact H.
Qed.

Lemma length_top_keywords_list (joined : list EncodedRecord) :
  (length (top_keywords_list joined) <= 100)%nat.
Proof.
  rewrite top_keywords_list_unfold, length_map. apply firstn_le_length.
Qed.


(** * preprocess_data: the encoders *)

Lemma index_of_nth_error {K : Type} (eq_dec : forall x y : K, {x = y} + {x <> y})
  (x : K) (labels : list K) :
  In x labels -> nth_error labels (index_of eq_dec x labels) = Some x.
Proof.
  induction labels as [|y t IH]; simpl; [intros []|].
  intros H. destruct (eq_dec x y) as [->|n]; [reflexivity|].
  simpl. apply IH. destruct H as [H|H]; [congruence | exact H].
Qed.

Lemma StringIndexer_fit_perm (col : list string) :
  Permutation (StringIndexer_fit col) (distinct string_dec col).
Proof.
  unfold StringIndexer_fit. rewrite <- (groupBy_count_keys string_dec col).
  apply Permutation_map. rewrite orderBy_desc_perm. apply sort_by_perm.
Qed.

Lemma length_StringIndexer_fit (col : list string) :
  length (StringIndexer_fit col) = length (distinct string_dec col).
Proof. apply Permutation_length, StringIndexer_fit_perm. Qed.

Lemma length_OneHotEncoder_transform (n i : nat) :
  length (OneHotEncoder_transform n i) = (n - 1)%nat.
Proof.
  unfold OneHotEncoder_transform. rewrite length_map, length_seq. reflexivity.
Qed.

Lemma nth_map_seq (f : nat -> Z) (start len j : nat) :
  (j < len)%nat -> nth j (map f (seq start len)) 0 = f (start + j)%nat.
Proof.
  revert start j. induction len as [|len IH]; intros start j Hj; [lia|].
  destruct j as [|j]; simpl.
  - f_equal. lia.
  - rewrite IH by lia. f_equal. lia.
Qed.

Lemma nth_OneHotEncoder_transform (n i j : nat) :
  (j < n - 1)%nat ->
  nth j (OneHotEncoder_transform n i) 0 = if Nat.eqb j i then 1 else 0.
Proof.
  intros H. unfold OneHotEncoder_transform, OneHotEncoder_size. simpl.
  rewrite nth_map_seq by exact H. reflexivity.
Qed.


(** What [encode_table] returns: the requirement of the brand encoder is
    checked first, then that of the colour encoder. *)
Lemma encode_table_unfold (joined : list JoinedRecord) :
  encode_table joined =
  if (brand_count joined <=? 1)%nat
  then Raise (IllegalArgumentException
                "requirement failed: The input column brand_index should have at least two distinct values.")
  else if (colors_count joined <=? 1)%nat
  then Raise (IllegalArgumentException
                "requirement failed: The input column colors_index should have at least two distinct values.")
  else Ok (encoded_rows joined).
Proof.
  unfold encode_table, OneHotEncoder_fit, brand_count, colors_count. cbv zeta.
  rewrite !length_StringIndexer_fit. cbn [OneHotEncoder_dropLast andb].
  destruct (length (distinct string_dec (map brandName joined)) <=? 1)%nat;
    [reflexivity|].
  cbn [bind].
  destruct (length (distinct string_dec (map colors joined)) <=? 1)%nat;
    reflexivity.
Qed.

Lemma encode_table_Ok (joined : list JoinedRecord) (enc : list EncodedRecord) :
  encode_table joined = Ok enc ->
  enc = encoded_rows joined /\
  (2 <= brand_count joined)%nat /\ (2 <= colors_count joined)%nat.
Proof.
  rewrite encode_table_unfold.
  destruct (Nat.leb_spec (brand_count joined) 1) as [B|B]; [discriminate|].
  destruct (Nat.leb_spec (colors_count joined) 1) as [C|C]; [discriminate|].
  intros E. inversion E. repeat split; lia.
Qed.


Lemma preprocess_data_Ok (rankings : list RankingRecord) (kws : list KeywordRecord)
  (joined : list EncodedRecord) :
  preprocess_data rankings kws = Ok joined ->
  joined = encoded_rows (joined_data_filled rankings kws).
Proof. intros H. apply encode_table_Ok in H. apply H. Qed.

Lemma in_encoded_rows (joined : list JoinedRecord) (e : EncodedRecord) :
  In e (encoded_rows joined) ->
  exists j, In j joined /\
            e = encode_row (StringIndexer_fit (map brandName joined))
                           (StringIndexer_fit (map colors joined)) j.
Proof.
  unfold encoded_rows. intros H. apply in_map_iff in H.
  destruct H as [j [<- Hj]]. exists j. auto.
Qed.


(** * vectorize_keywords: the count vectors *)

Lemma vectorize_keywords_unfold (vocabulary_required : bool)
  (joined : list EncodedRecord) :
  vectorize_keywords vocabulary_required joined =
  match fitted_vocabulary joined with
  | [] =>
      if vocabulary_required
      then Raise (IllegalArgumentException
                    "requirement failed: The vocabulary size should be > 0. Lower minDF as necessary.")
      else Ok (map (vectorized_row joined) joined)
  | _ :: _ => Ok (map (vectorized_row joined) joined)
  end.
Proof.
  unfold vectorize_keywords, CountVectorizer_fit. cbv zeta.
  rewrite map_map. cbn [snd].
  change (map (fun x => filter_keywords (top_keywords_list joined) x) joined)
    with (filtered_corpus joined).
  fold (kept_tokens joined). fold (fitted_vocabulary joined).
  destruct (fitted_vocabulary joined) eqn:E.
  - destruct vocabulary_required; cbn [bind]; [reflexivity|].
    f_equal. rewrite map_map. cbn [fst snd].
    apply map_ext. intros r. unfold vectorized_row. rewrite E. reflexivity.
  - cbn [bind]. f_equal. rewrite map_map. cbn [fst snd].
    apply map_ext. intros r. unfold vectorized_row. rewrite E. reflexivity.
Qed.

Lemma vectorize_keywords_Ok (vocabulary_required : bool)
  (joined : list EncodedRecord) (vd : list VectorizedRecord) :
  vectorize_keywords vocabulary_required joined = Ok vd ->
  vd = map (vectorized_row joined) joined.
Proof.
  rewrite vectorize_keywords_unfold.
  destruct (fitted_vocabulary joined); [destruct vocabulary_required|];
    intros H; inversion H; reflexivity.
Qed.

Lemma StronglySorted_map_in {A B : Type} (R : A -> A -> Prop) (R' : B -> B -> Prop)
  (f : A -> B) (l : list A) :
  (forall a b, In a l -> In b l -> R a b -> R' (f a) (f b)) ->
  StronglySorted R l -> StronglySorted R' (map f l).
Proof.
  intros H S. induction S as [|a l S IH Ha]; simpl; constructor.
  - apply IH. intros x y Hx Hy. apply H; right; assumption.
  - rewrite Forall_forall in *. intros y Hy. apply in_map_iff in Hy.
    destruct Hy as [x [<- Hx]]. apply H; [left; reflexivity | right; exact Hx | auto].
Qed.

Lemma in_kept_tokens (joined : list EncodedRecord) (t : text) :
  In t (kept_tokens joined) <->
  exists r, In r joined /\ In t (filter_keywords (top_keywords_list joined) r).
Proof.
  unfold kept_tokens, filtered_corpus. rewrite in_concat. split.
  - intros [doc [Hd Ht]]. apply in_map_iff in Hd. destruct Hd as [r [<- Hr]]. eauto.
  - intros [r [Hr Ht]]. eexists. split; [apply in_map, Hr | exact Ht].
Qed.

Lemma kept_tokens_in_top (joined : list EncodedRecord) (t : text) :
  In t (kept_tokens joined) -> In t (top_keywords_list joined).
Proof.
  rewrite in_kept_tokens. intros [r [_ H]]. unfold filter_keywords in H.
  apply filter_In in H. destruct H as [_ H]. apply mem_true_iff in H. exact H.
Qed.

Lemma distinct_kept_tokens_le_100 (joined : list EncodedRecord) :
  (length (distinct text_eq_dec (kept_tokens joined)) <= 100)%nat.
Proof.
  etransitivity; [|apply length_top_keywords_list].
  apply NoDup_incl_length; [apply NoDup_distinct|].
  intros t Ht. apply in_distinct in Ht. apply kept_tokens_in_top, Ht.
Qed.

Lemma vocabSize_ge_100 : (100 <= CountVectorizer_vocabSize)%nat.
Proof. apply Nat.leb_le. vm_compute. reflexivity. Qed.

Lemma fitted_vocabulary_unfold (joined : list EncodedRecord) :
  fitted_vocabulary joined =
  map fst (orderBy_desc (fun p => Z.of_nat (snd p))
             (groupBy_count text_eq_dec (kept_tokens joined))).
Proof.
  unfold fitted_vocabulary. apply firstn_all2.
  rewrite length_map, length_orderBy_desc.
  unfold groupBy_count. rewrite length_map.
  pose proof (distinct_kept_tokens_le_100 joined). pose proof vocabSize_ge_100. lia.
Qed.

Lemma fitted_vocabulary_perm (joined : list EncodedRecord) :
  Permutation (fitted_vocabulary joined) (distinct text_eq_dec (kept_tokens joined)).
Proof.
  rewrite fitted_vocabulary_unfold, <- (groupBy_count_keys text_eq_dec).
  apply Permutation_map, orderBy_desc_perm.
Qed.

Lemma in_fitted_vocabulary (joined : list EncodedRecord) (t : text) :
  In t (fitted_vocabulary joined) <-> In t (kept_tokens joined).
Proof.
  split; intros H.
  - apply (proj1 (in_distinct text_eq_dec _ _)).
    apply (Permutation_in _ (fitted_vocabulary_perm joined)), H.
  - apply (Permutation_in _ (Permutation_sym (fitted_vocabulary_perm joined))).
    apply (proj2 (in_distinct text_eq_dec _ _)), H.
Qed.

Lemma fitted_vocabulary_sorted (joined : list EncodedRecord) :
  StronglySorted
    (fun a b => (count_occ text_eq_dec (kept_tokens joined) b
                 <= count_occ text_eq_dec (kept_tokens joined) a)%nat)
    (fitted_vocabulary joined).
Proof.
  rewrite fitted_vocabulary_unfold.
  eapply StronglySorted_map_in; [|apply orderBy_desc_sorted].
  intros [a n] [b m] Ha Hb. unfold desc. simpl.
  apply in_orderBy_desc, in_groupBy_count in Ha.
  apply in_orderBy_desc, in_groupBy_count in Hb.
  destruct Ha as [_ ->], Hb as [_ ->]. lia.
Qed.

Lemma CountVectorizer_transform_nth (vocab doc : list text) (i : nat) (t : text) :
  nth_error vocab i = Some t ->
  nth_error (CountVectorizer_transform vocab doc) i
  = Some (Z.of_nat (count_occ text_eq_dec doc t)).
Proof.
  intros H. unfold CountVectorizer_transform.
  rewrite nth_error_map, H. reflexivity.
Qed.

Lemma CountVectorizer_transform_nil (vocab : list text) :
  Forall (fun x => x = 0) (CountVectorizer_transform vocab []).
Proof.
  apply Forall_forall. intros x Hx. unfold CountVectorizer_transform in Hx.
  apply in_map_iff in Hx. destruct Hx as [t [<- _]]. reflexivity.
Qed.

Lemma fitted_vocabulary_nil_iff (joined : list EncodedRecord) :
  fitted_vocabulary joined = [] <->
  Forall (fun r => filter_keywords (top_keywords_list joined) r = []) joined.
Proof.
  rewrite Forall_forall. split.
  - intros E r Hr.
    destruct (filter_keywords (top_keywords_list joined) r) as [|t ts] eqn:F;
      [reflexivity|].
    assert (H : In t (fitted_vocabulary joined)).
    { apply in_fitted_vocabulary, in_kept_tokens. exists r. rewrite F.
      split; [exact Hr | left; reflexivity]. }
    rewrite E in H. destruct H.
  - intros H. destruct (fitted_vocabulary joined) as [|t ts] eqn:E; [reflexivity|].
    assert (Ht : In t (fitted_vocabulary joined)) by (rewrite E; left; reflexivity).
    apply in_fitted_vocabulary, in_kept_tokens in Ht.
    destruct Ht as [r [Hr Ht]]. rewrite (H r Hr) in Ht. destruct Ht.
Qed.

Lemma vectorized_row_as (joined : list EncodedRecord) (r : EncodedRecord) :
  In r joined -> vectorized_as joined (vectorized_row joined r).
Proof.
  intros Hr. unfold vectorized_as, vectorized_row.
  cbn [vec_row filtered_keywords keyword_features].
  split; [exact Hr|]. split; [reflexivity|].
  split; [unfold CountVectorizer_transform; apply length_map|].
  split; [intros i t; apply CountVectorizer_transform_nth|].
  intros ->. apply CountVectorizer_transform_nil.
Qed.

(** X17. What the vectorizer does as it is written. It keeps, of the
    elements of a row's keyword array as [split] made them, exactly those
    that are entries of the top-100 list. The count vector ranges over the
    vocabulary fitted on the kept tokens of the whole table: the distinct
    kept tokens, at most 100, by descending number of kept occurrences; its
    entry at a position is the number of times the token at that position
    occurs among the row's kept tokens, so a row that keeps none gets the
    zero vector. When some row keeps a token the vectorizer returns, with
    either version of the CountVectorizer; when no row keeps one, the version
    with the requirement raises and the other returns vectors without
    entries. *)
Theorem vectorize_keywords_spec (joined : list EncodedRecord) :
  NoDup (fitted_vocabulary joined) /\
  (length (fitted_vocabulary joined) <= 100)%nat /\
  (forall t, In t (fitted_vocabulary joined) <->
     exists r, In r joined /\ In t (filter_keywords (top_keywords_list joined) r)) /\
  StronglySorted
    (fun a b => (count_occ text_eq_dec (kept_tokens joined) b
                 <= count_occ text_eq_dec (kept_tokens joined) a)%nat)
    (fitted_vocabulary joined) /\
  ((exists e, vectorize_keywords true joined = Raise e) <->
   Forall (fun r => filter_keywords (top_keywords_list joined) r = []) joined) /\
  (forall vocabulary_required,
     vocabulary_required = false \/
     (exists r, In r joined /\ filter_keywords (top_keywords_list joined) r <> []) ->
     exists vd, vectorize_keywords vocabulary_required joined = Ok vd /\
                map vec_row vd = joined /\
                Forall (vectorized_as joined) vd).
Proof.
  pose proof (fitted_vocabulary_nil_iff joined) as Hempty.
  split; [|split; [|split; [|split; [|split]]]].
  - eapply Permutation_NoDup; [symmetry; apply fitted_vocabulary_perm|].
    apply NoDup_distinct.
  - rewrite (Permutation_length (fitted_vocabulary_perm joined)).
    apply distinct_kept_tokens_le_100.
  - intros t. rewrite in_fitted_vocabulary. apply in_kept_tokens.
  - apply fitted_vocabulary_sorted.
  - rewrite <- Hempty, vectorize_keywords_unfold.
    destruct (fitted_vocabulary joined); split; intros H; eauto; try discriminate.
    destruct H as [e H]. discriminate.
  - intros b Hb.
    assert (E : vectorize_keywords b joined = Ok (map (vectorized_row joined) joined)).
    { rewrite vectorize_keywords_unfold.
      destruct (fitted_vocabulary joined) as [|v0 vs] eqn:E; [|reflexivity].
      destruct b; [|reflexivity].
      destruct Hb as [Hb|[r [Hr Hne]]]; [discriminate|].
      exfalso. apply Hne. destruct Hempty as [Hempty _].
      specialize (Hempty eq_refl). rewrite Forall_forall in Hempty. auto. }
    eexists. split; [exact E|]. split.
    + rewrite map_map. cbn [vectorized_row vec_row]. apply map_id.
    + apply Forall_forall. intros v Hv. apply in_map_iff in Hv.
      destruct Hv as [r' [<- Hr']]. apply vectorized_row_as, Hr'.
Qed.

(** * The feature vector does not depend on the ranking *)

Lemma same_products_and_dates_set_ranking (l1 l2 : list RankingRecord) :
  same_products_and_dates l1 l2 -> map (set_ranking 0) l1 = map (set_ranking 0) l2.
Proof.
  unfold same_products_and_dates. revert l2.
  induction l1 as [|a l1 IH]; intros [|b l2] H; simpl in *; try discriminate;
    [reflexivity|].
  inversion H as [[Hp Hd Ht]]. f_equal; [|apply IH, Ht].
  unfold set_ranking. rewrite Hp, Hd. reflexivity.
Qed.

Section MapCommutes.

Variable f : RankingRecord -> RankingRecord.
Hypothesis f_productId : forall r, rk_productId (f r) = rk_productId r.
Hypothesis f_date : forall r, rk_date (f r) = rk_date r.

Lemma insert_desc_map (x : RankingRecord) (l : list RankingRecord) :
  insert_desc rk_date (f x) (map f l) = map f (insert_desc rk_date x l).
Proof.
  induction l as [|y l IH]; simpl; [reflexivity|].
  rewrite !f_date. destruct (rk_date x <? rk_date y); simpl; [rewrite IH|]; reflexivity.
Qed.

Lemma orderBy_desc_map (l : list RankingRecord) :
  orderBy_desc rk_date (map f l) = map f (orderBy_desc rk_date l).
Proof.
  induction l as [|x l IH]; simpl; [reflexivity|].
  rewrite IH. apply insert_desc_map.
Qed.

Lemma rows_of_product_map (k : Z) (l : list RankingRecord) :
  rows_of_product k (map f l) = map f (rows_of_product k l).
Proof.
  unfold rows_of_product. induction l as [|x l IH]; simpl; [reflexivity|].
  rewrite f_productId. destruct (Z.eq_dec (rk_productId x) k); simpl; rewrite IH;
    reflexivity.
Qed.

Lemma latest_per_product_map (l : list RankingRecord) :
  latest_per_product (map f l) = map f (latest_per_product l).
Proof.
  rewrite !latest_per_product_unfold.
  rewrite map_map. rewrite (map_ext _ rk_productId f_productId).
  induction (distinct Z.eq_dec (map rk_productId l)) as [|k ks IH]; [reflexivity|].
  simpl. rewrite map_app, IH. f_equal.
  unfold pick_latest. rewrite rows_of_product_map, orderBy_desc_map.
  apply firstn_map.
Qed.

End MapCommutes.

Lemma label_rankings_set_label (l : list RankingRecord) :
  map (set_label 0) (label_rankings l)
  = map (fun r => set_label 0 (drop_ranking (with_recommend r)))
        (latest_per_product (map (set_ranking 0) l)).
Proof.
  rewrite latest_per_product_map by reflexivity.
  unfold label_rankings. rewrite !map_map. reflexivity.
Qed.

Lemma inner_join_set_label (ls : list LabeledRecord) (ks : list KeywordRecord) :
  map (set_recommend 0) (inner_join ls ks) = inner_join (map (set_label 0) ls) ks.
Proof.
  unfold inner_join. induction ls as [|l ls IH]; simpl; [reflexivity|].
  rewrite map_app, IH, map_map. reflexivity.
Qed.

Lemma encoded_rows_set_recommend (joined : list JoinedRecord) :
  encoded_rows (map (set_recommend 0) joined)
  = map (on_enc_row (set_recommend 0)) (encoded_rows joined).
Proof. unfold encoded_rows. rewrite !map_map. reflexivity. Qed.

Lemma encode_table_set_recommend (joined : list JoinedRecord) :
  encode_table (map (set_recommend 0) joined)
  = (enc <- encode_table joined ;; Ok (map (on_enc_row (set_recommend 0)) enc)).
Proof.
  rewrite !encode_table_unfold, encoded_rows_set_recommend.
  assert (B : brand_count (map (set_recommend 0) joined) = brand_count joined)
    by (unfold brand_count; rewrite map_map; reflexivity).
  assert (C : colors_count (map (set_recommend 0) joined) = colors_count joined)
    by (unfold colors_count; rewrite map_map; reflexivity).
  rewrite B, C.
  destruct (brand_count joined <=? 1)%nat; [reflexivity|].
  destruct (colors_count joined <=? 1)%nat; reflexivity.
Qed.

Lemma VectorAssembler_transform_total (r : VectorizedRecord) :
  exists v, VectorAssembler_transform r = Some v.
Proof. eexists. reflexivity. Qed.

Lemma mapM_Ok {A B : Type} (f : A -> result B) (g : A -> B) (l : list A) :
  (forall x, f x = Ok (g x)) -> mapM f l = Ok (map g l).
Proof.
  intros H. induction l as [|x l IH]; simpl; [reflexivity|].
  rewrite H, IH. reflexivity.
Qed.

(** The assembler on a table: the check of the column types, then the
    [features] of every row. *)
Lemma assemble_unfold (types : KeywordTypes) (l : list VectorizedRecord) :
  assemble types l
  = (_ <- VectorAssembler_transformSchema types ;;
     Ok (map (fun r => (r, assembled r)) l)).
Proof.
  unfold assemble. destruct (VectorAssembler_transformSchema types); cbn [bind];
    [|reflexivity].
  apply mapM_Ok. intros r. unfold assembled.
  destruct (VectorAssembler_transform_total r) as [v ->]. reflexivity.
Qed.

Lemma features_of_set_recommend (vocabulary_required : bool) (types : KeywordTypes)
  (joined : list EncodedRecord) :
  features_of vocabulary_required types (map (on_enc_row (set_recommend 0)) joined)
  = features_of vocabulary_required types joined.
Proof.
  unfold features_of. rewrite !vectorize_keywords_unfold.
  assert (T : top_keywords_list (map (on_enc_row (set_recommend 0)) joined)
              = top_keywords_list joined).
  { unfold top_keywords_list, top_keywords_df, keywords_cleaned, keywords_exploded.
    rewrite !flat_map_concat_map, map_map. reflexivity. }
  assert (V : fitted_vocabulary (map (on_enc_row (set_recommend 0)) joined)
              = fitted_vocabulary joined).
  { unfold fitted_vocabulary, kept_tokens, filtered_corpus.
    rewrite T, map_map. reflexivity. }
  assert (R : forall X : result (list VectorizedRecord),
            X = Ok (map (vectorized_row (map (on_enc_row (set_recommend 0)) joined))
                        (map (on_enc_row (set_recommend 0)) joined)) ->
            (vd <- X ;; rows <- assemble types vd ;;
             Ok (map (fun p => (productId (enc_row (vec_row (fst p))), snd p)) rows))
            = (vd <- Ok (map (vectorized_row joined) joined) ;;
               rows <- assemble types vd ;;
               Ok (map (fun p => (productId (enc_row (vec_row (fst p))), snd p)) rows))).
  { intros X ->. cbn [bind]. rewrite !assemble_unfold.
    destruct (VectorAssembler_transformSchema types); cbn [bind]; [|reflexivity].
    f_equal. rewrite !map_map. apply map_ext. intros r. cbn [fst snd].
    unfold vectorized_row. rewrite T, V. reflexivity. }
  rewrite V. destruct (fitted_vocabulary joined) eqn:E.
  - destruct vocabulary_required; [reflexivity|]. apply R. reflexivity.
  - apply R. reflexivity.
Qed.

Lemma feature_table_set_ranking (vocabulary_required : bool)
  (l : list RankingRecord) (kws : list KeywordRecord) :
  feature_table vocabulary_required l kws
  = (joined <- encode_table
                 (inner_join
                    (map (fun r => set_label 0 (drop_ranking (with_recommend r)))
                         (latest_per_product (map (set_ranking 0) l)))
                    kws) ;;
     features_of vocabulary_required (inferSchema kws) joined).
Proof.
  unfold feature_table, preprocess_data, joined_data_filled.
  rewrite <- label_rankings_set_label, <- inner_join_set_label,
    encode_table_set_recommend.
  destruct (encode_table (inner_join (label_rankings l) kws)); cbn [bind];
    [|reflexivity].
  symmetry. apply features_of_set_recommend.
Qed.

(** C3. The column ranking is there when the label is computed and is gone
    from the ranking table before the join, so it is a column neither of the
    joined nor of the vectorized table; it is not one of the assembler's input
    columns and the assembler could not read it; and the feature vectors do
    not change when the ranking values of the input change: two ranking
    tables that differ in nothing but ranking values give every product the
    same feature vector, and where one run makes no feature vectors the other
    makes none either, for the same reason. *)
Theorem ranking_never_reaches_features (l1 l2 : list RankingRecord)
  (kws : list KeywordRecord) :
  same_products_and_dates l1 l2 ->
  In "ranking"%string Schema.labeled /\
  ~ In "ranking"%string Schema.product_rankings /\
  ~ In "ranking"%string Schema.joined_data /\
  ~ In "ranking"%string Schema.vectorized_data /\
  ~ In "ranking"%string inputCols /\
  incl inputCols Schema.vectorized_data /\
  (forall r, column_vector "ranking" r = None) /\
  forall vocabulary_required,
    feature_table vocabulary_required l1 kws
    = feature_table vocabulary_required l2 kws.
Proof.
  intros H.
  split; [apply (mem_true_iff string_dec); reflexivity|].
  split; [apply (mem_false_iff string_dec); reflexivity|].
  split; [apply (mem_false_iff string_dec); reflexivity|].
  split; [apply (mem_false_iff string_dec); reflexivity|].
  split; [apply (mem_false_iff string_dec); reflexivity|].
  split.
  { intros c Hc. apply (mem_true_iff string_dec).
    unfold inputCols in Hc. simpl in Hc.
    repeat (destruct Hc as [<-|Hc]; [reflexivity|]). destruct Hc. }
  split; [reflexivity|].
  intros b. rewrite !feature_table_set_ranking.
  rewrite (same_products_and_dates_set_ranking l1 l2 H). reflexivity.
Qed.

(** * Python numbers *)

Lemma round_half_even_near (n : Z) (d : positive) :
  2 * Z.abs (round_half_even (Qmake n d) * Zpos d - n) <= Zpos d.
Proof.
  unfold round_half_even. cbn [Qnum Qden].
  pose proof (Z.div_mod n (Zpos d) ltac:(lia)) as E.
  pose proof (Z.mod_pos_bound n (Zpos d) ltac:(lia)) as B.
  set (f := n / Zpos d) in *. set (r := n mod Zpos d) in *.
  destruct (Z.ltb_spec (2 * r) (Zpos d)); [nia|].
  destruct (Z.ltb_spec (Zpos d) (2 * r)); [nia|].
  destruct (Z.even f); nia.
Qed.

(** [round2] gives a number of hundredths no further than half a hundredth
    from its argument. *)
Lemma round2_near (x : Q) : (Qabs (round2 x - x) <= 1 # 200)%Q.
Proof.
  unfold round2. destruct x as [n d].
  pose proof (round_half_even_near (n * 100) (d * 1)) as H.
  change ((n # d) * (100 # 1))%Q with (Qmake (n * 100) (d * 1)).
  set (k := round_half_even (Qmake (n * 100) (d * 1))) in *.
  apply Qabs_Qle_condition. unfold Qle, Qminus, Qplus, Qopp. cbn [Qnum Qden].
  rewrite !Pos2Z.inj_mul in *. split; nia.
Qed.

(** The float quotient of two counts is within 2^-53 of their quotient. *)
Lemma truediv_near (a b : Z) :
  0 <= a <= b -> 0 < b ->
  (Qabs (truediv a b - Qmake a (Z.to_pos b)) <= 1 # 9007199254740992)%Q.
Proof.
  intros Hab Hb. unfold truediv. destruct (Z.leb_spec a 0) as [Ha|Ha].
  - assert (a = 0) by lia. subst a.
    apply Qabs_Qle_condition. unfold Qle, Qminus, Qplus, Qopp. cbn [Qnum Qden]. lia.
  - cbv zeta.
    set (e0 := 52 + Z.log2 b - Z.log2 a).
    assert (He0 : 52 <= e0) by (pose proof (Z.log2_le_mono a b); lia).
    match goal with
    | |- context [if ?c then e0 + 1 else e0] => set (e := if c then e0 + 1 else e0)
    end.
    assert (He : 52 <= e)
      by (subst e; match goal with |- context [if ?c then _ else _] => destruct c end; lia).
    clearbody e. clear He0. clear e0.
    rewrite (Z.max_l e 0), (Z.max_r (- e) 0) by lia.
    change (2 ^ 0) with 1. rewrite !Z.mul_1_r.
    assert (HP : 2 ^ 52 <= 2 ^ e) by (apply Z.pow_le_mono_r; lia).
    change (2 ^ 52) with 4503599627370496 in HP.
    set (P := 2 ^ e) in *.
    pose proof (round_half_even_near (a * P) (Z.to_pos b)) as H.
    set (m := round_half_even (Qmake (a * P) (Z.to_pos b))) in *.
    apply Qabs_Qle_condition. unfold Qle, Qminus, Qplus, Qopp. cbn [Qnum Qden].
    rewrite !Pos2Z.inj_mul, !Z2Pos.id in * by lia.
    split; nia.
Qed.

Lemma ratio_or_zero_rounded (num den : nat) :
  (num <= den)%nat -> rounded_ratio num den (ratio_or_zero num den).
Proof.
  intros H. unfold rounded_ratio, ratio_or_zero.
  destruct (Nat.ltb_spec 0 den); [|reflexivity].
  split; [eexists; reflexivity|].
  split; [apply round2_near | apply truediv_near; lia].
Qed.

(** * The stages of the pipeline *)

(** The types of the columns: the assembler takes them when rating and
    ratingCount are not columns of strings, which [inferSchema] makes them
    when no row of the keyword table has a value there. *)
Lemma VectorAssembler_transformSchema_Ok (types : KeywordTypes) :
  VectorAssembler_transformSchema types = Ok tt <->
  rating_type types <> StringType /\ ratingCount_type types <> StringType.
Proof.
  destruct types as [[] []]; vm_compute;
    (split; [intros H; try discriminate H; split; discriminate
            | intros [H1 H2]; try reflexivity; congruence]).
Qed.

Lemma VectorAssembler_transformSchema_cases (types : KeywordTypes) :
  VectorAssembler_transformSchema types = Ok tt \/
  exists msg, VectorAssembler_transformSchema types = Raise (IllegalArgumentException msg).
Proof.
  unfold VectorAssembler_transformSchema.
  destruct (unsupported_columns types); [left; reflexivity|].
  right. eexists. reflexivity.
Qed.

Lemma inferSchema_column_numeric {A : Type} (col : list (option A)) :
  inferSchema_column col <> StringType <-> exists a, In (Some a) col.
Proof.
  unfold inferSchema_column.
  destruct (existsb has_value col) eqn:E.
  - split; [intros _|discriminate].
    apply existsb_exists in E. destruct E as [[a|] [Hin Hv]]; [|discriminate].
    exists a. exact Hin.
  - split; [congruence|]. intros [a Ha]. exfalso.
    assert (T : existsb has_value col = true)
      by (apply existsb_exists; exists (Some a); split; [exact Ha | reflexivity]).
    congruence.
Qed.

(** The assembler takes the columns of a run exactly when some keyword row
    has a rating and some keyword row has a ratingCount. *)
Lemma inferSchema_supported (kws : list KeywordRecord) :
  VectorAssembler_transformSchema (inferSchema kws) = Ok tt <->
  (exists k, In k kws /\ kw_rating k <> None) /\
  (exists k, In k kws /\ kw_ratingCount k <> None).
Proof.
  rewrite VectorAssembler_transformSchema_Ok. unfold inferSchema.
  cbn [rating_type ratingCount_type]. rewrite !inferSchema_column_numeric.
  split; intros [[a Ha] [b Hb]].
  - apply in_map_iff in Ha. destruct Ha as [k1 [E1 H1]].
    apply in_map_iff in Hb. destruct Hb as [k2 [E2 H2]].
    split; [exists k1 | exists k2]; split; auto; congruence.
  - destruct Ha as [Ha Na], Hb as [Hb Nb].
    destruct (kw_rating a) as [x|] eqn:Ea; [|congruence].
    destruct (kw_ratingCount b) as [y|] eqn:Eb; [|congruence].
    split; [exists x | exists y]; apply in_map_iff;
      [exists a | exists b]; auto.
Qed.

(** Rows sampled from a table: [map snd (filter P (combine xs l))]. *)
Lemma in_sample {A X : Type} (P : X * A -> bool) (xs : list X) (l : list A) (a : A) :
  In a (map snd (filter P (combine xs l))) -> In a l.
Proof.
  intros H. apply in_map_iff in H. destruct H as [[x a'] [<- H]].
  apply filter_In in H. destruct H as [H _]. apply in_combine_r in H. exact H.
Qed.

Lemma NoDup_map_sample {A X B : Type} (f : A -> B) (P : X * A -> bool)
  (xs : list X) (l : list A) :
  NoDup (map f l) -> NoDup (map f (map snd (filter P (combine xs l)))).
Proof.
  revert xs. induction l as [|a l IH]; intros xs H.
  - destruct xs; constructor.
  - destruct xs as [|x xs]; [constructor|].
    simpl in *. apply NoDup_cons_iff in H. destruct H as [Hn H].
    destruct (P (x, a)); [|apply IH, H].
    simpl. constructor; [|apply IH, H].
    intros Hin. apply Hn. apply in_map_iff in Hin. destruct Hin as [b [E Hb]].
    apply in_sample in Hb. rewrite <- E. apply in_map, Hb.
Qed.

Lemma NoDup_map_filter {A B : Type} (f : A -> B) (P : A -> bool) (l : list A) :
  NoDup (map f l) -> NoDup (map f (filter P l)).
Proof.
  induction l as [|a l IH]; simpl; intros H; [constructor|].
  apply NoDup_cons_iff in H. destruct H as [Hn H].
  destruct (P a); [|apply IH, H].
  simpl. constructor; [|apply IH, H].
  intros Hin. apply Hn. apply in_map_iff in Hin. destruct Hin as [b [E Hb]].
  apply filter_In in Hb. rewrite <- E. apply in_map, Hb.
Qed.

Lemma NoDup_map_injective {A B : Type} (f : A -> B) (l : list A) (a b : A) :
  NoDup (map f l) -> In a l -> In b l -> f a = f b -> a = b.
Proof.
  induction l as [|x l IH]; simpl; intros H Ha Hb E; [destruct Ha|].
  apply NoDup_cons_iff in H. destruct H as [Hn H].
  destruct Ha as [->|Ha], Hb as [->|Hb]; auto.
  - exfalso. apply Hn. rewrite E. apply in_map, Hb.
  - exfalso. apply Hn. rewrite <- E. apply in_map, Ha.
Qed.

Lemma filter_all {A : Type} (P : A -> bool) (l : list A) :
  (forall x, In x l -> P x = true) -> filter P l = l.
Proof.
  induction l as [|a l IH]; simpl; intros H; [reflexivity|].
  rewrite H by auto. f_equal. apply IH. auto.
Qed.

Lemma filter_none {A : Type} (P : A -> bool) (l : list A) :
  (forall x, In x l -> P x = false) -> filter P l = [].
Proof.
  induction l as [|a l IH]; simpl; intros H; [reflexivity|].
  rewrite H by auto. apply IH. auto.
Qed.

Lemma length_filter_map {A B : Type} (f : A -> B) (P : B -> bool) (l : list A) :
  length (filter P (map f l)) = length (filter (fun a => P (f a)) l).
Proof.
  induction l as [|a l IH]; [reflexivity|].
  cbn [map filter]. destruct (P (f a)); cbn [length]; rewrite IH; reflexivity.
Qed.

Lemma list_sum_categories (f : string -> nat) :
  list_sum (map f categories)
  = (f "clothes_top"%string + f "pants"%string + f "shoes"%string
     + f "outers"%string)%nat.
Proof. unfold categories. simpl. lia. Qed.

Section PipelineFacts.

Variable Model : Type.
Variable fit : list (list Q * Z) -> option Model.
Variable predict : Model -> list Q -> Z.
Variable nextDouble : Z -> nat -> Q.

Lemma transform_Ok (types : KeywordTypes) (m : Model) (l : list VectorizedRecord) :
  VectorAssembler_transformSchema types = Ok tt ->
  transform predict types m l = Ok (map (predicted predict m) l).
Proof.
  intros S. unfold transform. rewrite assemble_unfold, S. cbn [bind].
  rewrite map_map. reflexivity.
Qed.

Lemma predict_recommendation_Ok (types : KeywordTypes) (test : list VectorizedRecord)
  (m : Model) :
  VectorAssembler_transformSchema types = Ok tt ->
  predict_recommendation predict types test m
  = Ok (map (prediction_record predict m) test).
Proof.
  intros S. unfold predict_recommendation. rewrite (transform_Ok _ _ _ S). cbn [bind].
  rewrite map_map. reflexivity.
Qed.

Lemma train_model_unfold (types : KeywordTypes) (l : list VectorizedRecord) :
  train_model fit types l
  = (_ <- VectorAssembler_transformSchema types ;;
     match l with
     | [] => Raise ClassifierException
     | _ :: _ =>
         match fit (labeled_points l) with
         | Some m => Ok m
         | None => Raise ClassifierException
         end
     end).
Proof.
  unfold train_model. rewrite assemble_unfold.
  destruct (VectorAssembler_transformSchema types); cbn [bind]; [|reflexivity].
  rewrite map_map. destruct l; reflexivity.
Qed.

(** A model is trained on a table exactly when the assembler takes the
    columns, the table has a row and the classifier fits. *)
Lemma train_model_Ok (types : KeywordTypes) (l : list VectorizedRecord) (m : Model) :
  train_model fit types l = Ok m <->
  VectorAssembler_transformSchema types = Ok tt /\ l <> [] /\
  fit (labeled_points l) = Some m.
Proof.
  rewrite train_model_unfold.
  destruct (VectorAssembler_transformSchema types) as [[]|e]; cbn [bind].
  - destruct l as [|r l].
    + split; [discriminate | intros [_ [H _]]; congruence].
    + destruct (fit (labeled_points (r :: l))) as [m'|].
      * split; [intros H; inversion H; repeat split; discriminate
               | intros [_ [_ H]]; inversion H; reflexivity].
      * split; [discriminate | intros [_ [_ H]]; discriminate].
  - split; [discriminate | intros [H _]; discriminate].
Qed.

(** What training raises: the assembler's exception for the column types, or
    the classifier's. *)
Lemma train_model_Raise (types : KeywordTypes) (l : list VectorizedRecord) (e : exn) :
  train_model fit types l = Raise e ->
  VectorAssembler_transformSchema types = Raise e \/
  (VectorAssembler_transformSchema types = Ok tt /\ e = ClassifierException /\
   (l = [] \/ fit (labeled_points l) = None)).
Proof.
  rewrite train_model_unfold.
  destruct (VectorAssembler_transformSchema types) as [[]|e']; cbn [bind].
  - intros H. right. split; [reflexivity|].
    destruct l as [|r l]; [inversion H; auto|].
    destruct (fit (labeled_points (r :: l))); [discriminate|].
    inversion H. auto.
  - intros H. left. inversion H. reflexivity.
Qed.

Lemma randomSplit_unpack {A : Type} (l : list A) :
  unpack2 (randomSplit nextDouble split_weights 42 l)
  = Ok (split_part nextDouble 0 l, split_part nextDouble 1 l).
Proof. reflexivity. Qed.

Lemma split_part_sample {A : Type} (i : nat) (l : list A) :
  split_part nextDouble i l = [] \/
  exists (P : Q * A -> bool) (xs : list Q),
    split_part nextDouble i l = map snd (filter P (combine xs l)).
Proof.
  destruct i as [|[|i]].
  - right. eexists. eexists. reflexivity.
  - right. eexists. eexists. reflexivity.
  - left. unfold split_part, randomSplit. destruct i; reflexivity.
Qed.

Lemma in_split_part {A : Type} (i : nat) (l : list A) (a : A) :
  In a (split_part nextDouble i l) -> In a l.
Proof.
  destruct (split_part_sample i l) as [E|[P [xs E]]]; rewrite E.
  - intros [].
  - apply in_sample.
Qed.

Lemma NoDup_map_split_part {A B : Type} (f : A -> B) (i : nat) (l : list A) :
  NoDup (map f l) -> NoDup (map f (split_part nextDouble i l)).
Proof.
  destruct (split_part_sample i l) as [E|[P [xs E]]]; rewrite E.
  - constructor.
  - apply NoDup_map_sample.
Qed.

Lemma split_part_nil {A : Type} (i : nat) : split_part nextDouble i (@nil A) = [].
Proof.
  destruct (split_part_sample i (@nil A)) as [E|[P [xs E]]]; rewrite E;
    [reflexivity|].
  destruct xs; reflexivity.
Qed.

Lemma train_models_unfold (types : KeywordTypes) (vd : list VectorizedRecord) :
  train_models fit nextDouble types vd
  = (m1 <- train_model fit types (clothes_top (train_of nextDouble vd)) ;;
     m2 <- train_model fit types (pants (train_of nextDouble vd)) ;;
     m3 <- train_model fit types (shoes (train_of nextDouble vd)) ;;
     m4 <- train_model fit types (outers (train_of nextDouble vd)) ;;
     Ok {| cat_data := data_of vd;
           cat_data_train := train_of nextDouble vd;
           cat_data_test := test_of nextDouble vd;
           cat_model := {| clothes_top := m1; pants := m2; shoes := m3; outers := m4 |} |}).
Proof.
  unfold train_models. cbv zeta. rewrite !randomSplit_unpack. reflexivity.
Qed.

(** What [train_models] leaves on [self] when it returns, and what it takes
    for it to return. *)
Lemma train_models_Ok (types : KeywordTypes) (vd : list VectorizedRecord)
  (t : Trained Model) :
  train_models fit nextDouble types vd = Ok t ->
  cat_data t = data_of vd /\
  cat_data_train t = train_of nextDouble vd /\
  cat_data_test t = test_of nextDouble vd /\
  (forall c, In c categories ->
     fit (labeled_points (field c (train_of nextDouble vd)))
     = Some (field c (cat_model t))) /\
  VectorAssembler_transformSchema types = Ok tt /\
  (forall c, In c categories -> field c (train_of nextDouble vd) <> []).
Proof.
  rewrite train_models_unfold.
  destruct (train_model fit types (clothes_top (train_of nextDouble vd))) as [m1|] eqn:E1;
    [|discriminate].
  destruct (train_model fit types (pants (train_of nextDouble vd))) as [m2|] eqn:E2;
    [|discriminate].
  destruct (train_model fit types (shoes (train_of nextDouble vd))) as [m3|] eqn:E3;
    [|discriminate].
  destruct (train_model fit types (outers (train_of nextDouble vd))) as [m4|] eqn:E4;
    [|discriminate].
  apply train_model_Ok in E1, E2, E3, E4.
  cbn [bind]. intros H. inversion H; subst; clear H.
  cbn [cat_data cat_data_train cat_data_test cat_model].
  split; [reflexivity|]. split; [reflexivity|]. split; [reflexivity|].
  split; [|split; [apply E1|]].
  - intros c Hc. unfold categories in Hc. simpl in Hc.
    destruct Hc as [<-|[<-|[<-|[<-|[]]]]];
      [apply E1 | apply E2 | apply E3 | apply E4].
  - intros c Hc. unfold categories in Hc. simpl in Hc.
    destruct Hc as [<-|[<-|[<-|[<-|[]]]]];
      [apply E1 | apply E2 | apply E3 | apply E4].
Qed.

Lemma evaluate_model_Ok (types : KeywordTypes) (m : Model) (l : list VectorizedRecord) :
  VectorAssembler_transformSchema types = Ok tt ->
  evaluate_model predict types m l = Ok (accuracy_of predict m l).
Proof.
  intros S. unfold evaluate_model. rewrite (transform_Ok _ _ _ S). cbn [bind].
  unfold accuracy_of. f_equal. f_equal; [|apply length_map].
  induction l as [|r l IH]; [reflexivity|].
  cbn [map filter predicted prediction pd_row].
  destruct (predict m (assembled r) =? recommend (enc_row (vec_row r)));
    cbn [length]; rewrite IH; reflexivity.
Qed.

Lemma evaluate_models_Ok (types : KeywordTypes) (t : Trained Model) :
  VectorAssembler_transformSchema types = Ok tt ->
  evaluate_models predict types t
  = Ok (per_category (fun c => accuracy_of predict (field c (cat_model t))
                                 (field c (cat_data_train t))),
        per_category (fun c => accuracy_of predict (field c (cat_model t))
                                 (field c (cat_data_test t)))).
Proof.
  intros S. unfold evaluate_models. rewrite !(evaluate_model_Ok _ _ _ S). reflexivity.
Qed.

Lemma predict_and_evaluate_Ok (types : KeywordTypes) (t : Trained Model)
  (acc : PerCategory Accuracy * PerCategory Accuracy) :
  VectorAssembler_transformSchema types = Ok tt ->
  predict_and_evaluate predict types t acc
  = Ok (results_of predict t, report_of (results_of predict t) acc).
Proof.
  intros S. unfold predict_and_evaluate.
  rewrite !(predict_recommendation_Ok _ _ _ S). reflexivity.
Qed.

(** ** The run up to the report *)

Lemma run_to_report_unfold (vocabulary_required : bool)
  (rankings : list RankingRecord) (kws : list KeywordRecord) :
  run_to_report fit predict nextDouble vocabulary_required rankings kws
  = (joined <- preprocess_data rankings kws ;;
     vd <- vectorize_keywords vocabulary_required joined ;;
     t <- train_models fit nextDouble (inferSchema kws) vd ;;
     acc <- evaluate_models predict (inferSchema kws) t ;;
     predict_and_evaluate predict (inferSchema kws) t acc).
Proof. reflexivity. Qed.

Lemma run_to_report_Ok (vocabulary_required : bool)
  (rankings : list RankingRecord) (kws : list KeywordRecord)
  (results : PerCategory (list PredictionRecord)) (report : Report) :
  run_to_report fit predict nextDouble vocabulary_required rankings kws
  = Ok (results, report) ->
  exists joined vd t acc,
    preprocess_data rankings kws = Ok joined /\
    vectorize_keywords vocabulary_required joined = Ok vd /\
    train_models fit nextDouble (inferSchema kws) vd = Ok t /\
    evaluate_models predict (inferSchema kws) t = Ok acc /\
    predict_and_evaluate predict (inferSchema kws) t acc = Ok (results, report).
Proof.
  rewrite run_to_report_unfold.
  destruct (preprocess_data rankings kws) as [joined|] eqn:E0; [|discriminate].
  cbn [bind].
  destruct (vectorize_keywords vocabulary_required joined) as [vd|] eqn:E1;
    [|discriminate].
  cbn [bind].
  destruct (train_models fit nextDouble (inferSchema kws) vd) as [t|] eqn:E2;
    [|discriminate].
  cbn [bind].
  destruct (evaluate_models predict (inferSchema kws) t) as [acc|] eqn:E3;
    [|discriminate].
  cbn [bind]. intros H. exists joined, vd, t, acc. auto.
Qed.

(** A run that reaches the report: its tables and its report. *)
Lemma run_to_report_Ok_report (vocabulary_required : bool)
  (rankings : list RankingRecord) (kws : list KeywordRecord)
  (results : PerCategory (list PredictionRecord)) (report : Report) :
  run_to_report fit predict nextDouble vocabulary_required rankings kws
  = Ok (results, report) ->
  exists joined vd t acc,
    preprocess_data rankings kws = Ok joined /\
    vectorize_keywords vocabulary_required joined = Ok vd /\
    train_models fit nextDouble (inferSchema kws) vd = Ok t /\
    results = results_of predict t /\
    report = report_of (results_of predict t) acc.
Proof.
  intros H. apply run_to_report_Ok in H.
  destruct H as [joined [vd [t [acc [H0 [H1 [H2 [_ H4]]]]]]]].
  destruct (train_models_Ok _ _ _ H2) as [_ [_ [_ [_ [S _]]]]].
  rewrite (predict_and_evaluate_Ok _ _ _ S) in H4. inversion H4.
  exists joined, vd, t, acc. auto.
Qed.

(** ** One row per productId *)

Lemma label_rankings_keys (l : list RankingRecord) :
  map lb_productId (label_rankings l) = map rk_productId (latest_per_product l).
Proof. unfold label_rankings. rewrite !map_map. reflexivity. Qed.

Lemma NoDup_label_rankings (l : list RankingRecord) :
  NoDup (map lb_productId (label_rankings l)).
Proof.
  rewrite label_rankings_keys, latest_per_product_keys. apply NoDup_distinct.
Qed.

Lemma filter_key_at_most_one (ks : list KeywordRecord) (x : Z) :
  NoDup (map kw_productId ks) ->
  (length (filter (fun k => (kw_productId k =? x)%Z) ks) <= 1)%nat.
Proof.
  induction ks as [|k ks IH]; simpl; intros H; [lia|].
  apply NoDup_cons_iff in H. destruct H as [Hn H].
  destruct (Z.eqb_spec (kw_productId k) x) as [e|n]; [|apply IH, H].
  simpl. rewrite filter_none; [simpl; lia|].
  intros k' Hk'. apply Z.eqb_neq. intros e'. apply Hn.
  rewrite e, <- e'. apply in_map, Hk'.
Qed.

Lemma in_inner_join_key (ls : list LabeledRecord) (ks : list KeywordRecord) (a : Z) :
  In a (map productId (inner_join ls ks)) -> In a (map lb_productId ls).
Proof.
  intros H. apply in_map_iff in H. destruct H as [j [<- H]].
  unfold inner_join in H. apply in_flat_map in H. destruct H as [l [Hl H]].
  apply in_map_iff in H. destruct H as [k [<- _]]. simpl. apply in_map, Hl.
Qed.

Lemma NoDup_inner_join (ls : list LabeledRecord) (ks : list KeywordRecord) :
  NoDup (map lb_productId ls) -> NoDup (map kw_productId ks) ->
  NoDup (map productId (inner_join ls ks)).
Proof.
  intros Hl Hk. induction ls as [|l ls IH]; [constructor|].
  simpl in Hl. apply NoDup_cons_iff in Hl. destruct Hl as [Hn Hl].
  change (inner_join (l :: ls) ks)
    with (map (join_row l) (filter (fun k => kw_productId k =? lb_productId l) ks)
          ++ inner_join ls ks).
  rewrite map_app, map_map. cbn [join_row productId].
  pose proof (filter_key_at_most_one ks (lb_productId l) Hk) as H1.
  apply NoDup_app; [| apply IH, Hl |].
  - destruct (filter (fun k => kw_productId k =? lb_productId l) ks) as [|k1 [|k2 r]];
      simpl in *; [constructor | repeat constructor; intros [] | lia].
  - intros a Ha Hb. apply in_map_iff in Ha. destruct Ha as [k [<- _]].
    apply Hn. apply (in_inner_join_key ls ks), Hb.
Qed.

Lemma preprocess_data_keys (rankings : list RankingRecord) (kws : list KeywordRecord)
  (joined : list EncodedRecord) :
  preprocess_data rankings kws = Ok joined ->
  map (fun e => productId (enc_row e)) joined
  = map productId (joined_data_filled rankings kws).
Proof.
  intros H. apply preprocess_data_Ok in H. subst joined.
  unfold encoded_rows. rewrite map_map. reflexivity.
Qed.

Lemma vectorize_keywords_rows (vocabulary_required : bool)
  (joined : list EncodedRecord) (vd : list VectorizedRecord) :
  vectorize_keywords vocabulary_required joined = Ok vd -> map vec_row vd = joined.
Proof.
  intros H. apply vectorize_keywords_Ok in H. subst vd.
  rewrite map_map. apply map_id.
Qed.

Lemma NoDup_vectorized (vocabulary_required : bool)
  (rankings : list RankingRecord) (kws : list KeywordRecord)
  (joined : list EncodedRecord) (vd : list VectorizedRecord) :
  NoDup (map kw_productId kws) ->
  preprocess_data rankings kws = Ok joined ->
  vectorize_keywords vocabulary_required joined = Ok vd ->
  NoDup (map vpid vd).
Proof.
  intros Hk Hj Hv. apply vectorize_keywords_rows in Hv.
  unfold vpid. rewrite <- (map_map vec_row (fun e => productId (enc_row e))), Hv.
  rewrite (preprocess_data_keys _ _ _ Hj).
  apply NoDup_inner_join; [apply NoDup_label_rankings | exact Hk].
Qed.

Lemma in_filter_category (c : string) (vd : list VectorizedRecord) (r : VectorizedRecord) :
  In r (filter_category c vd) <-> In r vd /\ vcategory r = c.
Proof.
  unfold filter_category, vcategory. rewrite filter_In, String.eqb_eq. reflexivity.
Qed.

(** The rows that reach a category's train or test table are rows of the
    vectorized table of that category. *)
Lemma in_category_part (i : nat) (c : string) (vd : list VectorizedRecord)
  (r : VectorizedRecord) :
  In r (split_part nextDouble i (filter_category c vd)) -> In r vd /\ vcategory r = c.
Proof. intros H. apply in_split_part in H. apply in_filter_category, H. Qed.

Lemma NoDup_category_part (i : nat) (c : string) (vd : list VectorizedRecord) :
  NoDup (map vpid vd) -> NoDup (map vpid (split_part nextDouble i (filter_category c vd))).
Proof.
  intros H. apply NoDup_map_split_part. unfold filter_category.
  apply NoDup_map_filter, H.
Qed.

Lemma category_parts_disjoint (i j : nat) (c d : string) (vd : list VectorizedRecord)
  (a : Z) :
  NoDup (map vpid vd) -> c <> d ->
  In a (map vpid (split_part nextDouble i (filter_category c vd))) ->
  ~ In a (map vpid (split_part nextDouble j (filter_category d vd))).
Proof.
  intros Hn Hcd Ha Hb.
  apply in_map_iff in Ha. destruct Ha as [r1 [E1 H1]].
  apply in_map_iff in Hb. destruct Hb as [r2 [E2 H2]].
  apply in_category_part in H1. apply in_category_part in H2.
  destruct H1 as [H1 C1], H2 as [H2 C2].
  assert (r1 = r2) by (apply (NoDup_map_injective vpid vd); congruence).
  subst r2. congruence.
Qed.

Lemma union_all_keys (t : Trained Model) :
  map pr_productId (union_all (results_of predict t))
  = ((map vpid (clothes_top (cat_data_test t)) ++ map vpid (pants (cat_data_test t)))
     ++ map vpid (shoes (cat_data_test t))) ++ map vpid (outers (cat_data_test t)).
Proof.
  unfold union_all, results_of. cbn [clothes_top pants shoes outers].
  rewrite !map_app, !map_map. reflexivity.
Qed.

Lemma NoDup_union_all (types : KeywordTypes) (vd : list VectorizedRecord)
  (t : Trained Model) :
  NoDup (map vpid vd) ->
  train_models fit nextDouble types vd = Ok t ->
  NoDup (map pr_productId (union_all (results_of predict t))).
Proof.
  intros Hn Ht. apply train_models_Ok in Ht. destruct Ht as [_ [_ [Ht _]]].
  rewrite union_all_keys, Ht. unfold test_of. cbn [per_category clothes_top pants shoes outers].
  repeat apply NoDup_app; try (apply NoDup_category_part, Hn);
    intros a Ha; repeat (apply in_app_or in Ha; destruct Ha as [Ha|Ha]);
    (eapply category_parts_disjoint; [exact Hn | | exact Ha]; discriminate).
Qed.

(** ** Train and test *)

Lemma split_part_train {A : Type} (l : list A) :
  split_part nextDouble 0 l = sample nextDouble (in_cell train_cell) l.
Proof. reflexivity. Qed.

Lemma split_part_test {A : Type} (l : list A) :
  split_part nextDouble 1 l = sample nextDouble (in_cell test_cell) l.
Proof. reflexivity. Qed.

Lemma cells_exclusive (x : Q) :
  in_cell train_cell x = true -> in_cell test_cell x = false.
Proof.
  unfold in_cell.
  change (fst test_cell) with (snd train_cell).
  destruct (Qle_bool (snd train_cell) x); simpl.
  - rewrite andb_false_r. discriminate.
  - reflexivity.
Qed.

Lemma cells_cover (x : Q) :
  (0 <= x)%Q -> (x < 1)%Q -> in_cell train_cell x || in_cell test_cell x = true.
Proof.
  intros H0 H1. unfold in_cell.
  change (fst test_cell) with (snd train_cell).
  change (fst train_cell) with (0 # 1)%Q.
  assert (L : Qle_bool (0 # 1) x = true) by (apply Qle_bool_iff; exact H0).
  assert (U : Qle_bool (snd test_cell) x = false).
  { destruct (Qle_bool (snd test_cell) x) eqn:E; [|reflexivity].
    apply Qle_bool_iff in E. exfalso.
    assert (B : (snd test_cell == 1)%Q) by reflexivity.
    rewrite B in E. apply (Qlt_not_le _ _ H1 E). }
  rewrite L, U. destruct (Qle_bool (snd train_cell) x); reflexivity.
Qed.

Lemma sample_partition {A : Type} (P1 P2 : Q -> bool) (xs : list Q) (l : list A) :
  (forall x, P1 x = true -> P2 x = false) ->
  Permutation
    (map snd (filter (fun p : Q * A => P1 (fst p)) (combine xs l))
     ++ map snd (filter (fun p : Q * A => P2 (fst p)) (combine xs l)))
    (map snd (filter (fun p : Q * A => P1 (fst p) || P2 (fst p)) (combine xs l))).
Proof.
  intros Hex. revert xs. induction l as [|a l IH]; intros [|x xs]; simpl;
    try constructor.
  destruct (P1 x) eqn:E1; simpl.
  - rewrite (Hex x E1). constructor. apply IH.
  - destruct (P2 x); simpl.
    + symmetry. apply Permutation_cons_app. symmetry. apply IH.
    + apply IH.
Qed.

Lemma sample_everything {A : Type} (P : Q -> bool) (xs : list Q) (l : list A) :
  length xs = length l -> (forall x, In x xs -> P x = true) ->
  map snd (filter (fun p : Q * A => P (fst p)) (combine xs l)) = l.
Proof.
  revert xs. induction l as [|a l IH]; intros [|x xs] Hl HP; simpl in *;
    try discriminate; [reflexivity|].
  rewrite HP by auto. simpl. f_equal. apply IH; [lia | auto].
Qed.

(** No row is both in the train and in the test table of its category, and
    when the draws are in [0, 1) every row is in one of the two. *)
Lemma train_test_partition {A B : Type} (f : A -> B) (l : list A) :
  (NoDup (map f l) -> NoDup (map f (split_part nextDouble 0 l ++ split_part nextDouble 1 l))) /\
  ((forall s i, (0 <= nextDouble s i)%Q /\ (nextDouble s i < 1)%Q) ->
   Permutation (split_part nextDouble 0 l ++ split_part nextDouble 1 l) l).
Proof.
  rewrite split_part_train, split_part_test. unfold sample.
  pose proof (sample_partition (in_cell train_cell) (in_cell test_cell)
                (draws nextDouble l) l cells_exclusive) as P.
  split.
  - intros H. eapply Permutation_NoDup.
    + apply Permutation_map. symmetry. exact P.
    + apply (NoDup_map_sample f
               (fun p : Q * A => in_cell train_cell (fst p) || in_cell test_cell (fst p))).
      exact H.
  - intros Hr. rewrite P.
    rewrite (sample_everything (fun x => in_cell train_cell x || in_cell test_cell x));
      [reflexivity | |].
    + unfold draws. rewrite length_map, length_seq. reflexivity.
    + intros x Hx. unfold draws in Hx. apply in_map_iff in Hx.
      destruct Hx as [i [<- _]]. apply cells_cover; apply Hr.
Qed.

Lemma field_per_category {A : Type} (f : string -> A) (c : string) :
  In c categories -> field c (per_category f) = f c.
Proof.
  unfold categories. simpl.
  intros [<-|[<-|[<-|[<-|[]]]]]; reflexivity.
Qed.

Lemma categories_disjoint (c d : string) (vd : list VectorizedRecord)
  (r : VectorizedRecord) :
  c <> d -> In r (filter_category c vd) -> ~ In r (filter_category d vd).
Proof.
  intros Hcd Hc Hd. apply in_filter_category in Hc. apply in_filter_category in Hd.
  destruct Hc as [_ Hc], Hd as [_ Hd]. congruence.
Qed.

(** C10. When the keyword table has one row per productId, every productId
    occurs at most once in the union of the four prediction tables: the
    labelled ranking table and the joined table have one row per productId,
    no row passes two of the category filters, no row of a category is in
    both its train and its test table (and every row is in one of them when
    the draws lie in [0, 1)), and the union adds no productId twice. *)
Theorem productId_at_most_once_in_predictions (vocabulary_required : bool)
  (rankings : list RankingRecord) (kws : list KeywordRecord)
  (results : PerCategory (list PredictionRecord)) (report : Report) :
  NoDup (map kw_productId kws) ->
  run_to_report fit predict nextDouble vocabulary_required rankings kws
  = Ok (results, report) ->
  NoDup (map lb_productId (label_rankings rankings)) /\
  NoDup (map productId (joined_data_filled rankings kws)) /\
  (exists joined vd t,
     preprocess_data rankings kws = Ok joined /\
     vectorize_keywords vocabulary_required joined = Ok vd /\
     train_models fit nextDouble (inferSchema kws) vd = Ok t /\
     results = results_of predict t /\
     (forall c d r, c <> d -> In r (filter_category c vd) -> ~ In r (filter_category d vd)) /\
     (forall c, In c categories ->
        NoDup (map vpid (field c (cat_data_train t) ++ field c (cat_data_test t))) /\
        ((forall s i, (0 <= nextDouble s i)%Q /\ (nextDouble s i < 1)%Q) ->
         Permutation (field c (cat_data_train t) ++ field c (cat_data_test t))
                     (field c (cat_data t))))) /\
  NoDup (map pr_productId (union_all results)).
Proof.
  intros Hk Hrun.
  apply run_to_report_Ok_report in Hrun.
  destruct Hrun as [joined [vd [t [acc [Hj [Hv [Ht [-> ->]]]]]]]].
  pose proof (NoDup_vectorized _ rankings kws joined vd Hk Hj Hv) as Hn.
  split; [apply NoDup_label_rankings|].
  split; [apply NoDup_inner_join; [apply NoDup_label_rankings | exact Hk]|].
  split; [|apply (NoDup_union_all _ vd t Hn Ht)].
  exists joined, vd, t. split; [exact Hj|]. split; [exact Hv|]. split; [exact Ht|].
  split; [reflexivity|].
  split; [intros c d r; apply categories_disjoint|].
  intros c Hc. apply train_models_Ok in Ht. destruct Ht as [Hd [Htr [Hte _]]].
  rewrite Hd, Htr, Hte. unfold data_of, train_of, test_of.
  rewrite !field_per_category by exact Hc.
  destruct (train_test_partition vpid (filter_category c vd)) as [P1 P2].
  split; [|exact P2].
  apply P1. unfold filter_category. apply NoDup_map_filter, Hn.
Qed.

(** ** The confusion counts *)

Lemma in_joined_data_filled (l : list RankingRecord) (kws : list KeywordRecord)
  (j : JoinedRecord) :
  In j (joined_data_filled l kws) ->
  exists s k, In s (latest_per_product l) /\ In k kws /\
              kw_productId k = rk_productId s /\
              j = join_row (drop_ranking (with_recommend s)) k.
Proof.
  unfold joined_data_filled, inner_join. intros Hj.
  apply in_flat_map in Hj. destruct Hj as [lb [Hlb Hj]].
  apply in_map_iff in Hj. destruct Hj as [k [<- Hk]].
  apply filter_In in Hk. destruct Hk as [Hk E]. apply Z.eqb_eq in E.
  unfold label_rankings in Hlb. rewrite map_map in Hlb.
  apply in_map_iff in Hlb. destruct Hlb as [s [<- Hs]].
  exists s, k. auto.
Qed.

Lemma label_of_ranking_binary (z : Z) :
  label_of_ranking z = 0 \/ label_of_ranking z = 1.
Proof. unfold label_of_ranking. destruct (z <=? 150); auto. Qed.

(** A row of the vectorized table of a run comes from a row of the joined
    table. *)
Lemma in_vectorized (vocabulary_required : bool) (rankings : list RankingRecord)
  (kws : list KeywordRecord) (joined : list EncodedRecord)
  (vd : list VectorizedRecord) (r : VectorizedRecord) :
  preprocess_data rankings kws = Ok joined ->
  vectorize_keywords vocabulary_required joined = Ok vd -> In r vd ->
  In (vec_row r) joined /\ In (enc_row (vec_row r)) (joined_data_filled rankings kws).
Proof.
  intros Hj Hv Hr. apply vectorize_keywords_rows in Hv.
  assert (He : In (vec_row r) joined) by (rewrite <- Hv; apply in_map, Hr).
  split; [exact He|].
  apply preprocess_data_Ok in Hj. rewrite Hj in He.
  apply in_encoded_rows in He. destruct He as [j [Hin E]]. rewrite E. exact Hin.
Qed.

Lemma vectorized_recommend_binary (vocabulary_required : bool)
  (rankings : list RankingRecord) (kws : list KeywordRecord)
  (joined : list EncodedRecord) (vd : list VectorizedRecord) (r : VectorizedRecord) :
  preprocess_data rankings kws = Ok joined ->
  vectorize_keywords vocabulary_required joined = Ok vd -> In r vd ->
  recommend (enc_row (vec_row r)) = 0 \/ recommend (enc_row (vec_row r)) = 1.
Proof.
  intros Hj Hv Hr.
  destruct (in_vectorized _ _ _ _ _ _ Hj Hv Hr) as [_ H].
  apply in_joined_data_filled in H. destruct H as [s [k [_ [_ [_ ->]]]]].
  apply label_of_ranking_binary.
Qed.

Lemma count_where_total (l : list PredictionRecord) :
  Forall binary_row l ->
  (count_where 1 1 l + count_where 0 1 l + count_where 1 0 l + count_where 0 0 l
   = length l)%nat.
Proof.
  unfold count_where. induction 1 as [|p l [[T|T] [P|P]] _ IH]; simpl;
    [reflexivity| | | |]; rewrite T, P; simpl; lia.
Qed.

Lemma confusion_counts_row (name : string) (l : list PredictionRecord) :
  Forall binary_row l -> counts_row (confusion name l) (length l).
Proof.
  intros H. unfold counts_row, confusion. cbn [tp fn fp tn recall precision].
  split; [apply count_where_total, H|].
  split; apply ratio_or_zero_rounded; lia.
Qed.

Lemma field_results_of (t : Trained Model) (c : string) :
  field c (results_of predict t)
  = map (prediction_record predict (field c (cat_model t))) (field c (cat_data_test t)).
Proof.
  unfold field, results_of. cbn [clothes_top pants shoes outers].
  destruct (String.eqb c "clothes_top"); [reflexivity|].
  destruct (String.eqb c "pants"); [reflexivity|].
  destruct (String.eqb c "shoes"); reflexivity.
Qed.

Lemma in_field_results_of (types : KeywordTypes) (vd : list VectorizedRecord)
  (t : Trained Model) (c : string) (p : PredictionRecord) :
  train_models fit nextDouble types vd = Ok t -> In c categories ->
  In p (field c (results_of predict t)) ->
  exists r, In r vd /\ vcategory r = c /\
            p = prediction_record predict (field c (cat_model t)) r.
Proof.
  intros Ht Hc Hp. apply train_models_Ok in Ht. destruct Ht as [_ [_ [Hte _]]].
  rewrite field_results_of, Hte in Hp. unfold test_of in Hp.
  rewrite field_per_category in Hp by exact Hc.
  apply in_map_iff in Hp. destruct Hp as [r [<- Hr]].
  apply in_category_part in Hr. exists r. tauto.
Qed.

Lemma filter_union_all (types : KeywordTypes) (vd : list VectorizedRecord)
  (t : Trained Model) (c : string) :
  train_models fit nextDouble types vd = Ok t -> In c categories ->
  filter (fun r => String.eqb (pr_category r) c) (union_all (results_of predict t))
  = field c (results_of predict t).
Proof.
  intros Ht Hc.
  assert (Same : forall d, In d categories -> d = c ->
            filter (fun r => String.eqb (pr_category r) c) (field d (results_of predict t))
            = field d (results_of predict t)).
  { intros d Hd E. apply filter_all. intros p Hp.
    destruct (in_field_results_of types vd t d p Ht Hd Hp) as [r [_ [Hr ->]]].
    apply String.eqb_eq. unfold prediction_record, select_prediction, predicted.
    cbn [pr_category pd_row]. unfold vcategory in Hr. congruence. }
  assert (Other : forall d, In d categories -> d <> c ->
            filter (fun r => String.eqb (pr_category r) c) (field d (results_of predict t)) = []).
  { intros d Hd E. apply filter_none. intros p Hp.
    destruct (in_field_results_of types vd t d p Ht Hd Hp) as [r [_ [Hr ->]]].
    apply String.eqb_neq. unfold prediction_record, select_prediction, predicted.
    cbn [pr_category pd_row]. unfold vcategory in Hr. congruence. }
  unfold union_all. rewrite !filter_app.
  change (clothes_top (results_of predict t)) with (field "clothes_top" (results_of predict t)).
  change (pants (results_of predict t)) with (field "pants" (results_of predict t)).
  change (shoes (results_of predict t)) with (field "shoes" (results_of predict t)).
  change (outers (results_of predict t)) with (field "outers" (results_of predict t)).
  unfold categories in Hc. simpl in Hc.
  destruct Hc as [<-|[<-|[<-|[<-|[]]]]];
    repeat first
      [ rewrite Same by (first [reflexivity | simpl; tauto])
      | rewrite Other by (first [discriminate | simpl; tauto]) ];
    rewrite ?app_nil_r; reflexivity.
Qed.

Lemma results_binary (vocabulary_required : bool) (types : KeywordTypes)
  (rankings : list RankingRecord) (kws : list KeywordRecord)
  (joined : list EncodedRecord) (vd : list VectorizedRecord) (t : Trained Model)
  (c : string) :
  (forall m v, predict m v = 0 \/ predict m v = 1) ->
  preprocess_data rankings kws = Ok joined ->
  vectorize_keywords vocabulary_required joined = Ok vd ->
  train_models fit nextDouble types vd = Ok t -> In c categories ->
  Forall binary_row (field c (results_of predict t)).
Proof.
  intros Hb Hj Hv Ht Hc. apply Forall_forall. intros p Hp.
  destruct (in_field_results_of types vd t c p Ht Hc Hp) as [r [Hr [_ ->]]].
  unfold binary_row, prediction_record, select_prediction, predicted.
  cbn [pr_recommend predicted_recommend prediction pd_row].
  split; [apply (vectorized_recommend_binary _ rankings kws joined vd r Hj Hv Hr)
         | apply Hb].
Qed.

Lemma count_where_predicted_as (m : Model) (p y : Z) (l : list VectorizedRecord) :
  count_where p y (map (prediction_record predict m) l) = predicted_as predict m p y l.
Proof.
  unfold count_where, predicted_as. rewrite length_filter_map. reflexivity.
Qed.

Lemma confusion_counts_of (name : string) (m : Model) (test : list VectorizedRecord) :
  counts_of predict m test (confusion name (map (prediction_record predict m) test)).
Proof.
  unfold counts_of, confusion. cbn [tp fn fp tn].
  rewrite !count_where_predicted_as. repeat split.
Qed.

Lemma count_where_union_all (results : PerCategory (list PredictionRecord)) (p y : Z) :
  count_where p y (union_all results)
  = (count_where p y (clothes_top results) + count_where p y (pants results)
     + count_where p y (shoes results) + count_where p y (outers results))%nat.
Proof.
  unfold union_all, count_where. rewrite !filter_app, !length_app. reflexivity.
Qed.

Lemma count_where_results_of (t : Trained Model) (p y : Z) :
  count_where p y (union_all (results_of predict t))
  = list_sum (map (fun c => predicted_as predict (field c (cat_model t)) p y
                              (field c (cat_data_test t)))
                  categories).
Proof.
  rewrite count_where_union_all, list_sum_categories.
  unfold results_of. cbn [clothes_top pants shoes outers].
  rewrite !count_where_predicted_as. reflexivity.
Qed.

Lemma category_counts_report (types : KeywordTypes) (vd : list VectorizedRecord)
  (t : Trained Model) (acc : PerCategory Accuracy * PerCategory Accuracy) :
  train_models fit nextDouble types vd = Ok t ->
  category_counts (report_of (results_of predict t) acc)
  = map (fun c => confusion c (field c (results_of predict t))) categories.
Proof.
  intros Ht. unfold report_of. cbn [category_counts]. apply map_ext_in.
  intros c Hc. rewrite (filter_union_all types vd t c Ht Hc). reflexivity.
Qed.

(** C8. In a run that reaches the report, with a classifier that predicts 0
    or 1: the report has one block per category, in the order of the four
    names; the prediction rows of a category are the rows of its test table
    with the prediction of its model; the block's tp, fn, fp and tn count the
    test rows predicted 1 and labelled 1, predicted 0 and labelled 1,
    predicted 1 and labelled 0, predicted 0 and labelled 0, and add up to the
    size of the test table; its recall is tp/(tp+fn) as a float rounded to
    two decimals when tp+fn > 0 and 0.0 otherwise, and its precision the same
    for tp/(tp+fp). The overall block is the same computation on the union
    of the four prediction tables: its counts are those numbers of rows over
    the four test tables together and add up to their sizes together. *)
Theorem confusion_counts_spec (vocabulary_required : bool)
  (rankings : list RankingRecord) (kws : list KeywordRecord)
  (joined : list EncodedRecord) (vd : list VectorizedRecord) (t : Trained Model)
  (acc : PerCategory Accuracy * PerCategory Accuracy)
  (results : PerCategory (list PredictionRecord)) (report : Report) :
  (forall m v, predict m v = 0 \/ predict m v = 1) ->
  preprocess_data rankings kws = Ok joined ->
  vectorize_keywords vocabulary_required joined = Ok vd ->
  train_models fit nextDouble (inferSchema kws) vd = Ok t ->
  predict_and_evaluate predict (inferSchema kws) t acc = Ok (results, report) ->
  category_counts report = map (fun c => confusion c (field c results)) categories /\
  (forall c, In c categories ->
     field c results
     = map (prediction_record predict (field c (cat_model t)))
           (field c (cat_data_test t)) /\
     cc_name (confusion c (field c results)) = c /\
     counts_of predict (field c (cat_model t)) (field c (cat_data_test t))
       (confusion c (field c results)) /\
     length (field c results) = length (field c (cat_data_test t)) /\
     counts_row (confusion c (field c results)) (length (field c (cat_data_test t)))) /\
  overall_counts report = confusion "overall" (union_all results) /\
  overall_counts_of predict (cat_model t) (cat_data_test t) (overall_counts report) /\
  counts_row (overall_counts report)
    (length (clothes_top (cat_data_test t)) + length (pants (cat_data_test t))
     + length (shoes (cat_data_test t)) + length (outers (cat_data_test t))).
Proof.
  intros Hb Hj Hv Ht Hp.
  destruct (train_models_Ok _ _ _ Ht) as [_ [_ [_ [_ [S _]]]]].
  rewrite (predict_and_evaluate_Ok _ _ _ S) in Hp.
  inversion Hp; subst results report; clear Hp.
  assert (Hbin : forall c, In c categories -> Forall binary_row (field c (results_of predict t)))
    by (intros c Hc; apply (results_binary _ _ rankings kws joined vd t c Hb Hj Hv Ht Hc)).
  assert (Hlen : forall c, length (field c (results_of predict t))
                           = length (field c (cat_data_test t)))
    by (intros c; rewrite field_results_of; apply length_map).
  split; [apply (category_counts_report _ vd t acc Ht)|].
  split; [|split; [|split]].
  - intros c Hc. split; [apply field_results_of|].
    split; [reflexivity|].
    split; [rewrite field_results_of; apply confusion_counts_of|].
    split; [apply Hlen|].
    rewrite <- Hlen. apply confusion_counts_row, Hbin, Hc.
  - reflexivity.
  - unfold overall_counts_of, report_of, confusion.
    cbn [overall_counts tp fn fp tn]. cbv zeta.
    rewrite !count_where_results_of. repeat split.
  - unfold report_of. cbn [overall_counts].
    replace (length (clothes_top (cat_data_test t)) + length (pants (cat_data_test t))
             + length (shoes (cat_data_test t)) + length (outers (cat_data_test t)))%nat
      with (length (union_all (results_of predict t))).
    + apply confusion_counts_row. unfold union_all.
      pose proof (Hbin "clothes_top"%string ltac:(simpl; tauto)) as B1.
      pose proof (Hbin "pants"%string ltac:(simpl; tauto)) as B2.
      pose proof (Hbin "shoes"%string ltac:(simpl; tauto)) as B3.
      pose proof (Hbin "outers"%string ltac:(simpl; tauto)) as B4.
      apply Forall_app; split; [apply Forall_app; split; [apply Forall_app; split|]|].
      * exact B1.
      * exact B2.
      * exact B3.
      * exact B4.
    + unfold union_all. rewrite !length_app.
      pose proof (Hlen "clothes_top"%string) as L1.
      pose proof (Hlen "pants"%string) as L2.
      pose proof (Hlen "shoes"%string) as L3.
      pose proof (Hlen "outers"%string) as L4.
      change (length (clothes_top (results_of predict t))
              = length (clothes_top (cat_data_test t))) in L1.
      change (length (pants (results_of predict t)) = length (pants (cat_data_test t))) in L2.
      change (length (shoes (results_of predict t)) = length (shoes (cat_data_test t))) in L3.
      change (length (outers (results_of predict t)) = length (outers (cat_data_test t))) in L4.
      rewrite L1, L2, L3, L4. reflexivity.
Qed.

(** ** A category without rows *)

Lemma split_tables_empty_category (c : string) (vd : list VectorizedRecord) :
  In c categories -> filter_category c vd = [] ->
  field c (train_of nextDouble vd) = [] /\ field c (test_of nextDouble vd) = [].
Proof.
  intros Hc Hempty. unfold train_of, test_of.
  rewrite !field_per_category by exact Hc.
  rewrite Hempty. split; apply split_part_nil.
Qed.

Lemma train_models_empty_category (types : KeywordTypes) (c : string)
  (vd : list VectorizedRecord) :
  In c categories -> filter_category c vd = [] ->
  exists e, train_models fit nextDouble types vd = Raise e.
Proof.
  intros Hc Hempty.
  destruct (split_tables_empty_category c vd Hc Hempty) as [Htrain _].
  destruct (train_models fit nextDouble types vd) as [t|e] eqn:E;
    [|eexists; reflexivity].
  exfalso. apply train_models_Ok in E.
  destruct E as [_ [_ [_ [_ [_ N]]]]]. exact (N c Hc Htrain).
Qed.

Lemma run_to_report_empty_category (vocabulary_required : bool) (c : string)
  (rankings : list RankingRecord) (kws : list KeywordRecord)
  (joined : list EncodedRecord) (vd : list VectorizedRecord) :
  In c categories -> filter_category c vd = [] ->
  preprocess_data rankings kws = Ok joined ->
  vectorize_keywords vocabulary_required joined = Ok vd ->
  exists e, train_models fit nextDouble (inferSchema kws) vd = Raise e /\
            run_to_report fit predict nextDouble vocabulary_required rankings kws
            = Raise e.
Proof.
  intros Hc Hempty Hj Hv.
  destruct (train_models_empty_category (inferSchema kws) c vd Hc Hempty) as [e E].
  exists e. split; [exact E|].
  rewrite run_to_report_unfold, Hj. cbn [bind]. rewrite Hv. cbn [bind].
  rewrite E. reflexivity.
Qed.

(** C9, as amended. When one of the four categories has no rows after
    filtering, its train and test tables are empty and nothing guards the
    fit of its model: [train_models] has the classifier fitted on the empty
    train table, which raises (the classifier's own exception when the
    assembler accepts the columns), so [train_models] raises there or at an
    earlier fit, and a run that got as far ends in [train_models]: it
    evaluates no model, makes no prediction row and prints no report, for
    any category. *)
Theorem empty_category_aborts_the_run (vocabulary_required : bool) (c : string)
  (vd : list VectorizedRecord) :
  In c categories -> filter_category c vd = [] ->
  field c (train_of nextDouble vd) = [] /\
  field c (test_of nextDouble vd) = [] /\
  (forall types, VectorAssembler_transformSchema types = Ok tt ->
     train_model fit types [] = Raise ClassifierException) /\
  (forall types, exists e, train_models fit nextDouble types vd = Raise e) /\
  (forall rankings kws joined,
     preprocess_data rankings kws = Ok joined ->
     vectorize_keywords vocabulary_required joined = Ok vd ->
     (exists e, train_models fit nextDouble (inferSchema kws) vd = Raise e /\
                run_to_report fit predict nextDouble vocabulary_required rankings kws
                = Raise e) /\
     printed (main fit predict nextDouble vocabulary_required rankings kws) = None /\
     written (main fit predict nextDouble vocabulary_required rankings kws) = []).
Proof.
  intros Hc Hempty.
  destruct (split_tables_empty_category c vd Hc Hempty) as [Htrain Htest].
  split; [exact Htrain|]. split; [exact Htest|].
  split.
  { intros types S. rewrite train_model_unfold, S. reflexivity. }
  split; [intros types; apply (train_models_empty_category types c vd Hc Hempty)|].
  intros rankings kws joined Hj Hv.
  destruct (run_to_report_empty_category vocabulary_required c rankings kws joined vd
              Hc Hempty Hj Hv) as [e [E Hrun]].
  split; [exists e; split; [exact E | exact Hrun]|].
  unfold main. rewrite Hrun. split; reflexivity.
Qed.

(** ** save_results and main *)

(** What the function [save_results] of the module does when it is called
    with the instance. *)
Lemma save_results_file (dir : string) (results : PerCategory (list PredictionRecord)) :
  csv_path (save_results dir results) = os_path_join dir "predict_output.csv" /\
  csv_path (save_results output_dir results) = "./data/output/predict_output.csv"%string /\
  byte_order_mark (csv_encoding (save_results dir results)) = [239; 187; 191] /\
  csv_columns (save_results dir results)
  = ["productId"; "category"; "recommend"; "predicted_recommend"]%string /\
  csv_index (save_results dir results) = false /\
  length (csv_rows (save_results dir results))
  = (length (clothes_top results) + length (pants results)
     + length (shoes results) + length (outers results))%nat.
Proof.
  repeat split. unfold save_results, union_all. cbn [csv_rows].
  rewrite !length_app. reflexivity.
Qed.

(** C4, as the code runs. [save_results] is a function of the module and not
    a method of the class, so the last call of [main] raises AttributeError:
    no run writes predict_output.csv, and a run that gets through the report
    ends with that exception after printing it. *)
Theorem main_never_writes_predict_output (vocabulary_required : bool)
  (rankings : list RankingRecord) (kws : list KeywordRecord) :
  ~ In "save_results"%string ProductRecommendation_methods /\
  In "save_results"%string module_functions /\
  getattr "save_results" = Raise (AttributeError "ProductRecommendation" "save_results") /\
  written (main fit predict nextDouble vocabulary_required rankings kws) = [] /\
  raised (main fit predict nextDouble vocabulary_required rankings kws) <> None /\
  forall results report,
    run_to_report fit predict nextDouble vocabulary_required rankings kws
    = Ok (results, report) ->
    main fit predict nextDouble vocabulary_required rankings kws
    = {| printed := Some report;
         written := [];
         raised := Some (AttributeError "ProductRecommendation" "save_results") |}.
Proof.
  split; [apply (mem_false_iff string_dec); reflexivity|].
  split; [apply (mem_true_iff string_dec); reflexivity|].
  split; [reflexivity|].
  unfold main.
  change (getattr "save_results")
    with (@Raise unit (AttributeError "ProductRecommendation" "save_results")).
  destruct (run_to_report fit predict nextDouble vocabulary_required rankings kws)
    as [[results report]|e].
  - cbn [written raised]. split; [reflexivity|]. split; [discriminate|].
    intros results' report' H. inversion H. reflexivity.
  - cbn [written raised]. split; [reflexivity|]. split; [discriminate|].
    intros results' report' H. discriminate.
Qed.

End PipelineFacts.

(** * The small run *)

Ltac in_list := repeat (first [left; reflexivity | right]).

Lemma ex_preprocess_data : preprocess_data ex_rankings ex_keywords = Ok ex_encoded.
Proof. vm_compute. reflexivity. Qed.

Lemma ex_vectorize_keywords (vocabulary_required : bool) :
  vectorize_keywords vocabulary_required ex_encoded = Ok ex_vd.
Proof. destruct vocabulary_required; vm_compute; reflexivity. Qed.

Lemma ex_train_models :
  train_models ex_fit ex_nextDouble (inferSchema ex_keywords) ex_vd = Ok ex_trained.
Proof. vm_compute. reflexivity. Qed.

Lemma ex_predict_and_evaluate :
  predict_and_evaluate ex_predict (inferSchema ex_keywords) ex_trained ex_acc
  = Ok (ex_results, ex_report).
Proof. vm_compute. reflexivity. Qed.

Lemma ex_run_to_report (vocabulary_required : bool) :
  run_to_report ex_fit ex_predict ex_nextDouble vocabulary_required ex_rankings ex_keywords
  = Ok (ex_results, ex_report).
Proof. destruct vocabulary_required; vm_compute; reflexivity. Qed.

Lemma ex_predict_binary (m : unit) (v : list Q) :
  ex_predict m v = 0 \/ ex_predict m v = 1.
Proof. unfold ex_predict. destruct (Qle_bool _ _); auto. Qed.

Lemma ex_preprocess_data_no_outers :
  preprocess_data ex_rankings ex_keywords_no_outers = Ok ex_encoded_no_outers.
Proof. vm_compute. reflexivity. Qed.

Lemma ex_vectorize_keywords_no_outers (vocabulary_required : bool) :
  vectorize_keywords vocabulary_required ex_encoded_no_outers = Ok ex_vd_no_outers.
Proof. destruct vocabulary_required; vm_compute; reflexivity. Qed.

(** Product 1 keeps its row of 2 January, ranking 100, and is labelled 1. *)
Lemma recommend_iff_ranking_le_150_witness :
  In ex_latest (latest_per_product ex_rankings) /\
  (rl_recommend (with_recommend ex_latest) = 1 <-> rk_ranking ex_latest <= 150).
Proof.
  assert (H : In ex_latest (latest_per_product ex_rankings))
    by (vm_compute; in_list).
  split; [exact H|].
  exact (proj1 (recommend_iff_ranking_le_150 ex_rankings ex_latest H)).
Defined.

(** Re-ranking every row changes the labels and leaves the features, which
    the small run makes for its eight joined rows. *)
Lemma ranking_never_reaches_features_witness :
  same_products_and_dates ex_rankings ex_rankings_reranked /\
  label_rankings ex_rankings <> label_rankings ex_rankings_reranked /\
  (exists rows, feature_table true ex_rankings ex_keywords = Ok rows /\
                length rows = 8%nat) /\
  forall vocabulary_required,
    feature_table vocabulary_required ex_rankings ex_keywords
    = feature_table vocabulary_required ex_rankings_reranked ex_keywords.
Proof.
  assert (H : same_products_and_dates ex_rankings ex_rankings_reranked)
    by (vm_compute; reflexivity).
  split; [exact H|]. split; [vm_compute; discriminate|].
  split.
  { exists (force [] (feature_table true ex_rankings ex_keywords)).
    split; vm_compute; reflexivity. }
  destruct (ranking_never_reaches_features ex_rankings ex_rankings_reranked ex_keywords H)
    as [_ [_ [_ [_ [_ [_ [_ F]]]]]]].
  exact F.
Defined.




(** C5, as the code runs. The filter of lines 86-89 looks the elements of the
    keyword array up as line 61 split them, not their normal forms, which is
    what lines 68-71 count for the vocabulary. Product 1 of the small run
    has the keywords Nike, shoes and 러닝; the normal forms of all three are
    top keywords, and the row keeps two tokens: nike is in the list, Nike is
    not. No row keeps nike or padding, so the count vectors have 7 entries
    for 9 top keywords. *)
Theorem vectorize_keywords_filters_raw_elements :
  preprocess_data ex_rankings ex_keywords = Ok ex_encoded /\
  (forall vocabulary_required,
     vectorize_keywords vocabulary_required ex_encoded = Ok ex_vd) /\
  In ex_nike_row ex_vd /\
  productId (enc_row (vec_row ex_nike_row)) = 1 /\
  keywords (vec_row ex_nike_row)
  = [text_of_string "Nike"; text_of_string "shoes"; [47084; 45789]] /\
  filter (array_contains (top_keywords_list ex_encoded))
         (map normalize (keywords (vec_row ex_nike_row)))
  = [text_of_string "nike"; text_of_string "shoes"; [47084; 45789]] /\
  filtered_keywords ex_nike_row = [text_of_string "shoes"; [47084; 45789]] /\
  length (top_keywords_list ex_encoded) = 9%nat /\
  Forall (fun r => length (keyword_features r) = 7%nat) ex_vd /\
  ~ vectorized_as_specified ex_encoded ex_nike_row.
Proof.
  split; [exact ex_preprocess_data|].
  split; [exact ex_vectorize_keywords|].
  split; [vm_compute; in_list|].
  split; [reflexivity|].
  split; [vm_compute; reflexivity|].
  split; [vm_compute; reflexivity|].
  split; [vm_compute; reflexivity|].
  split; [vm_compute; reflexivity|].
  split; [vm_compute; repeat constructor|].
  intros [H _]. apply Permutation_length in H. vm_compute in H. discriminate.
Qed.

(** The four test tables of the small run hold one row each; the row of
    category outers is labelled 1 and predicted 0, and the overall block
    counts two true positives, one false negative and one true negative. *)
Lemma confusion_counts_spec_witness :
  (forall m v, ex_predict m v = 0 \/ ex_predict m v = 1) /\
  preprocess_data ex_rankings ex_keywords = Ok ex_encoded /\
  vectorize_keywords true ex_encoded = Ok ex_vd /\
  train_models ex_fit ex_nextDouble (inferSchema ex_keywords) ex_vd = Ok ex_trained /\
  predict_and_evaluate ex_predict (inferSchema ex_keywords) ex_trained ex_acc
  = Ok (ex_results, ex_report) /\
  counts_of ex_predict (field "outers" (cat_model ex_trained))
    (field "outers" (cat_data_test ex_trained))
    (confusion "outers" (field "outers" ex_results)) /\
  fn (confusion "outers" (field "outers" ex_results)) = 1%nat /\
  overall_counts_of ex_predict (cat_model ex_trained) (cat_data_test ex_trained)
    (overall_counts ex_report) /\
  (tp (overall_counts ex_report), fn (overall_counts ex_report),
   fp (overall_counts ex_report), tn (overall_counts ex_report))
  = (2, 1, 0, 1)%nat /\
  counts_row (overall_counts ex_report) 4.
Proof.
  destruct (confusion_counts_spec unit ex_fit ex_predict ex_nextDouble true ex_rankings
              ex_keywords ex_encoded ex_vd ex_trained ex_acc ex_results ex_report
              ex_predict_binary ex_preprocess_data (ex_vectorize_keywords true)
              ex_train_models ex_predict_and_evaluate)
    as [_ [C [_ [O R]]]].
  split; [exact ex_predict_binary|].
  split; [exact ex_preprocess_data|].
  split; [exact (ex_vectorize_keywords true)|].
  split; [exact ex_train_models|].
  split; [exact ex_predict_and_evaluate|].
  split; [exact (proj1 (proj2 (proj2 (C "outers"%string ltac:(simpl; tauto))))) |].
  split; [reflexivity|].
  split; [exact O|].
  split; [reflexivity|].
  exact R.
Defined.

(** Without the two products of category outers the encoders and the
    vectorizer return and the run ends in [train_models]. *)
Lemma empty_category_aborts_the_run_witness :
  In "outers"%string categories /\
  filter_category "outers" ex_vd_no_outers = [] /\
  preprocess_data ex_rankings ex_keywords_no_outers = Ok ex_encoded_no_outers /\
  vectorize_keywords true ex_encoded_no_outers = Ok ex_vd_no_outers /\
  exists e,
    run_to_report ex_fit ex_predict ex_nextDouble true ex_rankings ex_keywords_no_outers
    = Raise e.
Proof.
  assert (Hc : In "outers"%string categories) by (simpl; tauto).
  assert (He : filter_category "outers" ex_vd_no_outers = [])
    by (vm_compute; reflexivity).
  split; [exact Hc|]. split; [exact He|].
  split; [exact ex_preprocess_data_no_outers|].
  split; [exact (ex_vectorize_keywords_no_outers true)|].
  destruct (empty_category_aborts_the_run unit ex_fit ex_predict ex_nextDouble true
              "outers" ex_vd_no_outers Hc He) as [_ [_ [_ [_ R]]]].
  destruct (R ex_rankings ex_keywords_no_outers ex_encoded_no_outers
              ex_preprocess_data_no_outers (ex_vectorize_keywords_no_outers true))
    as [[e [_ E]] _].
  exists e. exact E.
Defined.

(** C9, the claim as stated fails: without the two products of category
    outers no row has that category, the assembler accepts the columns, and
    the run does not reach the report, whatever the classifier and the draws
    are: [train_models] raises, with the classifier's exception for the
    classifier that fits on every table with rows. *)
Lemma empty_category_counterexample :
  preprocess_data ex_rankings ex_keywords_no_outers = Ok ex_encoded_no_outers /\
  (forall vocabulary_required,
     vectorize_keywords vocabulary_required ex_encoded_no_outers = Ok ex_vd_no_outers) /\
  filter_category "outers" ex_vd_no_outers = [] /\
  VectorAssembler_transformSchema (inferSchema ex_keywords_no_outers) = Ok tt /\
  (forall (Model : Type) (fit : list (list Q * Z) -> option Model)
          (predict : Model -> list Q -> Z) (nextDouble : Z -> nat -> Q)
          (vocabulary_required : bool),
     (exists e,
        train_models fit nextDouble (inferSchema ex_keywords_no_outers) ex_vd_no_outers
        = Raise e /\
        run_to_report fit predict nextDouble vocabulary_required ex_rankings
          ex_keywords_no_outers = Raise e) /\
     ~ empty_category_as_specified
         (run_to_report fit predict nextDouble vocabulary_required ex_rankings
            ex_keywords_no_outers) "outers") /\
  run_to_report ex_fit ex_predict ex_nextDouble true ex_rankings ex_keywords_no_outers
  = Raise ClassifierException.
Proof.
  assert (Hc : In "outers"%string categories) by (simpl; tauto).
  assert (He : filter_category "outers" ex_vd_no_outers = [])
    by (vm_compute; reflexivity).
  split; [exact ex_preprocess_data_no_outers|].
  split; [exact ex_vectorize_keywords_no_outers|].
  split; [exact He|].
  split; [vm_compute; reflexivity|].
  split; [|vm_compute; reflexivity].
  intros Model fit predict nextDouble b.
  destruct (run_to_report_empty_category Model fit predict nextDouble b "outers"
              ex_rankings ex_keywords_no_outers ex_encoded_no_outers ex_vd_no_outers
              Hc He ex_preprocess_data_no_outers (ex_vectorize_keywords_no_outers b))
    as [e [E R]].
  split; [exists e; split; [exact E | exact R]|].
  intros [results [report [F _]]]. rewrite R in F. discriminate.
Qed.

(** The keyword table of the small run has one row per productId. *)
Lemma productId_at_most_once_in_predictions_witness :
  NoDup (map kw_productId ex_keywords) /\
  run_to_report ex_fit ex_predict ex_nextDouble true ex_rankings ex_keywords
  = Ok (ex_results, ex_report) /\
  NoDup (map pr_productId (union_all ex_results)).
Proof.
  assert (Hk : NoDup (map kw_productId ex_keywords)).
  { vm_compute. repeat constructor; simpl; intros H;
      repeat (destruct H as [H|H]; [discriminate|]); exact H. }
  split; [exact Hk|]. split; [exact (ex_run_to_report true)|].
  exact (proj2 (proj2 (proj2
    (productId_at_most_once_in_predictions unit ex_fit ex_predict ex_nextDouble true
       ex_rankings ex_keywords ex_results ex_report Hk (ex_run_to_report true))))).
Defined.

(** The small run ends with the exception of the last call, after the
    report and without a file. *)
Example main_small_run (vocabulary_required : bool) :
  main ex_fit ex_predict ex_nextDouble vocabulary_required ex_rankings ex_keywords
  = {| printed := Some ex_report;
       written := [];
       raised := Some (AttributeError "ProductRecommendation" "save_results") |}.
Proof. destruct vocabulary_required; vm_compute; reflexivity. Qed.

(** The join does not deduplicate the keyword table: a second keyword row of
    product 1 gives product 1 two rows of the joined table. *)
Example repeated_keyword_row_repeats_joined_row :
  map productId
      (joined_data_filled ex_rankings
         (ex_keywords ++ [ex_keyword 1 "Nike" None None "shoes"]))
  = [1; 1; 2; 3; 4; 5; 6; 8; 9].
Proof. vm_compute. reflexivity. Qed.

(** * Further properties of the code *)

(** ** Line 61: the keyword array *)








(** ** Lines 68-89: normal forms and the filter *)

Lemma lower_codepoint_letter (c : Z) :
  letter_or_hangul c = true -> lower_codepoint c = [c] /\ kept_by_regexp c = true.
Proof.
  unfold letter_or_hangul, lower_codepoint, kept_by_regexp, is_ascii_lower,
    is_hangul_syllable, is_ascii_upper.
  intros H. apply orb_true_iff in H.
  assert (R : (97 <= c <= 122) \/ (44032 <= c <= 55203)).
  { destruct H as [H|H]; apply andb_true_iff in H; rewrite !Z.leb_le in H; lia. }
  assert (U : (65 <=? c) && (c <=? 90) = false).
  { apply andb_false_iff. right. apply Z.leb_gt. lia. }
  rewrite U.
  destruct (Z.eqb_spec c 8490); [lia|]. destruct (Z.eqb_spec c 304); [lia|].
  split; [reflexivity|].
  rewrite orb_false_r. destruct H as [H|H]; rewrite H; [apply orb_true_r | reflexivity].
Qed.

Lemma normalize_fixed (s : text) :
  Forall (fun c => letter_or_hangul c = true) s -> normalize s = s.
Proof.
  unfold normalize, regexp_replace_non_letters, lower.
  induction 1 as [|c s Hc _ IH]; [reflexivity|].
  destruct (lower_codepoint_letter c Hc) as [L K].
  cbn [flat_map]. rewrite L. cbn [app filter]. rewrite K. f_equal. exact IH.
Qed.

Lemma top_keywords_normal (joined : list EncodedRecord) (t : text) :
  In t (top_keywords_list joined) -> normalize t = t.
Proof.
  intros Ht. apply in_top_keywords_list in Ht.
  apply (in_firstn 100) in Ht.
  apply in_keyword_counts in Ht. destruct Ht as [Ht _].
  unfold keywords_cleaned in Ht. apply in_map_iff in Ht.
  destruct Ht as [raw [<- _]]. apply normalize_fixed, normalize_letters.
Qed.

(** X2. Normalizing twice is normalizing once, every top keyword is its own
    normal form, and so the filter of lines 86-89 keeps an element of a
    row's keyword array only if the element is already in normal form: a
    keyword written with a capital letter, a digit, a space or punctuation
    is never kept, whatever its normal form is. *)
Theorem filter_keeps_normal_forms_only (joined : list EncodedRecord)
  (r : EncodedRecord) :
  (forall s, normalize (normalize s) = normalize s) /\
  Forall (fun t => normalize t = t) (top_keywords_list joined) /\
  Forall (fun t => In t (keywords r) /\ normalize t = t /\
                   Forall (fun c => letter_or_hangul c = true) t)
         (filter_keywords (top_keywords_list joined) r) /\
  (forall t, In t (keywords r) -> normalize t <> t ->
             ~ In t (filter_keywords (top_keywords_list joined) r)).
Proof.
  assert (K : forall t, In t (filter_keywords (top_keywords_list joined) r) ->
                        In t (keywords r) /\ normalize t = t).
  { intros t Ht. unfold filter_keywords in Ht. apply filter_In in Ht.
    destruct Ht as [Hk Ht]. apply (mem_true_iff text_eq_dec) in Ht.
    split; [exact Hk | apply (top_keywords_normal joined t Ht)]. }
  split; [intros s; apply normalize_fixed, normalize_letters|].
  split; [apply Forall_forall; intros t; apply top_keywords_normal|].
  split.
  - apply Forall_forall. intros t Ht. destruct (K t Ht) as [Hk Hn].
    split; [exact Hk|]. split; [exact Hn|].
    rewrite <- Hn. apply normalize_letters.
  - intros t _ Hn Ht. apply Hn. apply (K t Ht).
Qed.

(** ** Lines 92-94: the count vector *)

Lemma sum_indicator (vocab : list text) (x : text) :
  NoDup vocab -> In x vocab ->
  sum_Z (map (fun t => if text_eq_dec x t then 1 else 0) vocab) = 1.
Proof.
  induction 1 as [|t vocab Hn Hd IH]; intros Hx; [destruct Hx|].
  cbn [map sum_Z fold_right]. fold (sum_Z (map (fun t => if text_eq_dec x t then 1 else 0) vocab)).
  destruct (text_eq_dec x t) as [->|n].
  - assert (Z0 : forall l, ~ In t l ->
              sum_Z (map (fun u => if text_eq_dec t u then 1 else 0) l) = 0).
    { induction l as [|u l IHl]; intros Hl; [reflexivity|].
      cbn [map sum_Z fold_right].
      destruct (text_eq_dec t u) as [->|_]; [exfalso; apply Hl; left; reflexivity|].
      fold (sum_Z (map (fun u => if text_eq_dec t u then 1 else 0) l)).
      rewrite IHl; [reflexivity|]. intros H. apply Hl. right. exact H. }
    rewrite Z0 by exact Hn. reflexivity.
  - rewrite IH; [reflexivity|]. destruct Hx as [Hx|Hx]; [congruence | exact Hx].
Qed.

Lemma sum_Z_map_add {A : Type} (f g : A -> Z) (l : list A) :
  sum_Z (map (fun a => f a + g a) l) = sum_Z (map f l) + sum_Z (map g l).
Proof.
  unfold sum_Z. induction l as [|a l IH]; simpl; [reflexivity|]. rewrite IH. lia.
Qed.

Lemma sum_CountVectorizer_transform (vocab doc : list text) :
  NoDup vocab -> (forall t, In t doc -> In t vocab) ->
  sum_Z (CountVectorizer_transform vocab doc) = Z.of_nat (length doc).
Proof.
  intros Hn. unfold CountVectorizer_transform.
  induction doc as [|x doc IH]; intros Hin.
  - clear. unfold sum_Z. induction vocab as [|t vocab IHv]; [reflexivity|].
    simpl. exact IHv.
  - rewrite (map_ext _ (fun t => (if text_eq_dec x t then 1 else 0)
                                 + Z.of_nat (count_occ text_eq_dec doc t))).
    + rewrite sum_Z_map_add, sum_indicator, IH; simpl length; try lia; auto.
      * intros t Ht. apply Hin. right. exact Ht.
      * apply Hin. left. reflexivity.
    + intros t. simpl. destruct (text_eq_dec x t); lia.
Qed.

(** X3. The count vector of a row counts every kept token of the row exactly
    once: its entries are not negative and add up to the number of elements
    of the row's [filtered_keywords]. *)
Theorem keyword_features_sum (vocabulary_required : bool)
  (joined : list EncodedRecord) (vd : list VectorizedRecord) :
  vectorize_keywords vocabulary_required joined = Ok vd ->
  Forall (fun r => Forall (fun x => 0 <= x) (keyword_features r) /\
                   sum_Z (keyword_features r)
                   = Z.of_nat (length (filtered_keywords r)))
         vd.
Proof.
  intros H. apply vectorize_keywords_Ok in H. subst vd.
  apply Forall_forall. intros v Hv. apply in_map_iff in Hv.
  destruct Hv as [r [<- Hr]].
  unfold vectorized_row. cbn [keyword_features filtered_keywords].
  split.
  - apply Forall_forall. intros x Hx. unfold CountVectorizer_transform in Hx.
    apply in_map_iff in Hx. destruct Hx as [t [<- _]]. lia.
  - apply sum_CountVectorizer_transform.
    + eapply Permutation_NoDup;
        [symmetry; apply fitted_vocabulary_perm | apply NoDup_distinct].
    + intros t Ht. apply in_fitted_vocabulary, in_kept_tokens.
      exists r. auto.
Qed.

Lemma keyword_features_sum_witness :
  vectorize_keywords true ex_encoded = Ok ex_vd /\
  Forall (fun r => Forall (fun x => 0 <= x) (keyword_features r) /\
                   sum_Z (keyword_features r)
                   = Z.of_nat (length (filtered_keywords r)))
         ex_vd.
Proof.
  split; [exact (ex_vectorize_keywords true)|].
  exact (keyword_features_sum true ex_encoded ex_vd (ex_vectorize_keywords true)).
Defined.

(** ** Line 45: the join *)

Lemma length_filter_mem_cons (a : Z) (keys : list Z) (ks : list KeywordRecord) :
  ~ In a keys ->
  length (filter (fun k => mem Z.eq_dec (kw_productId k) (a :: keys)) ks)
  = (length (filter (fun k => (kw_productId k =? a)%Z) ks)
     + length (filter (fun k => mem Z.eq_dec (kw_productId k) keys) ks))%nat.
Proof.
  intros Hn. induction ks as [|k ks IH]; [reflexivity|].
  cbn [filter].
  destruct (Z.eqb_spec (kw_productId k) a) as [E|E].
  - replace (mem Z.eq_dec (kw_productId k) (a :: keys)) with true
      by (symmetry; apply (mem_true_iff Z.eq_dec); left; congruence).
    replace (mem Z.eq_dec (kw_productId k) keys) with false
      by (symmetry; apply (mem_false_iff Z.eq_dec); congruence).
    cbn [length]. rewrite IH. lia.
  - destruct (mem Z.eq_dec (kw_productId k) keys) eqn:M.
    + replace (mem Z.eq_dec (kw_productId k) (a :: keys)) with true
        by (symmetry; apply (mem_true_iff Z.eq_dec); right;
            apply (mem_true_iff Z.eq_dec), M).
      cbn [length]. rewrite IH. lia.
    + replace (mem Z.eq_dec (kw_productId k) (a :: keys)) with false.
      * exact IH.
      * symmetry. apply (mem_false_iff Z.eq_dec). intros [F|F]; [congruence|].
        apply (mem_false_iff Z.eq_dec) in M. contradiction.
Qed.

Lemma length_inner_join (ls : list LabeledRecord) (ks : list KeywordRecord) :
  NoDup (map lb_productId ls) ->
  length (inner_join ls ks)
  = length (filter (fun k => mem Z.eq_dec (kw_productId k) (map lb_productId ls)) ks).
Proof.
  unfold inner_join. induction ls as [|l ls IH]; intros Hn.
  - cbn [flat_map map length]. induction ks as [|k ks IHk]; [reflexivity|].
    cbn [filter]. replace (mem Z.eq_dec (kw_productId k) []) with false; [exact IHk|].
    symmetry. apply (mem_false_iff Z.eq_dec). intros [].
  - cbn [map] in Hn. apply NoDup_cons_iff in Hn. destruct Hn as [Ha Hn].
    cbn [flat_map map]. rewrite length_app, length_map, (IH Hn).
    symmetry. apply length_filter_mem_cons, Ha.
Qed.

Lemma mem_ext {K : Type} (eq_dec : forall x y : K, {x = y} + {x <> y})
  (x : K) (l l' : list K) :
  (In x l <-> In x l') -> mem eq_dec x l = mem eq_dec x l'.
Proof.
  intros H. destruct (mem eq_dec x l') eqn:M.
  - apply mem_true_iff, H. apply (mem_true_iff eq_dec), M.
  - apply mem_false_iff. intros Hx. apply (mem_false_iff eq_dec) in M. apply M, H, Hx.
Qed.

Lemma joined_data_filled_keys (rankings : list RankingRecord)
  (kws : list KeywordRecord) (p : Z) :
  In p (map productId (joined_data_filled rankings kws)) <->
  In p (map rk_productId rankings) /\ In p (map kw_productId kws).
Proof.
  split.
  - intros H. apply in_map_iff in H. destruct H as [j [<- Hj]].
    apply in_joined_data_filled in Hj. destruct Hj as [s [k [Hs [Hk [E ->]]]]].
    cbn [join_row productId drop_ranking lb_productId with_recommend rl_row].
    split.
    + apply in_latest_per_product in Hs. apply in_map, Hs.
    + rewrite <- E. apply in_map, Hk.
  - intros [Hr Hk]. apply in_map_iff in Hk. destruct Hk as [k [Ek Hk]].
    assert (Hl : In p (map lb_productId (label_rankings rankings))).
    { rewrite label_rankings_keys, latest_per_product_keys.
      apply in_distinct, Hr. }
    apply in_map_iff in Hl. destruct Hl as [l [El Hl]].
    apply in_map_iff. exists (join_row l k). split; [exact El|].
    unfold joined_data_filled, inner_join. apply in_flat_map.
    exists l. split; [exact Hl|]. apply in_map. apply filter_In.
    split; [exact Hk|]. apply Z.eqb_eq. congruence.
Qed.

(** X4. The join is inner and keeps every match: a productId is in the
    joined table exactly when it has a row in the ranking table and a row in
    the keyword table, and the joined table has one row for every keyword
    row of a ranked product, repeated keyword rows included. *)
Theorem inner_join_keeps_common_products (rankings : list RankingRecord)
  (kws : list KeywordRecord) :
  (forall p, In p (map productId (joined_data_filled rankings kws)) <->
             In p (map rk_productId rankings) /\ In p (map kw_productId kws)) /\
  length (joined_data_filled rankings kws) = length (ranked_keywords rankings kws).
Proof.
  split; [apply joined_data_filled_keys|].
  unfold joined_data_filled, ranked_keywords.
  rewrite (length_inner_join _ _ (NoDup_label_rankings rankings)).
  f_equal. apply filter_ext. intros k. apply mem_ext.
  rewrite label_rankings_keys, latest_per_product_keys. apply in_distinct.
Qed.

(** ** Lines 51-58: the encoders *)

Lemma index_of_inj {K : Type} (eq_dec : forall x y : K, {x = y} + {x <> y})
  (x y : K) (labels : list K) :
  In x labels -> In y labels ->
  index_of eq_dec x labels = index_of eq_dec y labels -> x = y.
Proof.
  intros Hx Hy E.
  pose proof (index_of_nth_error eq_dec x labels Hx) as Nx.
  pose proof (index_of_nth_error eq_dec y labels Hy) as Ny.
  rewrite E in Nx. congruence.
Qed.

Lemma index_of_le {K : Type} (eq_dec : forall x y : K, {x = y} + {x <> y})
  (x : K) (labels : list K) :
  (index_of eq_dec x labels <= length labels)%nat.
Proof.
  induction labels as [|y t IH]; simpl; [lia|]. destruct (eq_dec x y); lia.
Qed.

Lemma OneHotEncoder_transform_inj (n i j : nat) :
  (i < n)%nat -> (j < n)%nat ->
  OneHotEncoder_transform n i = OneHotEncoder_transform n j -> i = j.
Proof.
  intros Hi Hj E.
  destruct (Nat.lt_ge_cases i (n - 1)) as [Li|Li].
  - pose proof (nth_OneHotEncoder_transform n i i Li) as H1.
    pose proof (nth_OneHotEncoder_transform n j i Li) as H2.
    rewrite E, H2 in H1. rewrite Nat.eqb_refl in H1.
    destruct (Nat.eqb_spec i j); [assumption | discriminate].
  - destruct (Nat.lt_ge_cases j (n - 1)) as [Lj|Lj]; [|lia].
    pose proof (nth_OneHotEncoder_transform n i j Lj) as H1.
    pose proof (nth_OneHotEncoder_transform n j j Lj) as H2.
    rewrite E, H2 in H1. rewrite Nat.eqb_refl in H1.
    destruct (Nat.eqb_spec j i); [auto | discriminate].
Qed.

Lemma in_StringIndexer_fit (col : list string) (x : string) :
  In x (StringIndexer_fit col) <-> In x col.
Proof.
  rewrite <- (in_distinct string_dec x col). split; apply Permutation_in.
  - apply StringIndexer_fit_perm.
  - symmetry. apply StringIndexer_fit_perm.
Qed.

Lemma StringIndexer_fit_sorted (col : list string) :
  StronglySorted
    (fun a b => (count_occ string_dec col b <= count_occ string_dec col a)%nat)
    (StringIndexer_fit col).
Proof.
  unfold StringIndexer_fit.
  eapply StronglySorted_map_in; [|apply orderBy_desc_sorted].
  intros [a n] [b m] Ha Hb. unfold desc. simpl.
  apply in_orderBy_desc in Ha. apply (Permutation_in _ (sort_by_perm _ _)) in Ha.
  apply in_orderBy_desc in Hb. apply (Permutation_in _ (sort_by_perm _ _)) in Hb.
  apply in_groupBy_count in Ha. apply in_groupBy_count in Hb.
  destruct Ha as [_ ->], Hb as [_ ->]. lia.
Qed.

Lemma StronglySorted_nth_error {A : Type} (R : A -> A -> Prop) (l : list A)
  (i j : nat) (a b : A) :
  StronglySorted R l -> (i < j)%nat ->
  nth_error l i = Some a -> nth_error l j = Some b -> R a b.
Proof.
  intros S. revert i j. induction S as [|x l S IH Hx]; intros i j Hij Ha Hb.
  - destruct i; discriminate.
  - destruct j as [|j]; [lia|]. destruct i as [|i].
    + simpl in Ha, Hb. inversion Ha; subst x.
      rewrite Forall_forall in Hx. apply Hx. eapply nth_error_In, Hb.
    + simpl in Ha, Hb. apply (IH i j); [lia | assumption | assumption].
Qed.

(** X5. The encoding of brandName and of colors loses nothing, although the
    last category is dropped from the vector: two rows of the joined table
    have the same index exactly when they have the same value, and the same
    one-hot vector exactly when they have the same value; and the indices
    follow the frequencies: a value with more rows than another has the
    smaller index. *)
Theorem encoders_are_injective (joined : list JoinedRecord)
  (enc : list EncodedRecord) (e1 e2 : EncodedRecord) :
  encode_table joined = Ok enc -> In e1 enc -> In e2 enc ->
  (brand_index e1 = brand_index e2 <-> brandName (enc_row e1) = brandName (enc_row e2)) /\
  (brand_ohe e1 = brand_ohe e2 <-> brandName (enc_row e1) = brandName (enc_row e2)) /\
  (colors_index e1 = colors_index e2 <-> colors (enc_row e1) = colors (enc_row e2)) /\
  (colors_ohe e1 = colors_ohe e2 <-> colors (enc_row e1) = colors (enc_row e2)) /\
  ((count_occ string_dec (map brandName joined) (brandName (enc_row e2))
    < count_occ string_dec (map brandName joined) (brandName (enc_row e1)))%nat ->
   (brand_index e1 < brand_index e2)%nat) /\
  ((count_occ string_dec (map colors joined) (colors (enc_row e2))
    < count_occ string_dec (map colors joined) (colors (enc_row e1)))%nat ->
   (colors_index e1 < colors_index e2)%nat).
Proof.
  intros H H1 H2. apply encode_table_Ok in H. destruct H as [-> _].
  apply in_encoded_rows in H1. destruct H1 as [j1 [J1 ->]].
  apply in_encoded_rows in H2. destruct H2 as [j2 [J2 ->]].
  cbn [encode_row enc_row brand_index brand_ohe colors_index colors_ohe].
  assert (G : forall (col : JoinedRecord -> string),
            let labels := StringIndexer_fit (map col joined) in
            (index_of string_dec (col j1) labels = index_of string_dec (col j2) labels
             <-> col j1 = col j2) /\
            (OneHotEncoder_transform (length labels) (index_of string_dec (col j1) labels)
             = OneHotEncoder_transform (length labels) (index_of string_dec (col j2) labels)
             <-> col j1 = col j2) /\
            ((count_occ string_dec (map col joined) (col j2)
              < count_occ string_dec (map col joined) (col j1))%nat ->
             (index_of string_dec (col j1) labels
              < index_of string_dec (col j2) labels)%nat)).
  { intros col labels.
    assert (L1 : In (col j1) labels) by (apply in_StringIndexer_fit, in_map, J1).
    assert (L2 : In (col j2) labels) by (apply in_StringIndexer_fit, in_map, J2).
    pose proof (index_of_nth_error string_dec _ _ L1) as N1.
    pose proof (index_of_nth_error string_dec _ _ L2) as N2.
    assert (B1 : (index_of string_dec (col j1) labels < length labels)%nat)
      by (apply nth_error_Some; rewrite N1; discriminate).
    assert (B2 : (index_of string_dec (col j2) labels < length labels)%nat)
      by (apply nth_error_Some; rewrite N2; discriminate).
    split; [|split].
    - split; [apply index_of_inj; assumption | intros ->; reflexivity].
    - split; [|intros ->; reflexivity].
      intros E. apply (index_of_inj string_dec _ _ labels L1 L2).
      apply (OneHotEncoder_transform_inj (length labels)); assumption.
    - intros Hc.
      destruct (Nat.lt_trichotomy (index_of string_dec (col j1) labels)
                  (index_of string_dec (col j2) labels)) as [Lt|[Eq|Gt]];
        [exact Lt | |].
      + apply (index_of_inj string_dec _ _ labels L1 L2) in Eq. rewrite Eq in Hc. lia.
      + pose proof (StronglySorted_nth_error _ _ _ _ _ _
                      (StringIndexer_fit_sorted (map col joined)) Gt N2 N1) as S.
        simpl in S. lia. }
  destruct (G brandName) as [A1 [A2 A3]]. destruct (G colors) as [C1 [C2 C3]].
  repeat split; try apply A1; try apply A2; try apply C1; try apply C2;
    assumption.
Qed.

(** The rows of products 1 and 5: Nike, the most frequent brand, and Zara. *)
Lemma encoders_are_injective_witness :
  encode_table ex_joined = Ok ex_encoded /\
  In (nth 0 ex_encoded ex_zara) ex_encoded /\
  In ex_zara ex_encoded /\
  (brand_ohe (nth 0 ex_encoded ex_zara) = brand_ohe ex_zara <->
   brandName (enc_row (nth 0 ex_encoded ex_zara)) = brandName (enc_row ex_zara)).
Proof.
  assert (H : encode_table ex_joined = Ok ex_encoded) by (vm_compute; reflexivity).
  assert (H1 : In (nth 0 ex_encoded ex_zara) ex_encoded) by (vm_compute; in_list).
  assert (H2 : In ex_zara ex_encoded) by (vm_compute; in_list).
  split; [exact H|]. split; [exact H1|]. split; [exact H2|].
  exact (proj1 (proj2 (encoders_are_injective ex_joined ex_encoded _ _ H H1 H2))).
Defined.

(** ** Lines 26-33: the deduplication, once more *)

Lemma distinct_NoDup {K : Type} (eq_dec : forall x y : K, {x = y} + {x <> y})
  (l : list K) :
  NoDup l -> distinct eq_dec l = l.
Proof.
  induction l as [|x l IH]; intros H; [reflexivity|].
  apply NoDup_cons_iff in H. destruct H as [Hn H].
  simpl. rewrite (IH H). f_equal. apply notin_remove, Hn.
Qed.

Lemma rows_of_product_single (l : list RankingRecord) (r : RankingRecord) :
  NoDup (map rk_productId l) -> In r l -> rows_of_product (rk_productId r) l = [r].
Proof.
  unfold rows_of_product.
  induction l as [|x l IH]; intros Hn Hr; [destruct Hr|].
  simpl in Hn. apply NoDup_cons_iff in Hn. destruct Hn as [Hx Hn].
  cbn [filter]. destruct Hr as [->|Hr].
  - destruct (Z.eq_dec (rk_productId r) (rk_productId r)) as [_|n]; [|congruence].
    f_equal. apply filter_none. intros y Hy.
    destruct (Z.eq_dec (rk_productId y) (rk_productId r)) as [e|_]; [|reflexivity].
    exfalso. apply Hx. rewrite <- e. apply in_map, Hy.
  - destruct (Z.eq_dec (rk_productId x) (rk_productId r)) as [e|_].
    + exfalso. apply Hx. rewrite e. apply in_map, Hr.
    + apply IH; assumption.
Qed.

Lemma latest_per_product_NoDup (l : list RankingRecord) :
  NoDup (map rk_productId l) -> latest_per_product l = l.
Proof.
  intros Hn. rewrite latest_per_product_unfold, (distinct_NoDup _ _ Hn).
  assert (G : forall l', incl l' l -> flat_map (pick_latest l) (map rk_productId l') = l').
  { induction l' as [|r l' IH]; intros Hi; [reflexivity|].
    cbn [map flat_map]. rewrite IH by (intros y Hy; apply Hi; right; exact Hy).
    unfold pick_latest.
    rewrite (rows_of_product_single l r Hn) by (apply Hi; left; reflexivity).
    reflexivity. }
  apply G, incl_refl.
Qed.

Lemma NoDup_latest_per_product_keys (l : list RankingRecord) :
  NoDup (map rk_productId (latest_per_product l)).
Proof. rewrite latest_per_product_keys. apply NoDup_distinct. Qed.

(** X6. The deduplication returns a ranking table that already has one row
    per productId as it is, and applied to its own result it returns that
    result. *)
Theorem latest_per_product_idempotent (l : list RankingRecord) :
  (NoDup (map rk_productId l) -> latest_per_product l = l) /\
  latest_per_product (latest_per_product l) = latest_per_product l.
Proof.
  split.
  - apply latest_per_product_NoDup.
  - apply latest_per_product_NoDup, NoDup_latest_per_product_keys.
Qed.

Lemma latest_per_product_idempotent_witness :
  NoDup (map rk_productId (skipn 1 ex_rankings)) /\
  latest_per_product (skipn 1 ex_rankings) = skipn 1 ex_rankings.
Proof.
  assert (H : NoDup (map rk_productId (skipn 1 ex_rankings)))
    by (vm_compute; repeat constructor; simpl; intuition discriminate).
  split; [exact H|].
  exact (proj1 (latest_per_product_idempotent (skipn 1 ex_rankings)) H).
Defined.

Lemma in_latest_per_product_iff (l : list RankingRecord) (s : RankingRecord) :
  NoDup (map (fun r => (rk_productId r, rk_date r)) l) ->
  (In s (latest_per_product l) <->
   In s l /\ forall r, In r l -> rk_productId r = rk_productId s ->
                       rk_date r <= rk_date s).
Proof.
  intros Hn. split; [apply in_latest_per_product|].
  intros [Hs Hmax].
  assert (Hk : In (rk_productId s) (map rk_productId l)) by (apply in_map, Hs).
  destruct (pick_latest_spec l _ Hk) as [h [E [Hh [Hp Hm]]]].
  rewrite latest_per_product_unfold. apply in_flat_map.
  exists (rk_productId s). split; [apply in_distinct, Hk|].
  rewrite E. left.
  apply (NoDup_map_injective (fun r => (rk_productId r, rk_date r)) l h s Hn Hh Hs).
  f_equal; [exact Hp|].
  apply Z.le_antisymm; [apply Hmax; assumption | apply Hm; auto].
Qed.

(** X7. When no two rows of the ranking table have the same productId and
    the same date, the rows the deduplication keeps, and so the labelled
    rows, do not depend on the order of the rows of the table: a reordered
    table gives the same rows, up to their order. *)
Theorem latest_per_product_order_independent (l l' : list RankingRecord) :
  NoDup (map (fun r => (rk_productId r, rk_date r)) l) ->
  Permutation l l' ->
  Permutation (latest_per_product l) (latest_per_product l') /\
  Permutation (label_rankings l) (label_rankings l').
Proof.
  intros Hn Hp.
  assert (Hn' : NoDup (map (fun r => (rk_productId r, rk_date r)) l')).
  { eapply Permutation_NoDup; [|exact Hn]. apply Permutation_map, Hp. }
  assert (P : Permutation (latest_per_product l) (latest_per_product l')).
  { apply NoDup_Permutation.
    - eapply NoDup_map_inv, NoDup_latest_per_product_keys.
    - eapply NoDup_map_inv, NoDup_latest_per_product_keys.
    - intros s. rewrite (in_latest_per_product_iff l s Hn),
        (in_latest_per_product_iff l' s Hn').
      split; intros [Hs Hm]; split.
      + eapply Permutation_in; [exact Hp | exact Hs].
      + intros r Hr. apply Hm. eapply Permutation_in; [symmetry; exact Hp | exact Hr].
      + eapply Permutation_in; [symmetry; exact Hp | exact Hs].
      + intros r Hr. apply Hm. eapply Permutation_in; [exact Hp | exact Hr]. }
  split; [exact P|].
  unfold label_rankings. apply Permutation_map, Permutation_map, P.
Qed.

Lemma latest_per_product_order_independent_witness :
  NoDup (map (fun r => (rk_productId r, rk_date r)) ex_rankings) /\
  Permutation ex_rankings (rev ex_rankings) /\
  Permutation (latest_per_product ex_rankings) (latest_per_product (rev ex_rankings)).
Proof.
  assert (H : NoDup (map (fun r => (rk_productId r, rk_date r)) ex_rankings))
    by (vm_compute; repeat constructor; simpl; intuition discriminate).
  assert (P : Permutation ex_rankings (rev ex_rankings)) by apply Permutation_rev.
  split; [exact H|]. split; [exact P|].
  exact (proj1 (latest_per_product_order_independent _ _ H P)).
Defined.

(** ** Lines 98-102: the feature vector *)

Lemma assembled_layout (r : VectorizedRecord) :
  assembled r
  = of_ints (brand_ohe (vec_row r)) ++ of_ints (colors_ohe (vec_row r))
    ++ of_ints (keyword_features r)
    ++ [price (enc_row (vec_row r)); discountRate (enc_row (vec_row r));
        conversionRate (enc_row (vec_row r)); trending (enc_row (vec_row r));
        totalSales (enc_row (vec_row r)); views (enc_row (vec_row r));
        likes (enc_row (vec_row r)); rating (enc_row (vec_row r));
        inject_Z (ratingCount (enc_row (vec_row r)))].
Proof. reflexivity. Qed.

(** X8. The assembler accepts the columns of a run exactly when some row of
    the keyword table has a rating and some row has a ratingCount: a column
    without a value is read as a string column, which [fillna] leaves as it
    is and the assembler refuses. When it accepts them, on any table of rows
    of the vectorized table, it gives every row its feature vector: the
    one-hot vector of the brand, the one-hot vector of the colour, the
    keyword counts and then price, discountRate, conversionRate, trending,
    totalSales, views, likes, rating and ratingCount, in this order;
    productId, recommend and the two indices are no part of it. Every vector
    of a run has the same length: the number of brands less one, the number
    of colours less one, the size of the vocabulary, and nine. *)
Theorem feature_vector_layout (vocabulary_required : bool)
  (rankings : list RankingRecord) (kws : list KeywordRecord)
  (joined : list EncodedRecord) (vd : list VectorizedRecord) :
  preprocess_data rankings kws = Ok joined ->
  vectorize_keywords vocabulary_required joined = Ok vd ->
  (forall l, (exists rows, assemble (inferSchema kws) l = Ok rows) <->
             (exists k, In k kws /\ kw_rating k <> None) /\
             (exists k, In k kws /\ kw_ratingCount k <> None)) /\
  (forall l rows, incl l vd -> assemble (inferSchema kws) l = Ok rows ->
     map fst rows = l /\
     Forall
       (fun p =>
          snd p
          = of_ints (brand_ohe (vec_row (fst p))) ++ of_ints (colors_ohe (vec_row (fst p)))
            ++ of_ints (keyword_features (fst p))
            ++ [price (enc_row (vec_row (fst p)));
                discountRate (enc_row (vec_row (fst p)));
                conversionRate (enc_row (vec_row (fst p)));
                trending (enc_row (vec_row (fst p)));
                totalSales (enc_row (vec_row (fst p)));
                views (enc_row (vec_row (fst p)));
                likes (enc_row (vec_row (fst p)));
                rating (enc_row (vec_row (fst p)));
                inject_Z (ratingCount (enc_row (vec_row (fst p))))] /\
          length (snd p)
          = ((brand_count (joined_data_filled rankings kws) - 1)
             + (colors_count (joined_data_filled rankings kws) - 1)
             + length (fitted_vocabulary joined)
             + 9)%nat)
       rows).
Proof.
  intros Hj Hv. split.
  - intros l. rewrite <- inferSchema_supported, assemble_unfold. split.
    + intros [rows H].
      destruct (VectorAssembler_transformSchema (inferSchema kws)) as [[]|e];
        [reflexivity | cbn [bind] in H; discriminate H].
    + intros ->. cbn [bind]. eexists. reflexivity.
  - intros l rows Hl H. rewrite assemble_unfold in H.
    destruct (VectorAssembler_transformSchema (inferSchema kws)) as [[]|e];
      [|cbn [bind] in H; discriminate H].
    cbn [bind] in H. inversion H; subst rows; clear H.
    split; [rewrite map_map; cbn [fst]; apply map_id|].
    apply Forall_forall. intros p Hp. apply in_map_iff in Hp.
    destruct Hp as [r [<- Hr]]. cbn [fst snd].
    split; [apply assembled_layout|].
    apply Hl in Hr. apply vectorize_keywords_Ok in Hv. subst vd.
    apply in_map_iff in Hr. destruct Hr as [e [<- He]].
    apply preprocess_data_Ok in Hj. subst joined.
    apply in_encoded_rows in He. destruct He as [j [Hj ->]].
    rewrite assembled_layout.
    unfold vectorized_row, of_ints.
    cbn [vec_row keyword_features encode_row brand_ohe colors_ohe].
    rewrite !length_app, !length_map, !length_OneHotEncoder_transform,
      !length_StringIndexer_fit.
    unfold CountVectorizer_transform. rewrite length_map.
    unfold brand_count, colors_count. cbn [length]. lia.
Qed.

(** The vectors of the small run have 20 entries; without a ratingCount in
    the keyword table the assembler raises. *)
Lemma feature_vector_layout_witness :
  preprocess_data ex_rankings ex_keywords = Ok ex_encoded /\
  vectorize_keywords true ex_encoded = Ok ex_vd /\
  (exists rows, assemble (inferSchema ex_keywords) ex_vd = Ok rows /\
                map fst rows = ex_vd /\
                Forall (fun p => length (snd p) = 20%nat) rows) /\
  assemble (inferSchema ex_keywords_no_ratingCount) ex_vd
  = Raise (IllegalArgumentException
             "Data type string of column ratingCount is not supported.").
Proof.
  split; [exact ex_preprocess_data|].
  split; [exact (ex_vectorize_keywords true)|].
  split; [|vm_compute; reflexivity].
  assert (A : assemble (inferSchema ex_keywords) ex_vd
              = Ok (force [] (assemble (inferSchema ex_keywords) ex_vd)))
    by (vm_compute; reflexivity).
  destruct (feature_vector_layout true ex_rankings ex_keywords ex_encoded ex_vd
              ex_preprocess_data (ex_vectorize_keywords true)) as [_ L].
  destruct (L ex_vd _ (incl_refl _) A) as [M F].
  eexists. split; [exact A|]. split; [exact M|].
  eapply Forall_impl; [|exact F].
  intros p [_ Len]. rewrite Len. vm_compute. reflexivity.
Defined.

(** ** Lines 96-235: training, evaluation and the report *)

Lemma NoDup_app_disjoint {A : Type} (l l' : list A) (a : A) :
  NoDup (l ++ l') -> In a l' -> ~ In a l.
Proof.
  induction l as [|x l IH]; intros H Ha Hl; [destruct Hl|].
  simpl in H. apply NoDup_cons_iff in H. destruct H as [Hx H].
  destruct Hl as [->|Hl].
  - apply Hx, in_or_app. right. exact Ha.
  - exact (IH H Ha Hl).
Qed.

Lemma in_union_all (results : PerCategory (list PredictionRecord))
  (p : PredictionRecord) :
  In p (union_all results) <-> exists c, In c categories /\ In p (field c results).
Proof.
  unfold union_all. rewrite !in_app_iff. split.
  - intros [[[H|H]|H]|H].
    + exists "clothes_top"%string. split; [simpl; tauto | exact H].
    + exists "pants"%string. split; [simpl; tauto | exact H].
    + exists "shoes"%string. split; [simpl; tauto | exact H].
    + exists "outers"%string. split; [simpl; tauto | exact H].
  - intros [c [Hc H]]. unfold categories in Hc. simpl in Hc.
    destruct Hc as [<-|[<-|[<-|[<-|[]]]]].
    + left. left. left. exact H.
    + left. left. right. exact H.
    + left. right. exact H.
    + right. exact H.
Qed.

Section FurtherPipeline.

Variable Model : Type.
Variable fit : list (list Q * Z) -> option Model.
Variable predict : Model -> list Q -> Z.
Variable nextDouble : Z -> nat -> Q.

Lemma correct_le_total (m : Model) (l : list VectorizedRecord) :
  (correct (accuracy_of predict m l) <= total (accuracy_of predict m l))%nat.
Proof. unfold accuracy_of. cbn [correct total]. apply filter_length_le. Qed.

Lemma correct_tp_tn (name : string) (m : Model) (l : list VectorizedRecord) :
  Forall (fun r => recommend (enc_row (vec_row r)) = 0 \/
                   recommend (enc_row (vec_row r)) = 1) l ->
  correct (accuracy_of predict m l)
  = (tp (confusion name (map (prediction_record predict m) l))
     + tn (confusion name (map (prediction_record predict m) l)))%nat.
Proof.
  unfold accuracy_of, confusion, count_where. cbn [correct tp tn].
  rewrite !length_filter_map.
  unfold prediction_record, select_prediction, predicted.
  cbn [predicted_recommend pr_recommend prediction pd_row].
  induction 1 as [|r l Hr _ IH]; [reflexivity|].
  cbn [filter]. generalize dependent (predict m (assembled r)). intros p.
  destruct Hr as [E|E]; rewrite E;
    destruct (Z.eqb_spec p 0) as [P0|P0]; destruct (Z.eqb_spec p 1) as [P1|P1];
    cbn [andb Z.eqb Pos.eqb length]; lia.
Qed.

Lemma test_rows_binary (vocabulary_required : bool)
  (rankings : list RankingRecord) (kws : list KeywordRecord)
  (joined : list EncodedRecord) (vd : list VectorizedRecord) (i : nat) (c : string) :
  preprocess_data rankings kws = Ok joined ->
  vectorize_keywords vocabulary_required joined = Ok vd ->
  Forall (fun r => recommend (enc_row (vec_row r)) = 0 \/
                   recommend (enc_row (vec_row r)) = 1)
         (split_part nextDouble i (filter_category c vd)).
Proof.
  intros Hj Hv. apply Forall_forall. intros r Hr.
  apply in_category_part in Hr.
  apply (vectorized_recommend_binary vocabulary_required rankings kws joined vd r Hj Hv),
    Hr.
Qed.

(** X9. The accuracy the report prints for a category and the category's
    confusion block count the same rows: the number of correct test
    predictions is tp + tn of the block, whatever the classifier predicts,
    and the accuracy is taken over as many rows as the category has
    prediction rows; the train accuracy is taken over the rows the model was
    fitted on. *)
Theorem accuracy_agrees_with_confusion (vocabulary_required : bool)
  (rankings : list RankingRecord) (kws : list KeywordRecord)
  (joined : list EncodedRecord) (vd : list VectorizedRecord) (t : Trained Model)
  (acc : PerCategory Accuracy * PerCategory Accuracy)
  (results : PerCategory (list PredictionRecord)) (report : Report) (c : string) :
  preprocess_data rankings kws = Ok joined ->
  vectorize_keywords vocabulary_required joined = Ok vd ->
  train_models fit nextDouble (inferSchema kws) vd = Ok t ->
  evaluate_models predict (inferSchema kws) t = Ok acc ->
  predict_and_evaluate predict (inferSchema kws) t acc = Ok (results, report) ->
  In c categories ->
  total (field c (train_accuracy report)) = length (field c (cat_data_train t)) /\
  (correct (field c (train_accuracy report))
   <= total (field c (train_accuracy report)))%nat /\
  total (field c (test_accuracy report)) = length (field c results) /\
  correct (field c (test_accuracy report))
  = (tp (confusion c (field c results)) + tn (confusion c (field c results)))%nat /\
  In (confusion c (field c results)) (category_counts report).
Proof.
  intros Hj Hv Ht He Hp Hc.
  pose proof Ht as Ht'. apply train_models_Ok in Ht'.
  destruct Ht' as [_ [_ [E [_ [S _]]]]].
  rewrite predict_and_evaluate_Ok in Hp by exact S.
  inversion Hp; subst results report; clear Hp.
  rewrite evaluate_models_Ok in He by exact S. inversion He; subst acc; clear He.
  rewrite (category_counts_report Model fit predict nextDouble (inferSchema kws) vd t _ Ht).
  unfold report_of. cbn [train_accuracy test_accuracy fst snd].
  rewrite !field_per_category by exact Hc.
  rewrite field_results_of.
  split; [reflexivity|]. split; [apply correct_le_total|].
  split; [cbn [accuracy_of total]; rewrite length_map; reflexivity|].
  split.
  - apply correct_tp_tn.
    rewrite E. unfold test_of. rewrite field_per_category by exact Hc.
    apply (test_rows_binary vocabulary_required rankings kws joined vd 1 c Hj Hv).
  - apply in_map_iff. exists c. split; [|exact Hc].
    rewrite field_results_of. reflexivity.
Qed.

(** X10. No model is asked about a product it was fitted on: when the
    keyword table has one row per productId, the productId of a prediction
    row is in no category's train table. *)
Theorem test_products_not_in_train (vocabulary_required : bool)
  (rankings : list RankingRecord) (kws : list KeywordRecord)
  (joined : list EncodedRecord) (vd : list VectorizedRecord) (t : Trained Model)
  (c d : string) (p : PredictionRecord) :
  NoDup (map kw_productId kws) ->
  preprocess_data rankings kws = Ok joined ->
  vectorize_keywords vocabulary_required joined = Ok vd ->
  train_models fit nextDouble (inferSchema kws) vd = Ok t ->
  In c categories -> In d categories ->
  In p (field c (results_of predict t)) ->
  ~ In (pr_productId p) (map vpid (field d (cat_data_train t))).
Proof.
  intros Hk Hj Hv Ht Hc Hd Hp.
  pose proof (NoDup_vectorized vocabulary_required rankings kws joined vd Hk Hj Hv) as Hn.
  pose proof Ht as Ht'. apply train_models_Ok in Ht'.
  destruct Ht' as [_ [Etr [Ete _]]].
  rewrite field_results_of, Ete in Hp. rewrite Etr.
  unfold test_of in Hp. unfold train_of.
  rewrite field_per_category in Hp by exact Hc.
  rewrite field_per_category by exact Hd.
  apply in_map_iff in Hp. destruct Hp as [r [<- Hr]].
  assert (Hr' : In (vpid r)
                  (map vpid (split_part nextDouble 1 (filter_category c vd))))
    by (apply in_map, Hr).
  change (pr_productId (prediction_record predict (field c (cat_model t)) r))
    with (vpid r).
  destruct (string_dec c d) as [<-|n].
  - pose proof (proj1 (train_test_partition nextDouble vpid (filter_category c vd)))
      as P.
    assert (Hf : NoDup (map vpid (filter_category c vd)))
      by (apply NoDup_map_filter, Hn).
    specialize (P Hf). rewrite map_app in P.
    exact (NoDup_app_disjoint _ _ _ P Hr').
  - intros Hin.
    exact (category_parts_disjoint nextDouble 1 0 c d vd (vpid r) Hn n Hr' Hin).
Qed.

(** X11. Every prediction row of a run comes from the two input tables: its
    category is one of the four and is the category of a keyword row of its
    product, its productId has rows in both tables, and its label is the one
    the ranking rule gives to a row of the product with the latest date.
    Products of another category have no prediction row. *)
Theorem prediction_rows_trace_to_inputs (vocabulary_required : bool)
  (rankings : list RankingRecord) (kws : list KeywordRecord)
  (results : PerCategory (list PredictionRecord)) (report : Report)
  (p : PredictionRecord) :
  run_to_report fit predict nextDouble vocabulary_required rankings kws
  = Ok (results, report) ->
  In p (union_all results) ->
  In (pr_category p) categories /\
  In p (field (pr_category p) results) /\
  exists s k,
    In s rankings /\ In k kws /\
    rk_productId s = pr_productId p /\ kw_productId k = pr_productId p /\
    kw_category k = pr_category p /\
    pr_recommend p = label_of_ranking (rk_ranking s) /\
    forall r, In r rankings -> rk_productId r = pr_productId p ->
              rk_date r <= rk_date s.
Proof.
  intros Hrun Hp.
  apply run_to_report_Ok_report in Hrun.
  destruct Hrun as [joined [vd [t [acc [Hj [Hv [Ht [-> ->]]]]]]]].
  apply in_union_all in Hp. destruct Hp as [c [Hc Hp]].
  destruct (in_field_results_of Model fit predict nextDouble (inferSchema kws) vd t c p
              Ht Hc Hp) as [r [Hr [Hcat ->]]].
  change (pr_category (prediction_record predict (field c (cat_model t)) r))
    with (vcategory r) in *.
  change (pr_productId (prediction_record predict (field c (cat_model t)) r))
    with (vpid r).
  change (pr_recommend (prediction_record predict (field c (cat_model t)) r))
    with (recommend (enc_row (vec_row r))).
  rewrite Hcat. split; [exact Hc|]. split; [exact Hp|].
  destruct (in_vectorized vocabulary_required rankings kws joined vd r Hj Hv Hr)
    as [_ Hin].
  apply in_joined_data_filled in Hin. destruct Hin as [s [k [Hs [Hk [Ek Ejoin]]]]].
  apply in_latest_per_product in Hs. destruct Hs as [Hs Hmax].
  exists s, k. unfold vpid. unfold vcategory in Hcat. rewrite Ejoin in *.
  cbn [join_row productId recommend category drop_ranking with_recommend
       lb_productId lb_recommend rl_row rl_recommend] in *.
  repeat split; try assumption; try reflexivity.
Qed.

(** X12. The counts of the overall block of the report are the sums of the
    counts of the four category blocks. *)
Theorem overall_counts_are_sums (types : KeywordTypes)
  (vd : list VectorizedRecord) (t : Trained Model)
  (acc : PerCategory Accuracy * PerCategory Accuracy)
  (results : PerCategory (list PredictionRecord)) (report : Report) :
  train_models fit nextDouble types vd = Ok t ->
  predict_and_evaluate predict types t acc = Ok (results, report) ->
  tp (overall_counts report) = list_sum (map tp (category_counts report)) /\
  fn (overall_counts report) = list_sum (map fn (category_counts report)) /\
  fp (overall_counts report) = list_sum (map fp (category_counts report)) /\
  tn (overall_counts report) = list_sum (map tn (category_counts report)).
Proof.
  intros Ht Hp.
  pose proof Ht as Ht'. apply train_models_Ok in Ht'.
  destruct Ht' as [_ [_ [_ [_ [S _]]]]].
  rewrite predict_and_evaluate_Ok in Hp by exact S.
  inversion Hp; subst results report; clear Hp.
  rewrite (category_counts_report Model fit predict nextDouble types vd t _ Ht).
  unfold report_of, categories. cbn [overall_counts map list_sum fold_right].
  change (field "clothes_top" (results_of predict t))
    with (clothes_top (results_of predict t)).
  change (field "pants" (results_of predict t)) with (pants (results_of predict t)).
  change (field "shoes" (results_of predict t)) with (shoes (results_of predict t)).
  change (field "outers" (results_of predict t)) with (outers (results_of predict t)).
  unfold confusion, union_all, count_where. cbn [tp fn fp tn].
  rewrite !filter_app, !length_app. lia.
Qed.

End FurtherPipeline.

Lemma ex_evaluate_models :
  evaluate_models ex_predict (inferSchema ex_keywords) ex_trained = Ok ex_acc.
Proof. vm_compute. reflexivity. Qed.

Lemma accuracy_agrees_with_confusion_witness :
  preprocess_data ex_rankings ex_keywords = Ok ex_encoded /\
  vectorize_keywords true ex_encoded = Ok ex_vd /\
  train_models ex_fit ex_nextDouble (inferSchema ex_keywords) ex_vd = Ok ex_trained /\
  evaluate_models ex_predict (inferSchema ex_keywords) ex_trained = Ok ex_acc /\
  predict_and_evaluate ex_predict (inferSchema ex_keywords) ex_trained ex_acc
  = Ok (ex_results, ex_report) /\
  In "shoes"%string categories /\
  correct (field "shoes" (test_accuracy ex_report))
  = (tp (confusion "shoes" (field "shoes" ex_results))
     + tn (confusion "shoes" (field "shoes" ex_results)))%nat.
Proof.
  assert (Hc : In "shoes"%string categories) by (simpl; tauto).
  split; [exact ex_preprocess_data|].
  split; [exact (ex_vectorize_keywords true)|].
  split; [exact ex_train_models|]. split; [exact ex_evaluate_models|].
  split; [exact ex_predict_and_evaluate|]. split; [exact Hc|].
  exact (proj1 (proj2 (proj2 (proj2
    (accuracy_agrees_with_confusion unit ex_fit ex_predict ex_nextDouble true
       ex_rankings ex_keywords ex_encoded ex_vd ex_trained ex_acc ex_results ex_report
       "shoes" ex_preprocess_data (ex_vectorize_keywords true) ex_train_models
       ex_evaluate_models ex_predict_and_evaluate Hc))))).
Defined.

(** Product 1 is predicted by the model of shoes, which was fitted on
    product 2. *)
Lemma test_products_not_in_train_witness :
  NoDup (map kw_productId ex_keywords) /\
  preprocess_data ex_rankings ex_keywords = Ok ex_encoded /\
  vectorize_keywords true ex_encoded = Ok ex_vd /\
  train_models ex_fit ex_nextDouble (inferSchema ex_keywords) ex_vd = Ok ex_trained /\
  In "shoes"%string categories /\
  In {| pr_productId := 1; pr_category := "shoes"; pr_recommend := 1;
        predicted_recommend := 1 |}
     (field "shoes" (results_of ex_predict ex_trained)) /\
  ~ In 1 (map vpid (field "shoes" (cat_data_train ex_trained))).
Proof.
  assert (Hk : NoDup (map kw_productId ex_keywords)).
  { vm_compute. repeat constructor; simpl; intros H;
      repeat (destruct H as [H|H]; [discriminate|]); exact H. }
  assert (Hc : In "shoes"%string categories) by (simpl; tauto).
  assert (Hp : In {| pr_productId := 1; pr_category := "shoes"; pr_recommend := 1;
                     predicted_recommend := 1 |}
                  (field "shoes" (results_of ex_predict ex_trained)))
    by (vm_compute; in_list).
  split; [exact Hk|]. split; [exact ex_preprocess_data|].
  split; [exact (ex_vectorize_keywords true)|]. split; [exact ex_train_models|].
  split; [exact Hc|]. split; [exact Hp|].
  exact (test_products_not_in_train unit ex_fit ex_predict ex_nextDouble true
           ex_rankings ex_keywords ex_encoded ex_vd ex_trained "shoes" "shoes" _ Hk
           ex_preprocess_data (ex_vectorize_keywords true) ex_train_models Hc Hc Hp).
Defined.

Lemma prediction_rows_trace_to_inputs_witness :
  run_to_report ex_fit ex_predict ex_nextDouble true ex_rankings ex_keywords
  = Ok (ex_results, ex_report) /\
  In {| pr_productId := 1; pr_category := "shoes"; pr_recommend := 1;
        predicted_recommend := 1 |} (union_all ex_results) /\
  In "shoes"%string categories.
Proof.
  assert (Hp : In {| pr_productId := 1; pr_category := "shoes"; pr_recommend := 1;
                     predicted_recommend := 1 |} (union_all ex_results))
    by (vm_compute; in_list).
  split; [exact (ex_run_to_report true)|]. split; [exact Hp|].
  exact (proj1 (prediction_rows_trace_to_inputs unit ex_fit ex_predict ex_nextDouble
                  true ex_rankings ex_keywords ex_results ex_report _
                  (ex_run_to_report true) Hp)).
Defined.

Lemma overall_counts_are_sums_witness :
  train_models ex_fit ex_nextDouble (inferSchema ex_keywords) ex_vd = Ok ex_trained /\
  predict_and_evaluate ex_predict (inferSchema ex_keywords) ex_trained ex_acc
  = Ok (ex_results, ex_report) /\
  tp (overall_counts ex_report) = list_sum (map tp (category_counts ex_report)).
Proof.
  split; [exact ex_train_models|]. split; [exact ex_predict_and_evaluate|].
  exact (proj1 (overall_counts_are_sums unit ex_fit ex_predict ex_nextDouble
                  (inferSchema ex_keywords) ex_vd ex_trained ex_acc ex_results
                  ex_report ex_train_models ex_predict_and_evaluate)).
Defined.

(** ** Lines 208-235: the two rates *)

Lemma ratio_or_zero_hundredths (num den : nat) :
  (num <= den)%nat ->
  exists k : Z, 0 <= k <= 100 /\ (ratio_or_zero num den == k # 100)%Q.
Proof.
  intros H. pose proof (ratio_or_zero_rounded num den H) as R.
  unfold rounded_ratio in R. destruct (0 <? den)%nat eqn:D.
  - destruct R as [[k Ek] [H1 H2]]. exists k.
    split; [|rewrite Ek; reflexivity].
    rewrite Ek in H1. apply Nat.ltb_lt in D.
    set (x := truediv (Z.of_nat num) (Z.of_nat den)) in *.
    set (q := Qmake (Z.of_nat num) (Z.to_pos (Z.of_nat den))) in *.
    assert (Hq : (0 <= q)%Q /\ (q <= 1)%Q).
    { unfold q, Qle. cbn [Qnum Qden]. rewrite Z2Pos.id by lia. lia. }
    apply Qabs_Qle_condition in H1. apply Qabs_Qle_condition in H2.
    assert (B1 : (k # 100 < 101 # 100)%Q) by lra.
    assert (B2 : (- (1 # 100) < k # 100)%Q) by lra.
    unfold Qlt in B1, B2. cbn [Qnum Qden Qopp] in B1, B2. lia.
  - exists 0. split; [lia|]. rewrite R. reflexivity.
Qed.

Lemma ratio_or_zero_0 (den : nat) : (ratio_or_zero 0 den == 0)%Q.
Proof.
  unfold ratio_or_zero. destruct (0 <? den)%nat; [|reflexivity].
  change (Z.of_nat 0) with 0. unfold truediv.
  change (0 <=? 0) with true. cbv iota. vm_compute. reflexivity.
Qed.

Lemma truediv_self (a : Z) : 0 < a -> (truediv a a == 1)%Q.
Proof.
  intros Ha. unfold truediv. destruct (Z.leb_spec a 0) as [L|_]; [lia|].
  cbv zeta. replace (52 + Z.log2 a - Z.log2 a) with 52 by lia.
  rewrite Z.ltb_irrefl. cbv iota.
  change (Z.max 52 0) with 52. change (Z.max (- (52)) 0) with 0.
  change (2 ^ 0) with 1. rewrite !Z.mul_1_r.
  unfold round_half_even. cbn [Qnum Qden].
  rewrite Z2Pos.id by lia.
  rewrite (Z.mul_comm a (2 ^ 52)), Z.div_mul, Z.mod_mul by lia.
  destruct (Z.ltb_spec (2 * 0) a) as [_|L]; [|lia].
  vm_compute. reflexivity.
Qed.

Lemma ratio_or_zero_all (n : nat) : (0 < n)%nat -> (ratio_or_zero n n == 1)%Q.
Proof.
  intros Hn. unfold ratio_or_zero.
  destruct (Nat.ltb_spec 0 n) as [_|L]; [|lia].
  unfold round2.
  assert (E : (truediv (Z.of_nat n) (Z.of_nat n) * (100 # 1) == 100 # 1)%Q)
    by (rewrite truediv_self by lia; reflexivity).
  unfold Qeq in *. cbn [Qnum Qden] in *.
  set (x := (truediv (Z.of_nat n) (Z.of_nat n) * (100 # 1))%Q) in *.
  unfold round_half_even. cbv zeta.
  assert (Hnum : Qnum x = 100 * Zpos (Qden x)) by lia.
  rewrite Hnum, Z.mul_comm, Z.div_mul, Z.mod_mul by lia.
  destruct (Z.ltb_spec (2 * 0) (Zpos (Qden x))) as [_|L]; [|lia].
  reflexivity.
Qed.

(** X13. The recall and the precision of every block of the report are
    whole hundredths between 0.00 and 1.00; both are 0.0 when the block has
    no true positive, and the float division and the rounding leave 1.0
    exact: the recall is 1.0 when there are true positives and no false
    negative, the precision is 1.0 when there are true positives and no
    false positive. *)
Theorem rates_are_hundredths (name : string) (l : list PredictionRecord) :
  (exists k : Z, 0 <= k <= 100 /\ (recall (confusion name l) == k # 100)%Q) /\
  (exists k : Z, 0 <= k <= 100 /\ (precision (confusion name l) == k # 100)%Q) /\
  (tp (confusion name l) = 0%nat ->
   (recall (confusion name l) == 0)%Q /\ (precision (confusion name l) == 0)%Q) /\
  ((0 < tp (confusion name l))%nat -> fn (confusion name l) = 0%nat ->
   (recall (confusion name l) == 1)%Q) /\
  ((0 < tp (confusion name l))%nat -> fp (confusion name l) = 0%nat ->
   (precision (confusion name l) == 1)%Q).
Proof.
  unfold confusion. cbn [recall precision tp fn fp].
  split; [apply ratio_or_zero_hundredths; lia|].
  split; [apply ratio_or_zero_hundredths; lia|].
  split; [|split].
  - intros ->. split; apply ratio_or_zero_0.
  - intros Hp ->. rewrite Nat.add_0_r. apply ratio_or_zero_all, Hp.
  - intros Hp ->. rewrite Nat.add_0_r. apply ratio_or_zero_all, Hp.
Qed.

(** The block of shoes of the small run: one true positive, no false
    negative. *)
Lemma rates_are_hundredths_witness :
  (0 < tp (confusion "shoes" (shoes ex_results)))%nat /\
  fn (confusion "shoes" (shoes ex_results)) = 0%nat /\
  (recall (confusion "shoes" (shoes ex_results)) == 1)%Q.
Proof.
  assert (H1 : (0 < tp (confusion "shoes" (shoes ex_results)))%nat)
    by (vm_compute; lia).
  assert (H2 : fn (confusion "shoes" (shoes ex_results)) = 0%nat)
    by (vm_compute; reflexivity).
  split; [exact H1|]. split; [exact H2|].
  exact (proj1 (proj2 (proj2 (proj2
    (rates_are_hundredths "shoes" (shoes ex_results))))) H1 H2).
Defined.

(** ** Lines 24-122 and 250-263: how a run fails *)

Lemma not_normal_not_kept (joined : list EncodedRecord) (r : EncodedRecord) :
  Forall (fun t => normalize t <> t) (keywords r) ->
  filter_keywords (top_keywords_list joined) r = [].
Proof.
  intros H.
  destruct (filter_keywords (top_keywords_list joined) r) as [|t ts] eqn:E;
    [reflexivity|].
  assert (Ht : In t (filter_keywords (top_keywords_list joined) r))
    by (rewrite E; left; reflexivity).
  unfold filter_keywords in Ht. apply filter_In in Ht. destruct Ht as [Hk Hc].
  apply (mem_true_iff text_eq_dec) in Hc. apply top_keywords_normal in Hc.
  rewrite Forall_forall in H. destruct (H t Hk Hc).
Qed.

(** X14. The vectorizer looks the raw elements of a keyword array up in a
    list of normalized keywords, so a table in which no element is written
    in normal form (each holds a capital letter, a digit, a space or another
    character the regular expression removes) leaves every row without a
    kept keyword and the CountVectorizer with an empty vocabulary. A
    CountVectorizer that requires a vocabulary raises on it; one that does
    not returns every row with a count vector without entries. *)
Theorem keywords_not_in_normal_form_empty_vocabulary (joined : list EncodedRecord) :
  Forall (fun r => Forall (fun t => normalize t <> t) (keywords r)) joined ->
  Forall (fun r => filter_keywords (top_keywords_list joined) r = []) joined /\
  fitted_vocabulary joined = [] /\
  vectorize_keywords true joined
  = Raise (IllegalArgumentException
             "requirement failed: The vocabulary size should be > 0. Lower minDF as necessary.") /\
  exists vd,
    vectorize_keywords false joined = Ok vd /\
    map vec_row vd = joined /\
    Forall (fun r => filtered_keywords r = [] /\ keyword_features r = []) vd.
Proof.
  intros H.
  assert (K : Forall (fun r => filter_keywords (top_keywords_list joined) r = []) joined).
  { apply Forall_forall. intros r Hr. apply not_normal_not_kept.
    rewrite Forall_forall in H. exact (H r Hr). }
  assert (V : fitted_vocabulary joined = [])
    by (apply fitted_vocabulary_nil_iff, K).
  split; [exact K|]. split; [exact V|].
  rewrite !vectorize_keywords_unfold, V.
  split; [reflexivity|].
  eexists. split; [reflexivity|].
  split; [rewrite map_map; cbn [vectorized_row vec_row]; apply map_id|].
  apply Forall_forall. intros v Hv. apply in_map_iff in Hv.
  destruct Hv as [r [<- Hr]]. unfold vectorized_row.
  cbn [filtered_keywords keyword_features]. rewrite V.
  rewrite Forall_forall in K. split; [exact (K r Hr) | reflexivity].
Qed.

(** Two products whose keywords are Nike, Shoes and Top. *)
Lemma keywords_not_in_normal_form_empty_vocabulary_witness :
  preprocess_data ex_rankings ex_keywords_capitals = Ok ex_encoded_capitals /\
  Forall (fun r => Forall (fun t => normalize t <> t) (keywords r))
    ex_encoded_capitals /\
  vectorize_keywords true ex_encoded_capitals
  = Raise (IllegalArgumentException
             "requirement failed: The vocabulary size should be > 0. Lower minDF as necessary.") /\
  exists vd, vectorize_keywords false ex_encoded_capitals = Ok vd /\
             map keyword_features vd = [[]; []].
Proof.
  assert (H : Forall (fun r => Forall (fun t => normalize t <> t) (keywords r))
                ex_encoded_capitals).
  { assert (B : forallb
                  (fun r => forallb
                              (fun t => if text_eq_dec (normalize t) t
                                        then false else true)
                              (keywords r))
                  ex_encoded_capitals = true)
      by (vm_compute; reflexivity).
    apply Forall_forall. intros r Hr. apply Forall_forall. intros t Ht.
    rewrite forallb_forall in B. specialize (B r Hr).
    rewrite forallb_forall in B. specialize (B t Ht).
    destruct (text_eq_dec (normalize t) t); [discriminate | assumption]. }
  split; [vm_compute; reflexivity|].
  split; [exact H|].
  destruct (keywords_not_in_normal_form_empty_vocabulary ex_encoded_capitals H)
    as [_ [_ [R _]]].
  split; [exact R|].
  exists (force [] (vectorize_keywords false ex_encoded_capitals)).
  split; vm_compute; reflexivity.
Defined.

Lemma joined_data_filled_no_common_product (rankings : list RankingRecord)
  (kws : list KeywordRecord) :
  (forall p, In p (map rk_productId rankings) -> ~ In p (map kw_productId kws)) ->
  joined_data_filled rankings kws = [].
Proof.
  intros H.
  destruct (joined_data_filled rankings kws) as [|j js] eqn:E; [reflexivity|].
  assert (Hj : In (productId j) (map productId (joined_data_filled rankings kws)))
    by (rewrite E; left; reflexivity).
  apply joined_data_filled_keys in Hj. destruct Hj as [Hr Hk].
  destruct (H _ Hr Hk).
Qed.

Lemma inferSchema_column_string {A : Type} (col : list (option A)) :
  inferSchema_column col = StringType <-> forall o, In o col -> o = None.
Proof.
  split.
  - intros H [a|] Ho; [|reflexivity]. exfalso.
    apply (proj2 (inferSchema_column_numeric col)); [exists a; exact Ho | exact H].
  - intros H. destruct (inferSchema_column col) eqn:E; try reflexivity; exfalso.
    + assert (N : inferSchema_column col <> StringType) by (rewrite E; discriminate).
      apply inferSchema_column_numeric in N. destruct N as [a Ha].
      specialize (H _ Ha). discriminate H.
    + assert (N : inferSchema_column col <> StringType) by (rewrite E; discriminate).
      apply inferSchema_column_numeric in N. destruct N as [a Ha].
      specialize (H _ Ha). discriminate H.
Qed.

Lemma inferSchema_unsupported (kws : list KeywordRecord) (e : exn) :
  VectorAssembler_transformSchema (inferSchema kws) = Raise e ->
  (exists msg, e = IllegalArgumentException msg) /\
  ((forall k, In k kws -> kw_rating k = None) \/
   (forall k, In k kws -> kw_ratingCount k = None)).
Proof.
  intros H. split.
  - destruct (VectorAssembler_transformSchema_cases (inferSchema kws)) as [S|[msg S]];
      rewrite S in H; [discriminate H|].
    inversion H. exists msg. reflexivity.
  - destruct (inferSchema_column (map kw_rating kws)) eqn:R1;
      destruct (inferSchema_column (map kw_ratingCount kws)) eqn:R2;
      try (left; intros k Hk;
           apply (proj1 (inferSchema_column_string (map kw_rating kws)) R1),
             in_map, Hk);
      try (right; intros k Hk;
           apply (proj1 (inferSchema_column_string (map kw_ratingCount kws)) R2),
             in_map, Hk);
      exfalso;
      assert (S : VectorAssembler_transformSchema (inferSchema kws) = Ok tt)
        by (apply VectorAssembler_transformSchema_Ok; unfold inferSchema;
            cbn [rating_type ratingCount_type]; rewrite R1, R2;
            split; discriminate);
      rewrite S in H; discriminate H.
Qed.

Section FailureModes.

Variable Model : Type.
Variable fit : list (list Q * Z) -> option Model.
Variable predict : Model -> list Q -> Z.
Variable nextDouble : Z -> nat -> Q.

Lemma train_models_Raise (types : KeywordTypes) (vd : list VectorizedRecord) (e : exn) :
  train_models fit nextDouble types vd = Raise e ->
  VectorAssembler_transformSchema types = Raise e \/
  (VectorAssembler_transformSchema types = Ok tt /\ e = ClassifierException /\
   exists c, In c categories /\
             (field c (train_of nextDouble vd) = [] \/
              fit (labeled_points (field c (train_of nextDouble vd))) = None)).
Proof.
  rewrite train_models_unfold. intros H.
  assert (G : forall c, In c categories ->
              train_model fit types (field c (train_of nextDouble vd)) = Raise e ->
              VectorAssembler_transformSchema types = Raise e \/
              (VectorAssembler_transformSchema types = Ok tt /\ e = ClassifierException /\
               exists c, In c categories /\
                         (field c (train_of nextDouble vd) = [] \/
                          fit (labeled_points (field c (train_of nextDouble vd))) = None))).
  { intros c Hc R. apply train_model_Raise in R.
    destruct R as [R|[S [E R]]]; [left; exact R|].
    right. split; [exact S|]. split; [exact E|]. exists c. split; [exact Hc | exact R]. }
  destruct (train_model fit types (clothes_top (train_of nextDouble vd))) as [m1|e1] eqn:T1;
    [|cbn [bind] in H; inversion H; subst e1;
      exact (G "clothes_top"%string ltac:(simpl; tauto) T1)].
  destruct (train_model fit types (pants (train_of nextDouble vd))) as [m2|e2] eqn:T2;
    [|cbn [bind] in H; inversion H; subst e2;
      exact (G "pants"%string ltac:(simpl; tauto) T2)].
  destruct (train_model fit types (shoes (train_of nextDouble vd))) as [m3|e3] eqn:T3;
    [|cbn [bind] in H; inversion H; subst e3;
      exact (G "shoes"%string ltac:(simpl; tauto) T3)].
  destruct (train_model fit types (outers (train_of nextDouble vd))) as [m4|e4] eqn:T4;
    [cbn [bind] in H; discriminate H|].
  cbn [bind] in H. inversion H; subst e4.
  exact (G "outers"%string ltac:(simpl; tauto) T4).
Qed.

(** X15. On tables whose only nulls are in the four columns [fillna] fills,
    the five method calls of [main] before [save_results] raise in these
    cases only. In [preprocess_data]: the encoder's exception for brand_index
    when the joined table has fewer than two brands, and else the one for
    colors_index when it has fewer than two colours. In [vectorize_keywords]:
    the exception for an empty vocabulary, when the CountVectorizer requires
    a vocabulary and no row keeps a keyword. In [train_models]: the
    assembler's exception when no row of the keyword table has a rating or
    none has a ratingCount, and else the classifier's exception when the
    train table of a category is empty or the fit on it fails. The
    evaluation and the report do not raise. *)
Theorem run_to_report_raises (vocabulary_required : bool)
  (rankings : list RankingRecord) (kws : list KeywordRecord) (e : exn) :
  run_to_report fit predict nextDouble vocabulary_required rankings kws = Raise e ->
  (preprocess_data rankings kws = Raise e /\
   (((brand_count (joined_data_filled rankings kws) < 2)%nat /\
     e = IllegalArgumentException
           "requirement failed: The input column brand_index should have at least two distinct values.") \/
    ((2 <= brand_count (joined_data_filled rankings kws))%nat /\
     (colors_count (joined_data_filled rankings kws) < 2)%nat /\
     e = IllegalArgumentException
           "requirement failed: The input column colors_index should have at least two distinct values."))) \/
  (exists joined,
     preprocess_data rankings kws = Ok joined /\
     ((vectorize_keywords vocabulary_required joined = Raise e /\
       vocabulary_required = true /\
       Forall (fun r => filter_keywords (top_keywords_list joined) r = []) joined /\
       e = IllegalArgumentException
             "requirement failed: The vocabulary size should be > 0. Lower minDF as necessary.") \/
      (exists vd,
         vectorize_keywords vocabulary_required joined = Ok vd /\
         train_models fit nextDouble (inferSchema kws) vd = Raise e /\
         ((VectorAssembler_transformSchema (inferSchema kws) = Raise e /\
           (exists msg, e = IllegalArgumentException msg) /\
           ((forall k, In k kws -> kw_rating k = None) \/
            (forall k, In k kws -> kw_ratingCount k = None))) \/
          (VectorAssembler_transformSchema (inferSchema kws) = Ok tt /\
           e = ClassifierException /\
           exists c, In c categories /\
                     (field c (train_of nextDouble vd) = [] \/
                      fit (labeled_points (field c (train_of nextDouble vd))) = None)))))).
Proof.
  rewrite run_to_report_unfold.
  destruct (preprocess_data rankings kws) as [joined|e0] eqn:E0.
  - cbn [bind]. intros H. right. exists joined. split; [reflexivity|].
    destruct (vectorize_keywords vocabulary_required joined) as [vd|e1] eqn:E1.
    + cbn [bind] in H. right. exists vd. split; [reflexivity|].
      destruct (train_models fit nextDouble (inferSchema kws) vd) as [t|e2] eqn:E2.
      * exfalso. cbn [bind] in H.
        pose proof E2 as E2'. apply train_models_Ok in E2'.
        destruct E2' as [_ [_ [_ [_ [S _]]]]].
        rewrite evaluate_models_Ok in H by exact S. cbn [bind] in H.
        rewrite predict_and_evaluate_Ok in H by exact S. discriminate H.
      * cbn [bind] in H. inversion H; subst e2; clear H.
        split; [reflexivity|].
        destruct (train_models_Raise _ _ _ E2) as [S|R]; [left | right; exact R].
        split; [exact S|]. apply inferSchema_unsupported, S.
    + cbn [bind] in H. inversion H; subst e1; clear H. left.
      split; [reflexivity|].
      rewrite vectorize_keywords_unfold in E1.
      destruct (fitted_vocabulary joined) eqn:V; [|discriminate E1].
      destruct vocabulary_required; [|discriminate E1].
      split; [reflexivity|].
      split; [apply fitted_vocabulary_nil_iff, V|].
      inversion E1. reflexivity.
  - cbn [bind]. intros H. inversion H; subst e0; clear H. left.
    split; [reflexivity|].
    unfold preprocess_data in E0. rewrite encode_table_unfold in E0.
    destruct (Nat.leb_spec (brand_count (joined_data_filled rankings kws)) 1) as [B|B].
    + left. split; [lia|]. inversion E0. reflexivity.
    + right. split; [lia|].
      destruct (Nat.leb_spec (colors_count (joined_data_filled rankings kws)) 1) as [C|C];
        [|discriminate E0].
      split; [lia|]. inversion E0. reflexivity.
Qed.

(** X16. When no product has a row in both input tables the joined table is
    empty and the run ends in [preprocess_data], where the fit of the
    encoders raises for brand_index: nothing is vectorized, trained, printed
    or written. *)
Theorem no_common_product_run (vocabulary_required : bool)
  (rankings : list RankingRecord) (kws : list KeywordRecord) :
  (forall p, In p (map rk_productId rankings) -> ~ In p (map kw_productId kws)) ->
  joined_data_filled rankings kws = [] /\
  preprocess_data rankings kws
  = Raise (IllegalArgumentException
             "requirement failed: The input column brand_index should have at least two distinct values.") /\
  main fit predict nextDouble vocabulary_required rankings kws
  = {| printed := None;
       written := [];
       raised := Some (IllegalArgumentException
                         "requirement failed: The input column brand_index should have at least two distinct values.") |}.
Proof.
  intros H.
  pose proof (joined_data_filled_no_common_product rankings kws H) as E.
  assert (P : preprocess_data rankings kws
              = Raise (IllegalArgumentException
                         "requirement failed: The input column brand_index should have at least two distinct values.")).
  { unfold preprocess_data. rewrite E. reflexivity. }
  split; [exact E|]. split; [exact P|].
  unfold main. rewrite run_to_report_unfold, P. reflexivity.
Qed.

End FailureModes.

(** Without a ratingCount in the keyword table the run ends at the first
    fit of [train_models], with the assembler's exception. *)
Lemma run_to_report_raises_witness :
  run_to_report ex_fit ex_predict ex_nextDouble true ex_rankings
    ex_keywords_no_ratingCount
  = Raise (IllegalArgumentException
             "Data type string of column ratingCount is not supported.") /\
  exists joined vd,
    preprocess_data ex_rankings ex_keywords_no_ratingCount = Ok joined /\
    vectorize_keywords true joined = Ok vd /\
    forall k, In k ex_keywords_no_ratingCount -> kw_ratingCount k = None.
Proof.
  assert (H : run_to_report ex_fit ex_predict ex_nextDouble true ex_rankings
                ex_keywords_no_ratingCount
              = Raise (IllegalArgumentException
                         "Data type string of column ratingCount is not supported."))
    by (vm_compute; reflexivity).
  split; [exact H|].
  destruct (run_to_report_raises unit ex_fit ex_predict ex_nextDouble true ex_rankings
              ex_keywords_no_ratingCount _ H)
    as [[P _]|[joined [Hj [[V _]|[vd [Hv [_ [[_ [_ [R|R]]]|[_ [E _]]]]]]]]]].
  - exfalso. vm_compute in P. discriminate P.
  - exfalso. apply preprocess_data_Ok in Hj. subst joined.
    vm_compute in V. discriminate V.
  - exfalso. specialize (R (nth 0 ex_keywords_no_ratingCount
                                (ex_keyword 0 "" None None ""))
                           ltac:(vm_compute; in_list)).
    vm_compute in R. discriminate R.
  - exists joined, vd. split; [exact Hj|]. split; [exact Hv | exact R].
  - discriminate E.
Defined.

(** The rankings of the small run against a keyword row of product 10. *)
Lemma no_common_product_run_witness :
  (forall p, In p (map rk_productId ex_rankings) ->
             ~ In p (map kw_productId [ex_keyword 10 "Nike" None None "shoes"])) /\
  preprocess_data ex_rankings [ex_keyword 10 "Nike" None None "shoes"]
  = Raise (IllegalArgumentException
             "requirement failed: The input column brand_index should have at least two distinct values.").
Proof.
  assert (H : forall p, In p (map rk_productId ex_rankings) ->
                        ~ In p (map kw_productId [ex_keyword 10 "Nike" None None "shoes"])).
  { intros p Hp [<-|[]]. vm_compute in Hp.
    repeat (destruct Hp as [Hp|Hp]; [discriminate Hp|]). exact Hp. }
  split; [exact H|].
  exact (proj1 (proj2 (no_common_product_run unit ex_fit ex_predict ex_nextDouble true
                         ex_rankings [ex_keyword 10 "Nike" None None "shoes"] H))).
Defined.
